(** * Family-care backend: permissions, memberships, notifications, reminders

  A shallow embedding of the TypeScript sources

  - the auth middleware (checkFamilyPermission),
  - the family routes (invite, accept, decline, permissions, remove,
    transfer-admin) and the appointment routes (POST, PUT, PATCH status,
    DELETE),
  - services/notification.service.ts (createNotification,
    sendPushNotification, sendMedicationReminders),
  - jobs/scheduler.ts (the appointment status cron),
  - the database schema (tables, keys, the updated_at trigger).

  The relational store is a record of tables (lists of rows); an [async]
  function is a state transformer over the store that either completes
  normally or throws.  The push channel and the values the store generates
  (row ids, the clock) are inputs. *)

From Stdlib Require Import ZArith List String Ascii Bool Lia Permutation.
Import ListNotations.
Local Open Scope string_scope.

(* ================================================================== *)
(** * Data model (schema.sql) *)
(* ================================================================== *)

Module Schema.

(** role TEXT CHECK (role IN ('admin','editor','viewer')) *)
Inductive Role := admin | editor | viewer.

(** status TEXT CHECK (status IN ('active','pending','inactive')) *)
Inductive Status := active | pending | inactive.

(** permissions JSONB: {can_view, can_edit, can_delete} *)
Record Permissions := mkPermissions {
  can_view : bool;
  can_edit : bool;
  can_delete : bool }.

(** family_members; the created_at / updated_at / invited_at columns are
    read by no handler and are left out.  [fm_permissions] is nullable
    (the handlers read it through [permissions?.flag]). *)
Record FamilyMember := mkFamilyMember {
  fm_id : string;
  fm_parent_id : string;
  fm_user_id : string;
  fm_role : Role;
  fm_permissions : option Permissions;
  fm_status : Status;
  fm_invited_by : option string;
  fm_accepted_at : option Z }.

Record Profile := mkProfile {
  pr_id : string;
  pr_email : string;
  pr_full_name : string }.

Record Parent := mkParent {
  pa_id : string;
  pa_name : string }.

(** medications: times TEXT[] holds strings such as 08:00 *)
Record Medication := mkMedication {
  med_id : string;
  med_parent_id : string;
  med_name : string;
  med_dosage : string;
  med_times : list string;
  med_is_active : bool }.

Inductive AppointmentStatus := scheduled | completed | cancelled | missed.

(** appointments; timestamps are instants on the integer time line *)
Record Appointment := mkAppointment {
  apt_id : string;
  apt_parent_id : string;
  apt_scheduled_at : Z;
  apt_status : AppointmentStatus;
  apt_outcome : option string;
  apt_updated_at : Z }.

Inductive NotificationType := medication | appointment | document | family | system.

(** notifications, with the columns the insert in createNotification
    writes; id and created_at are filled by column defaults *)
Record Notification := mkNotification {
  n_user_id : string;
  n_type : NotificationType;
  n_title : string;
  n_message : string;
  n_data : list (string * string);
  n_is_read : bool }.

Record PushSubscriptionRow := mkPushSubscriptionRow {
  ps_id : string;
  ps_user_id : string;
  ps_endpoint : string;
  ps_keys : string * string;
  ps_is_active : bool }.

Definition Role_eqb (a b : Role) : bool :=
  match a, b with
  | admin, admin | editor, editor | viewer, viewer => true
  | _, _ => false
  end.

Definition Status_eqb (a b : Status) : bool :=
  match a, b with
  | active, active | pending, pending | inactive, inactive => true
  | _, _ => false
  end.

Definition AppointmentStatus_eqb (a b : AppointmentStatus) : bool :=
  match a, b with
  | scheduled, scheduled | completed, completed
  | cancelled, cancelled | missed, missed => true
  | _, _ => false
  end.

End Schema.
Export Schema.

(* ================================================================== *)
(** * The store and the effects of an async function *)
(* ================================================================== *)

Module Store.

Record Db := mkDb {
  profiles : list Profile;
  parents : list Parent;
  family_members : list FamilyMember;
  medications : list Medication;
  appointments : list Appointment;
  notifications : list Notification;
  push_subscriptions : list PushSubscriptionRow }.

Definition with_family_members (d : Db) (l : list FamilyMember) : Db :=
  mkDb (profiles d) (parents d) l (medications d) (appointments d)
       (notifications d) (push_subscriptions d).

Definition with_appointments (d : Db) (l : list Appointment) : Db :=
  mkDb (profiles d) (parents d) (family_members d) (medications d) l
       (notifications d) (push_subscriptions d).

Definition with_notifications (d : Db) (l : list Notification) : Db :=
  mkDb (profiles d) (parents d) (family_members d) (medications d)
       (appointments d) l (push_subscriptions d).

Definition with_push_subscriptions (d : Db) (l : list PushSubscriptionRow) : Db :=
  mkDb (profiles d) (parents d) (family_members d) (medications d)
       (appointments d) (notifications d) l.

(** What a rejected promise or a [throw] carries. *)
Inductive Exn :=
| PostgrestError (constraint : string)
| WebPushError (statusCode : option Z)
| TypeError.

Inductive LogLine :=
| console_log (text : string)
| console_error (text : string) (e : option Exn).

Record World := mkWorld {
  db : Db;
  console : list LogLine }.

Inductive Completion (A : Type) :=
| Normal (a : A)
| Throw (e : Exn).
Arguments Normal {A} a.
Arguments Throw {A} e.

(** An async function body: runs on the world, completes or throws. *)
Definition M (A : Type) : Type := World -> Completion A * World.

Definition ret {A} (a : A) : M A := fun w => (Normal a, w).

Definition bind {A B} (m : M A) (k : A -> M B) : M B :=
  fun w =>
    match m w with
    | (Normal a, w') => k a w'
    | (Throw e, w') => (Throw e, w')
    end.

Definition throw {A} (e : Exn) : M A := fun w => (Throw e, w).

(** try { body } catch (error) { handler error } *)
Definition try_catch {A} (body : M A) (handler : Exn -> M A) : M A :=
  fun w =>
    match body w with
    | (Normal a, w') => (Normal a, w')
    | (Throw e, w') => handler e w'
    end.

Definition read {A} (q : Db -> A) : M A := fun w => (Normal (q (db w)), w).

Definition write (f : Db -> Db) : M unit :=
  fun w => (Normal tt, mkWorld (f (db w)) (console w)).

Definition log (l : LogLine) : M unit :=
  fun w => (Normal tt, mkWorld (db w) (console w ++ [l])).

(** for (const x of xs) { await body x } *)
Fixpoint for_of {A} (xs : list A) (body : A -> M unit) : M unit :=
  match xs with
  | [] => ret tt
  | x :: rest => bind (body x) (fun _ => for_of rest body)
  end.

(** PostgREST [.single()]: the row when exactly one row matches,
    otherwise data is null (and an error is reported). *)
Definition single {A} (rows : list A) : option A :=
  match rows with
  | [r] => Some r
  | _ => None
  end.

Definition mem_string (s : string) (l : list string) : bool :=
  existsb (String.eqb s) l.

End Store.
Export Store.

Declare Scope js_scope.
Delimit Scope js_scope with js.
Notation "x <- m ;; k" := (bind m (fun x => k))
(at level 61, m at next level, right associativity) : js_scope.
Notation "m ;;; k" := (bind m (fun _ => k))
(at level 61, right associativity) : js_scope.
Local Open Scope js_scope.

(* ================================================================== *)
(** * services/notification.service.ts *)
(* ================================================================== *)

Module NotificationService.

(** interface PushSubscription { endpoint; keys: { p256dh; auth } } *)
Record PushSubscription := mkPushSubscription {
  endpoint : string;
  keys : string * string }.

(** interface NotificationPayload *)
Record NotificationPayload := mkNotificationPayload {
  title : string;
  body : string;
  icon : option string;
  badge : option string;
  data : list (string * string);
  actions : list (string * string) }.

Definition string_of_type (t : NotificationType) : string :=
  match t with
  | medication => "medication"
  | appointment => "appointment"
  | document => "document"
  | family => "family"
  | system => "system"
  end.

(** [error && typeof error === 'object' && 'statusCode' in error
     && error.statusCode === 410] *)
Definition is_gone (error : Exn) : bool :=
  match error with
  | WebPushError (Some code) => Z.eqb code 410
  | _ => false
  end.

(** supabase.from('notifications').insert(row): the row is appended unless
    the foreign key [user_id REFERENCES profiles(id)] rejects it; the
    client reports the rejection in [error] and does not throw. *)
Definition insert_notification (row : Notification) : M (option Exn) :=
  fun w =>
    if mem_string (n_user_id row) (map pr_id (profiles (db w)))
    then (Normal None,
          mkWorld (with_notifications (db w) (notifications (db w) ++ [row]))
                  (console w))
    else (Normal (Some (PostgrestError "notifications_user_id_fkey")), w).

(** supabase.from('push_subscriptions').update({ is_active: false })
      .eq('id', id) *)
Definition deactivate_subscription (id : string) (d : Db) : Db :=
  with_push_subscriptions d
    (map (fun s =>
            if String.eqb (ps_id s) id
            then mkPushSubscriptionRow (ps_id s) (ps_user_id s) (ps_endpoint s)
                                       (ps_keys s) false
            else s)
         (push_subscriptions d)).

(** .from('push_subscriptions').select('*').eq('user_id', userId)
      .eq('is_active', true) *)
Definition active_subscriptions (userId : string) (d : Db) : list PushSubscriptionRow :=
  filter (fun s => String.eqb (ps_user_id s) userId && ps_is_active s)
         (push_subscriptions d).

Section PushChannel.

(** webpush.sendNotification(subscription, payload): [None] when the
    promise resolves, [Some error] when it rejects. *)
Variable webpush_sendNotification :
  PushSubscription -> NotificationPayload -> option Exn.

(** The callback mapped over the subscriptions.  The callbacks of one call
    write to distinct rows (one [id] each), so running them one after the
    other gives the store that [Promise.allSettled] waits for. *)
Definition send_to_subscription (userId : string) (payload : NotificationPayload)
    (sub : PushSubscriptionRow) : M unit :=
  try_catch
    (match webpush_sendNotification
             (mkPushSubscription (ps_endpoint sub) (ps_keys sub)) payload with
     | Some error => throw error
     | None => log (console_log ("Push sent to " ++ userId))
     end)
    (fun error =>
       log (console_error "Error sending push:" (Some error)) ;;;
       if is_gone error
       then write (deactivate_subscription (ps_id sub))
       else ret tt).

Definition sendPushNotification (userId : string) (payload : NotificationPayload)
    : M unit :=
  try_catch
    (subscriptions <- read (active_subscriptions userId) ;;
     match subscriptions with
     | [] => log (console_log ("No active push subscriptions for user " ++ userId))
     | _ => for_of subscriptions (send_to_subscription userId payload)
     end)
    (fun error => log (console_error "Error in sendPushNotification:" (Some error))).

Definition createNotification (userId : string) (type : NotificationType)
    (title message : string) (data : list (string * string)) : M unit :=
  try_catch
    (error <- insert_notification
                (mkNotification userId type title message data false) ;;
     match error with
     | Some e => throw e
     | None =>
         sendPushNotification userId
           (mkNotificationPayload title message
              (Some "/icon-192x192.png") (Some "/badge-72x72.png")
              (("type", string_of_type type) :: data)
              [("view", "Ver"); ("dismiss", "Dispensar")])
     end)
    (fun error => log (console_error "Error creating notification:" (Some error))).

(** notifyFamilyMemberAdded(parentId, newMemberId, addedByName) *)
Definition notifyFamilyMemberAdded (parentId newMemberId addedByName : string)
    : M unit :=
  try_catch
    (parent <- read (fun d =>
        single (filter (fun p => String.eqb (pa_id p) parentId) (parents d))) ;;
     match parent with
     | None => ret tt
     | Some p =>
         createNotification newMemberId family
           "👨‍👩‍👧‍👦 Adicionado à família"
           (addedByName ++ " adicionou você para ajudar a cuidar de " ++ pa_name p)
           [("parent_id", parentId)]
     end)
    (fun error => log (console_error "Error notifying family member:" (Some error))).

(** *** sendMedicationReminders *)

(** time.split(':') *)
Fixpoint split_colon_from (current : string) (s : string) : list string :=
  match s with
  | EmptyString => [current]
  | String c rest =>
      if Ascii.eqb c ":"
      then current :: split_colon_from "" rest
      else split_colon_from (current ++ String c "") rest
  end.

Definition split_colon (s : string) : list string := split_colon_from "" s.

Definition digit_value (c : ascii) : option Z :=
  let n := Z.of_nat (nat_of_ascii c) in
  if (Z.leb 48 n && Z.leb n 57)%bool then Some (n - 48)%Z else None.

Fixpoint Number_from (acc : Z) (s : string) : option Z :=
  match s with
  | EmptyString => Some acc
  | String c rest =>
      match digit_value c with
      | Some d => Number_from (10 * acc + d)%Z rest
      | None => None
      end
  end.

(** Number(s) on the strings a schedule holds, the two halves of an
    HH:MM time (the pattern of the medication schema admits no other
    entry): a run of decimal digits is its value and the empty string is
    0; [None] stands for NaN.  Outside runs of decimal digits this is not
    JavaScript's Number, which also reads blanks, signs, fractions,
    exponents and 0x literals; no statement below rests on its value
    there. *)
Definition Number (s : string) : option Z := Number_from 0 s.

(** const [hour, minute] = ...: a missing element is undefined, which
    behaves as NaN in [===] against a number and in a subtraction. *)
Definition element (i : nat) (parts : list (option Z)) : option Z :=
  match nth_error parts i with
  | Some v => v
  | None => None
  end.

(** a === b for a number-or-NaN [a] and a number [b] *)
Definition strict_eq (a : option Z) (b : Z) : bool :=
  match a with
  | Some x => Z.eqb x b
  | None => false
  end.

(** a - b *)
Definition minus (a : option Z) (b : Z) : option Z :=
  option_map (fun x => (x - b)%Z) a.

(** hour === currentHour && minute - currentMinute === 5 *)
Definition due_in_five (time : string) (currentHour currentMinute : Z) : bool :=
  let parts := map Number (split_colon time) in
  let hour := element 0 parts in
  let minute := element 1 parts in
  strict_eq hour currentHour && strict_eq (minus minute currentMinute) 5.

(** .from('family_members').select('user_id').eq('parent_id', parentId):
    no filter on status *)
Definition members_of_parent (parentId : string) (d : Db) : list FamilyMember :=
  filter (fun m => String.eqb (fm_parent_id m) parentId) (family_members d).

(** The foreign keys the schema declares, as (table, column, referenced
    table). *)
Definition foreign_keys : list (string * string * string) :=
  [ ("parents", "created_by", "profiles");
    ("family_members", "parent_id", "parents");
    ("family_members", "user_id", "profiles");
    ("family_members", "invited_by", "profiles");
    ("medications", "parent_id", "parents");
    ("medications", "created_by", "profiles");
    ("medication_logs", "medication_id", "medications");
    ("medication_logs", "parent_id", "parents");
    ("medication_logs", "confirmed_by", "profiles");
    ("appointments", "parent_id", "parents");
    ("appointments", "created_by", "profiles");
    ("documents", "parent_id", "parents");
    ("documents", "uploaded_by", "profiles");
    ("notifications", "user_id", "profiles");
    ("push_subscriptions", "user_id", "profiles");
    ("activity_logs", "user_id", "profiles");
    ("activity_logs", "parent_id", "parents") ].

(** The foreign keys that relate two tables, in either direction. *)
Definition relationships (table embedded : string) : nat :=
  List.length
    (filter (fun fk =>
               let '(t, _, r) := fk in
               (String.eqb t table && String.eqb r embedded)
               || (String.eqb t embedded && String.eqb r table))
            foreign_keys).

(** A select that embeds another table, as [profiles( * )] does: the store
    resolves the embedding through the one foreign key that relates the
    two tables; when there are several it refuses the request as
    ambiguous, and the client gets an error and data: null. *)
Definition embeddable (table embedded : string) : bool :=
  Nat.eqb (relationships table embedded) 1.

(** .from('family_members').select('user_id, profiles( * )')
      .eq('parent_id', parentId): data, null when the request is refused *)
Definition members_with_profiles (parentId : string) (d : Db)
    : option (list FamilyMember) :=
  if embeddable "family_members" "profiles"
  then Some (members_of_parent parentId d)
  else None.

(** the embedded [parents( * )] of a row *)
Definition parent_of (parentId : string) (d : Db) : option Parent :=
  find (fun p => String.eqb (pa_id p) parentId) (parents d).

Definition remind_member (med : Medication) (time : string) (member : FamilyMember)
    : M unit :=
  parent <- read (parent_of (med_parent_id med)) ;;
  match parent with
  | None => throw TypeError
  | Some p =>
      createNotification (fm_user_id member) medication
        "💊 Hora do medicamento"
        (pa_name p ++ " precisa tomar " ++ med_name med ++ " ("
           ++ med_dosage med ++ ") em 5 minutos")
        [("medication_id", med_id med);
         ("parent_id", med_parent_id med);
         ("scheduled_time", time)]
  end.

(** [currentHour] and [currentMinute] are now.getHours() and
    now.getMinutes(). *)
Definition sendMedicationReminders (currentHour currentMinute : Z) : M unit :=
  try_catch
    (meds <- read (fun d => filter med_is_active (medications d)) ;;
     for_of meds (fun med =>
       for_of (med_times med) (fun time =>
         if due_in_five time currentHour currentMinute
         then
           familyMembers <- read (members_with_profiles (med_parent_id med)) ;;
           match familyMembers with
           | None => ret tt
           | Some members => for_of members (remind_member med time)
           end
         else ret tt)))
    (fun error =>
       log (console_error "Error sending medication reminders:" (Some error))).

End PushChannel.

End NotificationService.

(* ================================================================== *)
(** * HTTP replies *)
(* ================================================================== *)

Module Http.

(** res.status(code).json({ error | message: text }); the rows some
    replies carry in [data] are not part of the model. *)
Inductive Reply := res_status_json (code : Z) (text : string).

Definition code_of (r : Reply) : Z :=
  match r with res_status_json c _ => c end.

(** What a middleware does: call next() or answer. *)
Inductive Passage := next | answered (r : Reply).

End Http.
Export Http.

(* ================================================================== *)
(** * middlewares/auth.middleware.ts *)
(* ================================================================== *)

Module AuthMiddleware.

Inductive Permission := view | edit | delete.

(** permissions?.can_view and its siblings: a missing object is falsy *)
Definition flag (f : Permissions -> bool) (p : option Permissions) : bool :=
  match p with
  | Some perms => f perms
  | None => false
  end.

(** .from('family_members') .eq('parent_id', parentId)
      .eq('user_id', userId) .eq('status', 'active') .single() *)
Definition active_member_of (parentId userId : string) (d : Db) : option FamilyMember :=
  single (filter (fun m => String.eqb (fm_parent_id m) parentId
                           && String.eqb (fm_user_id m) userId
                           && Status_eqb (fm_status m) active)
                 (family_members d)).

(** [user] is req.user and [parentId] is req.params.parentId; an absent
    and an empty parentId are both falsy. *)
Definition checkFamilyPermission (permission : Permission)
    (user : option string) (parentId : option string) : M Passage :=
  try_catch
    (match user with
     | None => ret (answered (res_status_json 401 "Unauthorized"))
     | Some userId =>
       match parentId with
       | None => ret (answered (res_status_json 400 "parentId é obrigatório"))
       | Some EmptyString =>
           ret (answered (res_status_json 400 "parentId é obrigatório"))
       | Some pid =>
         familyMember <- read (active_member_of pid userId) ;;
         match familyMember with
         | None => ret (answered (res_status_json 403 "Acesso negado"))
         | Some fm =>
           if Role_eqb (fm_role fm) admin then ret next
           else
             let hasPermission :=
               match permission with
               | view => flag can_view (fm_permissions fm)
               | edit => flag can_edit (fm_permissions fm)
               | delete => flag can_delete (fm_permissions fm)
               end in
             if negb hasPermission
             then ret (answered (res_status_json 403
                    ("Sem permissão para " ++
                     match permission with
                     | view => "visualizar"
                     | edit => "editar"
                     | delete => "deletar"
                     end)))
             else ret next
         end
       end
     end)
    (fun error =>
       log (console_error "Permission check error" (Some error)) ;;;
       ret (answered (res_status_json 500 "Internal server error"))).

End AuthMiddleware.
Export AuthMiddleware.

(* ================================================================== *)
(** * Queries on family_members shared by the routes *)
(* ================================================================== *)

Module FamilyQueries.

(** .eq('parent_id', parentId).eq('user_id', userId).single(): the
    membership of the pair whatever its status *)
Definition member_of (parentId userId : string) (d : Db) : option FamilyMember :=
  single (filter (fun m => String.eqb (fm_parent_id m) parentId
                           && String.eqb (fm_user_id m) userId)
                 (family_members d)).

(** .eq('id', memberId).single() *)
Definition member_by_id (memberId : string) (d : Db) : option FamilyMember :=
  single (filter (fun m => String.eqb (fm_id m) memberId) (family_members d)).

(** .select('user_id').eq('parent_id', parentId).neq('user_id', userId)
      .eq('status', 'active') *)
Definition other_active_members (parentId userId : string) (d : Db)
    : list FamilyMember :=
  filter (fun m => String.eqb (fm_parent_id m) parentId
                   && negb (String.eqb (fm_user_id m) userId)
                   && Status_eqb (fm_status m) active)
         (family_members d).

(** .select('id').eq('parent_id', parentId).eq('role', 'admin')
      .eq('status', 'active') *)
Definition active_admins (parentId : string) (d : Db) : list FamilyMember :=
  filter (fun m => String.eqb (fm_parent_id m) parentId
                   && Role_eqb (fm_role m) admin
                   && Status_eqb (fm_status m) active)
         (family_members d).

(** .update(f).eq('id', memberId) *)
Definition update_member (memberId : string) (f : FamilyMember -> FamilyMember)
    (d : Db) : Db :=
  with_family_members d
    (map (fun m => if String.eqb (fm_id m) memberId then f m else m)
         (family_members d)).

(** .delete().eq('id', memberId) *)
Definition delete_member (memberId : string) (d : Db) : Db :=
  with_family_members d
    (filter (fun m => negb (String.eqb (fm_id m) memberId)) (family_members d)).

(** .insert(row): rejected by PRIMARY KEY (id) or UNIQUE (parent_id,
    user_id); the foreign keys hold because the handlers take parent_id
    and user_id from rows they have just read. *)
Definition insert_member (row : FamilyMember) : M (option Exn) :=
  fun w =>
    let rows := family_members (db w) in
    if existsb (fun m => String.eqb (fm_id m) (fm_id row)) rows
    then (Normal (Some (PostgrestError "family_members_pkey")), w)
    else if existsb (fun m => String.eqb (fm_parent_id m) (fm_parent_id row)
                              && String.eqb (fm_user_id m) (fm_user_id row)) rows
    then (Normal (Some (PostgrestError "family_members_parent_id_user_id_key")), w)
    else (Normal None,
          mkWorld (with_family_members (db w) (rows ++ [row])) (console w)).

(** parents(name) embedded in a row, then [?.name || 'o familiar'] *)
Definition parent_name_or_default (parentId : string) (d : Db) : string :=
  match NotificationService.parent_of parentId d with
  | Some p => if String.eqb (pa_name p) "" then "o familiar" else pa_name p
  | None => "o familiar"
  end.

End FamilyQueries.
Export FamilyQueries.

(* ================================================================== *)
(** * Family routes (/api/family) *)
(* ================================================================== *)

Module FamilyRoutes.

Import NotificationService.

(** inviteSchema after parsing: role has its default filled in *)
Record InviteBody := mkInviteBody {
  inv_parent_id : string;
  inv_email : string;
  inv_role : Role;
  inv_permissions : option Permissions }.

(** updatePermissionsSchema after parsing *)
Record UpdatePermissionsBody := mkUpdatePermissionsBody {
  upd_role : option Role;
  upd_permissions : option Permissions }.

(** Define permissoes baseadas no role *)
Definition default_permissions (role : Role) : Permissions :=
  mkPermissions true
                (Role_eqb role editor || Role_eqb role admin)
                (Role_eqb role admin).

(** .from('profiles').select('id, full_name').eq('email', email).single() *)
Definition profile_by_email (email : string) (d : Db) : option Profile :=
  single (filter (fun p => String.eqb (pr_email p) email) (profiles d)).

(** .from('profiles').select('full_name').eq('id', userId).single() *)
Definition profile_by_id (userId : string) (d : Db) : option Profile :=
  single (filter (fun p => String.eqb (pr_id p) userId) (profiles d)).

(** inviterProfile?.full_name || 'Um membro' *)
Definition full_name_or_default (p : option Profile) : string :=
  match p with
  | Some pr => if String.eqb (pr_full_name pr) "" then "Um membro" else pr_full_name pr
  | None => "Um membro"
  end.

(** invite.invited_by || '' *)
Definition or_empty (s : option string) : string :=
  match s with
  | Some x => x
  | None => ""
  end.

Section PushChannel.

Variable webpush_sendNotification :
  PushSubscription -> NotificationPayload -> option Exn.

Let createNotification := createNotification webpush_sendNotification.
Let notifyFamilyMemberAdded := notifyFamilyMemberAdded webpush_sendNotification.

(** POST /api/family/invite.  [newId] is the id the store generates for
    the inserted row. *)
Definition invite (userId : string) (body : InviteBody) (newId : string) : M Reply :=
  try_catch
    (inviter <- read (member_of (inv_parent_id body) userId) ;;
     match inviter with
     | None => ret (res_status_json 403 "Apenas administradores podem convidar")
     | Some inv =>
       if negb (Role_eqb (fm_role inv) admin)
       then ret (res_status_json 403 "Apenas administradores podem convidar")
       else
         invitedUser <- read (profile_by_email (inv_email body)) ;;
         match invitedUser with
         | None =>
             ret (res_status_json 404
                    "Usuário não encontrado. Ele precisa criar uma conta primeiro.")
         | Some invited =>
           existingMember <- read (member_of (inv_parent_id body) (pr_id invited)) ;;
           match option_map fm_status existingMember with
           | Some active =>
               ret (res_status_json 400 "Usuário já é membro da família")
           | Some pending =>
               ret (res_status_json 400 "Convite já enviado e pendente")
           | _ =>
             let permissions :=
               match inv_permissions body with
               | Some p => p
               | None => default_permissions (inv_role body)
               end in
             error <- insert_member
                        (mkFamilyMember newId (inv_parent_id body) (pr_id invited)
                           (inv_role body) (Some permissions) pending
                           (Some userId) None) ;;
             match error with
             | Some e => throw e
             | None =>
                 inviterProfile <- read (profile_by_id userId) ;;
                 notifyFamilyMemberAdded (inv_parent_id body) (pr_id invited)
                   (full_name_or_default inviterProfile) ;;;
                 ret (res_status_json 201 "Convite enviado com sucesso")
             end
           end
         end
     end)
    (fun error =>
       log (console_error "Error inviting member:" (Some error)) ;;;
       ret (res_status_json 500 "Erro ao enviar convite")).

(** .eq('id', inviteId).eq('user_id', userId).eq('status', 'pending')
      .single() *)
Definition pending_invite (inviteId userId : string) (d : Db) : option FamilyMember :=
  single (filter (fun m => String.eqb (fm_id m) inviteId
                           && String.eqb (fm_user_id m) userId
                           && Status_eqb (fm_status m) pending)
                 (family_members d)).

(** POST /api/family/invites/:inviteId/accept.  [now] is the clock. *)
Definition accept (userId userEmail inviteId : string) (now : Z) : M Reply :=
  try_catch
    (invite <- read (pending_invite inviteId userId) ;;
     match invite with
     | None => ret (res_status_json 404 "Convite não encontrado ou já processado")
     | Some inv =>
         parentName <- read (parent_name_or_default (fm_parent_id inv)) ;;
         write (update_member inviteId (fun m =>
           mkFamilyMember (fm_id m) (fm_parent_id m) (fm_user_id m) (fm_role m)
                          (fm_permissions m) active (fm_invited_by m) (Some now))) ;;;
         createNotification (or_empty (fm_invited_by inv)) family
           "✅ Convite aceito"
           (userEmail ++ " aceitou o convite para cuidar de " ++ parentName)
           [("parent_id", fm_parent_id inv); ("member_id", inviteId)] ;;;
         ret (res_status_json 200 "Convite aceito com sucesso")
     end)
    (fun error =>
       log (console_error "Error accepting invite:" (Some error)) ;;;
       ret (res_status_json 500 "Erro ao aceitar convite")).

(** POST /api/family/invites/:inviteId/decline *)
Definition decline (userId userEmail inviteId : string) : M Reply :=
  try_catch
    (invite <- read (pending_invite inviteId userId) ;;
     match invite with
     | None => ret (res_status_json 404 "Convite não encontrado")
     | Some inv =>
         parentName <- read (parent_name_or_default (fm_parent_id inv)) ;;
         write (delete_member inviteId) ;;;
         createNotification (or_empty (fm_invited_by inv)) family
           "❌ Convite recusado"
           (userEmail ++ " recusou o convite para cuidar de " ++ parentName)
           [("parent_id", fm_parent_id inv)] ;;;
         ret (res_status_json 200 "Convite recusado")
     end)
    (fun error =>
       log (console_error "Error declining invite:" (Some error)) ;;;
       ret (res_status_json 500 "Erro ao recusar convite")).

(** PATCH /api/family/members/:memberId/permissions *)
Definition update_permissions (userId memberId : string)
    (body : UpdatePermissionsBody) : M Reply :=
  try_catch
    (member <- read (member_by_id memberId) ;;
     match member with
     | None => ret (res_status_json 404 "Membro não encontrado")
     | Some mem =>
       adminCheck <- read (member_of (fm_parent_id mem) userId) ;;
       match adminCheck with
       | None =>
           ret (res_status_json 403 "Apenas administradores podem alterar permissões")
       | Some chk =>
         if negb (Role_eqb (fm_role chk) admin)
         then ret (res_status_json 403
                     "Apenas administradores podem alterar permissões")
         else if String.eqb (fm_user_id mem) userId
         then ret (res_status_json 400
                     "Você não pode alterar suas próprias permissões")
         else
           write (update_member memberId (fun m =>
             mkFamilyMember (fm_id m) (fm_parent_id m) (fm_user_id m)
               (match upd_role body with Some r => r | None => fm_role m end)
               (match upd_permissions body with
                | Some p => Some p
                | None => fm_permissions m
                end)
               (fm_status m) (fm_invited_by m) (fm_accepted_at m))) ;;;
           createNotification (fm_user_id mem) family
             "🔐 Permissões atualizadas"
             "Suas permissões de acesso foram atualizadas"
             [("parent_id", fm_parent_id mem); ("member_id", memberId)] ;;;
           ret (res_status_json 200 "Permissões atualizadas com sucesso")
       end
     end)
    (fun error =>
       log (console_error "Error updating permissions:" (Some error)) ;;;
       ret (res_status_json 500 "Erro ao atualizar permissões")).

(** DELETE /api/family/members/:memberId *)
Definition remove_member (userId memberId : string) : M Reply :=
  try_catch
    (member <- read (member_by_id memberId) ;;
     match member with
     | None => ret (res_status_json 404 "Membro não encontrado")
     | Some mem =>
       adminCheck <- read (member_of (fm_parent_id mem) userId) ;;
       let isSelfRemoval := String.eqb (fm_user_id mem) userId in
       let isAdmin :=
         match adminCheck with
         | Some chk => Role_eqb (fm_role chk) admin
         | None => false
         end in
       if negb isSelfRemoval && negb isAdmin
       then ret (res_status_json 403 "Sem permissão para remover este membro")
       else
         lastAdmin <-
           (if Role_eqb (fm_role mem) admin
            then admins <- read (active_admins (fm_parent_id mem)) ;;
                 ret (Nat.eqb (List.length admins) 1)
            else ret false) ;;
         if lastAdmin
         then ret (res_status_json 400
                "Não é possível remover o último administrador. Adicione outro admin primeiro.")
         else
           write (delete_member memberId) ;;;
           (if negb isSelfRemoval
            then createNotification (fm_user_id mem) family
                   "👋 Removido da família"
                   "Você foi removido do acesso a este familiar"
                   [("parent_id", fm_parent_id mem)]
            else ret tt) ;;;
           ret (res_status_json 200
                  (if isSelfRemoval then "Você saiu da família"
                   else "Membro removido com sucesso"))
     end)
    (fun error =>
       log (console_error "Error removing member:" (Some error)) ;;;
       ret (res_status_json 500 "Erro ao remover membro")).

(** POST /api/family/members/:memberId/transfer-admin *)
Definition transfer_admin (userId memberId : string) : M Reply :=
  try_catch
    (targetMember <- read (member_by_id memberId) ;;
     match targetMember with
     | None => ret (res_status_json 404 "Membro não encontrado ou inativo")
     | Some target =>
       if negb (Status_eqb (fm_status target) active)
       then ret (res_status_json 404 "Membro não encontrado ou inativo")
       else
         currentAdmin <- read (member_of (fm_parent_id target) userId) ;;
         match currentAdmin with
         | None =>
             ret (res_status_json 403 "Apenas administradores podem transferir admin")
         | Some cur =>
           if negb (Role_eqb (fm_role cur) admin)
           then ret (res_status_json 403
                       "Apenas administradores podem transferir admin")
           else
             write (update_member memberId (fun m =>
               mkFamilyMember (fm_id m) (fm_parent_id m) (fm_user_id m) admin
                 (Some (mkPermissions true true true))
                 (fm_status m) (fm_invited_by m) (fm_accepted_at m))) ;;;
             write (update_member (fm_id cur) (fun m =>
               mkFamilyMember (fm_id m) (fm_parent_id m) (fm_user_id m) editor
                 (Some (mkPermissions true true false))
                 (fm_status m) (fm_invited_by m) (fm_accepted_at m))) ;;;
             createNotification (fm_user_id target) family
               "👑 Você é admin agora"
               "Você foi promovido a administrador da família"
               [("parent_id", fm_parent_id target)] ;;;
             ret (res_status_json 200 "Admin transferido com sucesso")
         end
     end)
    (fun error =>
       log (console_error "Error transferring admin:" (Some error)) ;;;
       ret (res_status_json 500 "Erro ao transferir admin")).

End PushChannel.

End FamilyRoutes.

(* ================================================================== *)
(** * Permission checks of the resource routes *)
(* ================================================================== *)

Module ResourceGuards.

(** !familyMember || (!familyMember.permissions?.can_edit
                      && familyMember.role !== 'admin'):
    the test before the 403 of POST and PUT on appointments, medications,
    documents and of PUT on parents *)
Definition edit_refused (familyMember : option FamilyMember) : bool :=
  match familyMember with
  | None => true
  | Some fm => negb (flag can_edit (fm_permissions fm))
               && negb (Role_eqb (fm_role fm) admin)
  end.

(** the same test with can_delete, before the 403 of DELETE on
    appointments, medications and documents *)
Definition delete_refused (familyMember : option FamilyMember) : bool :=
  match familyMember with
  | None => true
  | Some fm => negb (flag can_delete (fm_permissions fm))
               && negb (Role_eqb (fm_role fm) admin)
  end.

(** !familyMember || familyMember.role !== 'admin': DELETE on parents *)
Definition not_admin (familyMember : option FamilyMember) : bool :=
  match familyMember with
  | None => true
  | Some fm => negb (Role_eqb (fm_role fm) admin)
  end.

(** !familyMember?.permissions?.can_edit: the test before the 403 of
    PATCH /api/appointments/:id/status *)
Definition status_edit_refused (familyMember : option FamilyMember) : bool :=
  match familyMember with
  | None => true
  | Some fm => negb (flag can_edit (fm_permissions fm))
  end.

End ResourceGuards.
Export ResourceGuards.

(* ================================================================== *)
(** * Appointment routes (/api/appointments) *)
(* ================================================================== *)

Module AppointmentRoutes.

Import NotificationService.

(** .from('appointments').select(...).eq('id', id).single() *)
Definition appointment_by_id (id : string) (d : Db) : option Appointment :=
  single (filter (fun a => String.eqb (apt_id a) id) (appointments d)).

(** .from('appointments').update(f).<filters>: every row the filters
    select is rewritten and the trigger update_appointments_updated_at
    sets its updated_at to the store's NOW(). *)
Definition update_appointments (dbNow : Z) (selected : Appointment -> bool)
    (f : Appointment -> Appointment) (d : Db) : Db :=
  with_appointments d
    (map (fun a =>
            if selected a
            then let a' := f a in
                 mkAppointment (apt_id a') (apt_parent_id a') (apt_scheduled_at a')
                               (apt_status a') (apt_outcome a') dbNow
            else a)
         (appointments d)).

Definition status_text (s : AppointmentStatus) : string :=
  match s with
  | completed => "realizada"
  | _ => "cancelada"
  end.

Section PushChannel.

Variable webpush_sendNotification :
  PushSubscription -> NotificationPayload -> option Exn.

Let createNotification := createNotification webpush_sendNotification.

(** PATCH /api/appointments/:id/status, for a body whose status is one of
    the four values of the column; an absent outcome leaves the column
    as it is. *)
Definition patch_status (userId id : string) (status : AppointmentStatus)
    (outcome : option string) (dbNow : Z) : M Reply :=
  try_catch
    (appointment <- read (appointment_by_id id) ;;
     match appointment with
     | None => ret (res_status_json 404 "Consulta não encontrada")
     | Some apt =>
       familyMember <- read (member_of (apt_parent_id apt) userId) ;;
       if status_edit_refused familyMember
       then ret (res_status_json 403 "Sem permissão")
       else
         write (update_appointments dbNow
                  (fun a => String.eqb (apt_id a) id)
                  (fun a => mkAppointment (apt_id a) (apt_parent_id a)
                              (apt_scheduled_at a) status
                              (match outcome with
                               | Some o => Some o
                               | None => apt_outcome a
                               end)
                              (apt_updated_at a))) ;;;
         (match status with
          | completed | cancelled =>
              members <- read (other_active_members (apt_parent_id apt) userId) ;;
              parentName <- read (parent_name_or_default (apt_parent_id apt)) ;;
              for_of members (fun member =>
                createNotification (fm_user_id member) Schema.appointment
                  ("📅 Consulta " ++ status_text status)
                  ("A consulta de " ++ parentName ++ " foi " ++ status_text status)
                  [("appointment_id", id); ("parent_id", apt_parent_id apt)])
          | _ => ret tt
          end) ;;;
         ret (res_status_json 200 "Status atualizado com sucesso")
     end)
    (fun error =>
       log (console_error "Error updating appointment status:" (Some error)) ;;;
       ret (res_status_json 500 "Erro ao atualizar status")).

End PushChannel.

End AppointmentRoutes.

(* ================================================================== *)
(** * jobs/scheduler.ts *)
(* ================================================================== *)

Module Scheduler.

Import AppointmentRoutes.

(** .lt('scheduled_at', now).eq('status', 'scheduled') *)
Definition past_and_scheduled (now : Z) (a : Appointment) : bool :=
  Z.ltb (apt_scheduled_at a) now && AppointmentStatus_eqb (apt_status a) scheduled.

(** .update({ status: 'missed' }) *)
Definition set_missed (a : Appointment) : Appointment :=
  mkAppointment (apt_id a) (apt_parent_id a) (apt_scheduled_at a) missed
                (apt_outcome a) (apt_updated_at a).

(** The body of the 00:30 cron: [now] is new Date() of the job, [dbNow]
    the store's clock when the update runs. *)
Definition update_appointment_statuses (now dbNow : Z) : M unit :=
  try_catch
    (write (update_appointments dbNow (past_and_scheduled now) set_missed))
    (fun error =>
       log (console_error "Error updating appointment statuses" (Some error))).

End Scheduler.

(* ================================================================== *)
(** * middlewares/error.middleware.ts *)
(* ================================================================== *)

Module ErrorMiddleware.

(** What errorHandler is handed: a ZodError, with the messages of its
    issues, or any other error, with the fields the handler reads
    (statusCode is absent on a plain Error). *)
Inductive Err :=
| ZodError (errors : list string)
| AppError (statusCode : option Z) (message : string) (stack : option string).

(** The JSON body of the answer; an undefined field is left out. *)
Record ErrorBody := mkErrorBody {
  eb_error : string;
  eb_message : option string;
  eb_details : option (list string);
  eb_stack : option string }.

Record ErrorResponse := mkErrorResponse {
  er_status : Z;
  er_body : ErrorBody }.

(** process.env.NODE_ENV === 'development' *)
Definition development (NODE_ENV : option string) : bool :=
  match NODE_ENV with
  | Some env => String.eqb env "development"
  | None => false
  end.

(** s || fallback, on strings: the empty string is falsy *)
Definition or_default (s fallback : string) : string :=
  if String.eqb s "" then fallback else s.

(** What res.status(code).json(body) does with the answer: a code outside
    100..999 makes the response throw a RangeError, the JSON body is never
    sent and the error leaves the handler. *)
Inductive Answer :=
| sends (r : ErrorResponse)
| throws_RangeError (statusCode : Z).

Definition status_json (statusCode : Z) (body : ErrorBody) : Answer :=
  if Z.leb 100 statusCode && Z.leb statusCode 999
  then sends (mkErrorResponse statusCode body)
  else throws_RangeError statusCode.

(** [statusCode] is an integer; an absent one and 0 are falsy. *)
Definition errorHandler (NODE_ENV : option string) (err : Err) : Answer :=
  match err with
  | ZodError errors =>
      status_json 400
        (mkErrorBody "Validation error"
           (Some (match errors with
                  | first :: _ => or_default first "Invalid input"
                  | [] => "Invalid input"
                  end))
           (if development NODE_ENV then Some errors else None)
           None)
  | AppError code msg stack =>
      let statusCode :=
        match code with
        | Some c => if Z.eqb c 0 then 500%Z else c
        | None => 500%Z
        end in
      let message := or_default msg "Internal server error" in
      status_json statusCode
        (mkErrorBody
           (if Z.leb 500 statusCode then "Internal server error" else message)
           (if development NODE_ENV then Some message else None)
           None
           (if development NODE_ENV then stack else None))
  end.

End ErrorMiddleware.

(* ================================================================== *)
(** * middlewares/auth.middleware.ts: authenticate, requireAdmin *)
(* ================================================================== *)

Module Authentication.

(** req.user *)
Record User := mkUser {
  u_id : string;
  u_email : option string }.

(** supabase.auth.getUser(token): a user, an error (or no user), or a
    rejected promise. *)
Inductive GetUser :=
| got (user : User)
| rejected_token
| unreachable (e : Exn).

(** What authenticate leaves: next() with req.user set, or an answer. *)
Inductive Entry :=
| enters (user : User)
| turned_away (r : Reply).

(** authHeader?.startsWith('Bearer ') ? authHeader.substring(7)
                                       : authHeader *)
Definition token_of (authHeader : option string) : option string :=
  match authHeader with
  | None => None
  | Some h =>
      if String.prefix "Bearer " h
      then Some (String.substring 7 (String.length h - 7) h)
      else Some h
  end.

Section IdentityStore.

Variable getUser : string -> GetUser.

Definition authenticate (authHeader : option string) : M Entry :=
  try_catch
    (match token_of authHeader with
     | None | Some EmptyString =>
         ret (turned_away (res_status_json 401 "Token não fornecido"))
     | Some token =>
         match getUser token with
         | got user => ret (enters user)
         | rejected_token =>
             ret (turned_away (res_status_json 401 "Token inválido ou expirado"))
         | unreachable e => throw e
         end
     end)
    (fun error =>
       log (console_error "Authentication error" (Some error)) ;;;
       ret (turned_away (res_status_json 500 "Internal server error"))).

End IdentityStore.

(** authorize *)
Definition authorize (user : option User) : Passage :=
  match user with
  | None => answered (res_status_json 403 "Acesso negado")
  | Some _ => next
  end.

(** .from('family_members').select('role').eq('parent_id', parentId)
      .eq('user_id', userId).eq('status', 'active').single(), then
    [!familyMember || familyMember.role !== 'admin'] *)
Definition requireAdmin (user : option User) (parentId : option string)
    : M Passage :=
  try_catch
    (match user with
     | None => ret (answered (res_status_json 401 "Unauthorized"))
     | Some u =>
         match parentId with
         | None | Some EmptyString => ret next
         | Some pid =>
             familyMember <- read (active_member_of pid (u_id u)) ;;
             match familyMember with
             | None =>
                 ret (answered (res_status_json 403
                        "Apenas administradores podem realizar esta ação"))
             | Some fm =>
                 if negb (Role_eqb (fm_role fm) admin)
                 then ret (answered (res_status_json 403
                             "Apenas administradores podem realizar esta ação"))
                 else ret next
             end
         end
     end)
    (fun error =>
       log (console_error "Admin check error" (Some error)) ;;;
       ret (answered (res_status_json 500 "Internal server error"))).

End Authentication.

(* ================================================================== *)
(** * Notification routes (/api/notifications) *)
(* ================================================================== *)

Module NotificationRoutes.

Import NotificationService.

(** subscriptionSchema after parsing *)
Record SubscriptionBody := mkSubscriptionBody {
  sub_endpoint : string;
  sub_keys : string * string }.

(** .from('push_subscriptions').select('id').eq('user_id', userId)
      .eq('endpoint', endpoint).single() *)
Definition existing_subscription (userId endpoint : string) (d : Db)
    : option PushSubscriptionRow :=
  single (filter (fun s => String.eqb (ps_user_id s) userId
                           && String.eqb (ps_endpoint s) endpoint)
                 (push_subscriptions d)).

(** .update({ keys, is_active: true, updated_at }).eq('id', id); the
    updated_at and user_agent columns are not columns of the model. *)
Definition renew_subscription (id : string) (keys : string * string) (d : Db) : Db :=
  with_push_subscriptions d
    (map (fun s =>
            if String.eqb (ps_id s) id
            then mkPushSubscriptionRow (ps_id s) (ps_user_id s) (ps_endpoint s)
                                       keys true
            else s)
         (push_subscriptions d)).

(** .insert(row): rejected by PRIMARY KEY (id), by UNIQUE (user_id,
    endpoint) and by the foreign key user_id -> profiles(id). *)
Definition insert_subscription (row : PushSubscriptionRow) : M (option Exn) :=
  fun w =>
    let rows := push_subscriptions (db w) in
    if existsb (fun s => String.eqb (ps_id s) (ps_id row)) rows
    then (Normal (Some (PostgrestError "push_subscriptions_pkey")), w)
    else if existsb (fun s => String.eqb (ps_user_id s) (ps_user_id row)
                              && String.eqb (ps_endpoint s) (ps_endpoint row)) rows
    then (Normal (Some (PostgrestError "push_subscriptions_user_id_endpoint_key")), w)
    else if negb (mem_string (ps_user_id row) (map pr_id (profiles (db w))))
    then (Normal (Some (PostgrestError "push_subscriptions_user_id_fkey")), w)
    else (Normal None,
          mkWorld (with_push_subscriptions (db w) (rows ++ [row])) (console w)).

(** POST /api/notifications/subscribe.  [newId] is the id the store
    generates for an inserted row. *)
Definition subscribe (userId : string) (body : SubscriptionBody) (newId : string)
    : M Reply :=
  try_catch
    (existing <- read (existing_subscription userId (sub_endpoint body)) ;;
     match existing with
     | Some ex =>
         write (renew_subscription (ps_id ex) (sub_keys body)) ;;;
         ret (res_status_json 200 "Subscrição atualizada")
     | None =>
         error <- insert_subscription
                    (mkPushSubscriptionRow newId userId (sub_endpoint body)
                                           (sub_keys body) true) ;;
         match error with
         | Some e => throw e
         | None => ret (res_status_json 201 "Subscrição criada com sucesso")
         end
     end)
    (fun error =>
       log (console_error "Error subscribing:" (Some error)) ;;;
       ret (res_status_json 500 "Erro ao criar subscrição")).

(** .delete().eq('user_id', userId).eq('endpoint', endpoint) *)
Definition delete_subscription (userId endpoint : string) (d : Db) : Db :=
  with_push_subscriptions d
    (filter (fun s => negb (String.eqb (ps_user_id s) userId
                            && String.eqb (ps_endpoint s) endpoint))
            (push_subscriptions d)).

(** The handler registered for DELETE /api/notifications/subscribe;
    [endpoint] is req.body.endpoint, absent or empty when falsy.  (The
    router registers DELETE /:id before it, and that pattern matches the
    same path.) *)
Definition unsubscribe (userId : string) (endpoint : option string) : M Reply :=
  try_catch
    (match endpoint with
     | None | Some EmptyString => ret (res_status_json 400 "Endpoint obrigatório")
     | Some e =>
         write (delete_subscription userId e) ;;;
         ret (res_status_json 200 "Subscrição removida")
     end)
    (fun error =>
       log (console_error "Error unsubscribing:" (Some error)) ;;;
       ret (res_status_json 500 "Erro ao remover subscrição")).

(** .update({ is_read: true, read_at }).eq('user_id', userId)
      .eq('is_read', false); read_at is not a column of the model. *)
Definition mark_all_read (userId : string) (d : Db) : Db :=
  with_notifications d
    (map (fun n =>
            if String.eqb (n_user_id n) userId && negb (n_is_read n)
            then mkNotification (n_user_id n) (n_type n) (n_title n)
                                (n_message n) (n_data n) true
            else n)
         (notifications d)).

(** POST /api/notifications/read-all *)
Definition read_all (userId : string) : M Reply :=
  try_catch
    (write (mark_all_read userId) ;;;
     ret (res_status_json 200 "Todas as notificações foram marcadas como lidas"))
    (fun error =>
       log (console_error "Error marking all as read:" (Some error)) ;;;
       ret (res_status_json 500 "Erro ao marcar todas como lidas")).

(** DELETE /api/notifications: .delete().eq('user_id', userId)
      .eq('is_read', true) *)
Definition delete_read (userId : string) : M Reply :=
  try_catch
    (write (fun d =>
       with_notifications d
         (filter (fun n => negb (String.eqb (n_user_id n) userId && n_is_read n))
                 (notifications d))) ;;;
     ret (res_status_json 200 "Notificações lidas foram deletadas"))
    (fun error =>
       log (console_error "Error deleting notifications:" (Some error)) ;;;
       ret (res_status_json 500 "Erro ao deletar notificações")).

(** GET /api/notifications/unread/count: the count the route answers *)
Definition unread_count (userId : string) (d : Db) : nat :=
  List.length
    (filter (fun n => String.eqb (n_user_id n) userId && negb (n_is_read n))
            (notifications d)).

Section PushChannel.

Variable webpush_sendNotification :
  PushSubscription -> NotificationPayload -> option Exn.

(** POST /api/notifications/test; [timestamp] is new Date().toISOString() *)
Definition test_notification (userId timestamp : string) : M Reply :=
  try_catch
    (createNotification webpush_sendNotification userId system
       "🔔 Notificação de Teste"
       "Se você recebeu isso, as notificações estão funcionando!"
       [("test", "true"); ("timestamp", timestamp)] ;;;
     ret (res_status_json 200 "Notificação de teste enviada"))
    (fun error =>
       log (console_error "Error sending test notification:" (Some error)) ;;;
       ret (res_status_json 500 "Erro ao enviar notificação de teste")).

End PushChannel.

End NotificationRoutes.

(* ================================================================== *)
(** * Medication routes (/api/medications) *)
(* ================================================================== *)

Module MedicationRoutes.

Import NotificationService.

(** c is one of the characters lo .. hi *)
Definition between (lo hi c : ascii) : bool :=
  (Nat.leb (nat_of_ascii lo) (nat_of_ascii c)
   && Nat.leb (nat_of_ascii c) (nat_of_ascii hi))%bool.

(** The pattern medicationSchema puts on every entry of times:
    /^([0-1][0-9]|2[0-3]):[0-5][0-9]$/ *)
Definition matches_time (s : string) : bool :=
  match s with
  | String h1 (String h2 (String sep (String m1 (String m2 EmptyString)))) =>
      ((between "0" "1" h1 && between "0" "9" h2)
       || (Ascii.eqb h1 "2" && between "0" "3" h2))
      && Ascii.eqb sep ":" && between "0" "5" m1 && between "0" "9" m2
  | _ => false
  end.

(** medicationSchema after parsing: the fields the model's rows carry,
    and frequency, start_date and end_date, which the store checks; an
    absent times is the empty list. *)
Record MedicationBody := mkMedicationBody {
  mb_parent_id : string;
  mb_name : string;
  mb_dosage : string;
  mb_frequency : string;
  mb_times : list string;
  mb_start_date : option string;
  mb_end_date : option string;
  mb_is_active : bool }.

Section StoreChecks.

(** The store's reading of the values of a row: the input functions of
    the column types (start_date and end_date are DATE columns, and any
    string for the schema).  PostgreSQL's, not the program's. *)
Variable accepts_values : MedicationBody -> bool.

(** .from('medications').insert({ ...body, created_by }): rejected when a
    value does not read as its column type, by NOT NULL on start_date
    (the schema leaves it optional), by PRIMARY KEY (id) and by the
    foreign keys parent_id -> parents(id) and created_by ->
    profiles(id). *)
Definition insert_medication (newId : string) (body : MedicationBody)
    (created_by : string) : M (option Exn) :=
  fun w =>
    if negb (accepts_values body)
    then (Normal (Some (PostgrestError "invalid input syntax")), w)
    else match mb_start_date body with
    | None => (Normal (Some (PostgrestError "start_date violates not-null")), w)
    | Some _ =>
    if existsb (fun m => String.eqb (med_id m) newId) (medications (db w))
    then (Normal (Some (PostgrestError "medications_pkey")), w)
    else if negb (existsb (fun p => String.eqb (pa_id p) (mb_parent_id body))
                          (parents (db w)))
    then (Normal (Some (PostgrestError "medications_parent_id_fkey")), w)
    else if negb (mem_string created_by (map pr_id (profiles (db w))))
    then (Normal (Some (PostgrestError "medications_created_by_fkey")), w)
    else (Normal None,
          mkWorld (mkDb (profiles (db w)) (parents (db w)) (family_members (db w))
                        (medications (db w)
                         ++ [mkMedication newId (mb_parent_id body) (mb_name body)
                               (mb_dosage body) (mb_times body)
                               (mb_is_active body)])
                        (appointments (db w))
                        (notifications (db w)) (push_subscriptions (db w)))
                  (console w))
    end.

Variable webpush_sendNotification :
  PushSubscription -> NotificationPayload -> option Exn.

(** POST /api/medications.  [newId] is the id the store generates. *)
Definition post_medication (userId : string) (body : MedicationBody)
    (newId : string) : M Reply :=
  try_catch
    (familyMember <- read (member_of (mb_parent_id body) userId) ;;
     if edit_refused familyMember
     then ret (res_status_json 403 "Sem permissão para adicionar medicamentos")
     else
       error <- insert_medication newId body userId ;;
       match error with
       | Some e => throw e
       | None =>
           otherMembers <- read (other_active_members (mb_parent_id body) userId) ;;
           parentName <- read (parent_name_or_default (mb_parent_id body)) ;;
           for_of otherMembers (fun member =>
             createNotification webpush_sendNotification
               (fm_user_id member) medication
               "💊 Novo medicamento adicionado"
               (mb_name body ++ " foi adicionado para " ++ parentName)
               [("medication_id", newId); ("parent_id", mb_parent_id body)]) ;;;
           ret (res_status_json 201 "Medicamento adicionado com sucesso")
       end)
    (fun error =>
       log (console_error "Error creating medication:" (Some error)) ;;;
       ret (res_status_json 500 "Erro ao adicionar medicamento")).

End StoreChecks.

End MedicationRoutes.

(* ================================================================== *)
(** * Parent routes (/api/parents) *)
(* ================================================================== *)

Module ParentRoutes.

(** parentSchema after parsing: the name, which the model's rows carry,
    and birth_date, which the store checks. *)
Record ParentBody := mkParentBody {
  pb_name : string;
  pb_birth_date : string }.

(** .from('parents').delete().eq('id', id), with the ON DELETE CASCADE of
    family_members, medications and appointments.  (activity_logs, the one
    table that references parents without a cascade, is never written by
    the program.) *)
Definition delete_parent (id : string) (d : Db) : Db :=
  mkDb (profiles d)
       (filter (fun p => negb (String.eqb (pa_id p) id)) (parents d))
       (filter (fun m => negb (String.eqb (fm_parent_id m) id)) (family_members d))
       (filter (fun m => negb (String.eqb (med_parent_id m) id)) (medications d))
       (filter (fun a => negb (String.eqb (apt_parent_id a) id)) (appointments d))
       (notifications d) (push_subscriptions d).

Section StoreChecks.

(** The store's reading of the values of a row: the input functions of
    the column types (birth_date is DATE NOT NULL, and any string for the
    schema).  PostgreSQL's, not the program's. *)
Variable accepts_values : ParentBody -> bool.

(** .from('parents').insert({ ...body, created_by }): rejected when a
    value does not read as its column type, by PRIMARY KEY (id) and by
    the foreign key created_by -> profiles(id). *)
Definition insert_parent (newId : string) (body : ParentBody)
    (created_by : string) : M (option Exn) :=
  fun w =>
    if negb (accepts_values body)
    then (Normal (Some (PostgrestError "invalid input syntax")), w)
    else if existsb (fun p => String.eqb (pa_id p) newId) (parents (db w))
    then (Normal (Some (PostgrestError "parents_pkey")), w)
    else if negb (mem_string created_by (map pr_id (profiles (db w))))
    then (Normal (Some (PostgrestError "parents_created_by_fkey")), w)
    else (Normal None,
          mkWorld (mkDb (profiles (db w))
                        (parents (db w) ++ [mkParent newId (pb_name body)])
                        (family_members (db w)) (medications (db w))
                        (appointments (db w)) (notifications (db w))
                        (push_subscriptions (db w)))
                  (console w)).

(** POST /api/parents: the recipient, then the creator as its admin; the
    recipient is deleted again when the membership cannot be inserted.
    [newParentId] and [newMemberId] are the ids the store generates, [now]
    the clock. *)
Definition create_parent (userId : string) (body : ParentBody)
    (newParentId newMemberId : string) (now : Z) : M Reply :=
  try_catch
    (parentError <- insert_parent newParentId body userId ;;
     match parentError with
     | Some e => throw e
     | None =>
         familyError <- insert_member
                          (mkFamilyMember newMemberId newParentId userId admin
                             (Some (mkPermissions true true true)) active
                             (Some userId) (Some now)) ;;
         match familyError with
         | Some e => write (delete_parent newParentId) ;;; throw e
         | None => ret (res_status_json 201 "Idoso cadastrado com sucesso")
         end
     end)
    (fun error =>
       log (console_error "Error creating parent:" (Some error)) ;;;
       ret (res_status_json 500 "Erro ao criar idoso")).

End StoreChecks.

End ParentRoutes.

(* ================================================================== *)
(** * services/notification.service.ts: sendAppointmentReminders *)
(* ================================================================== *)

Module AppointmentReminders.

Import NotificationService.

Section Channels.

Variable webpush_sendNotification :
  PushSubscription -> NotificationPayload -> option Exn.

(** format(parseISO(apt.scheduled_at), ...) of date-fns *)
Variable format_date : Z -> string.

(** apt.doctor_name, a column the rows of the model do not carry, by the
    id of the appointment *)
Variable doctor_name_of : string -> string.

(** The order in which the store returns the rows a query selects.  The
    two queries of the reminder have no ORDER BY, so the order is the
    store's choice, and may differ from one request to the next. *)
Variable returned_appointments : Db -> list Appointment -> list Appointment.
Variable returned_members : Db -> list FamilyMember -> list FamilyMember.

(** .gte('scheduled_at', dayStart).lte('scheduled_at', dayEnd)
      .eq('status', 'scheduled') *)
Definition scheduled_within (dayStart dayEnd : Z) (d : Db) : list Appointment :=
  returned_appointments d
    (filter (fun a => Z.leb dayStart (apt_scheduled_at a)
                      && Z.leb (apt_scheduled_at a) dayEnd
                      && AppointmentStatus_eqb (apt_status a) scheduled)
            (appointments d)).

(** .from('family_members').select('user_id').eq('parent_id', parentId) *)
Definition members_returned (parentId : string) (d : Db) : list FamilyMember :=
  returned_members d (members_of_parent parentId d).

Definition remind_of_appointment (apt : Appointment) (dateFormatted : string)
    (member : FamilyMember) : M unit :=
  parent <- read (parent_of (apt_parent_id apt)) ;;
  match parent with
  | None => throw TypeError
  | Some p =>
      createNotification webpush_sendNotification (fm_user_id member)
        Schema.appointment
        "📅 Lembrete de consulta"
        (pa_name p ++ " tem consulta amanhã (" ++ dateFormatted ++ ") - "
           ++ doctor_name_of (apt_id apt))
        [("appointment_id", apt_id apt); ("parent_id", apt_parent_id apt)]
  end.

(** [dayStart] and [dayEnd] are the instants of the two bounds of the
    query: tomorrow's date, and that date at 23:59:59. *)
Definition sendAppointmentReminders (dayStart dayEnd : Z) : M unit :=
  try_catch
    (appointments <- read (scheduled_within dayStart dayEnd) ;;
     for_of appointments (fun apt =>
       familyMembers <- read (members_returned (apt_parent_id apt)) ;;
       for_of familyMembers
         (remind_of_appointment apt (format_date (apt_scheduled_at apt)))))
    (fun error =>
       log (console_error "Error sending appointment reminders:" (Some error))).

End Channels.

End AppointmentReminders.

(* ================================================================== *)
(** * Handlers that go on after answering *)
(* ================================================================== *)

(** Some routes answer 403 and do not return.  Their bodies are modelled
    with the answer as part of the state: the first res.json of a request
    is the answer the client gets, a later one throws (the headers were
    sent already), and the catch block of the route then runs. *)
Module Express.

(** What a handler body can throw: an error of the store, or the error
    of a second answer. *)
Inductive Raised :=
| from_store (e : Exn)
| headers_sent.

Inductive Outcome (A : Type) :=
| Done (a : A)
| Rejected (e : Raised).
Arguments Done {A} a.
Arguments Rejected {A} e.

Record Exchange := mkExchange {
  world : World;
  sent : option Reply }.

Definition Handler (A : Type) : Type := Exchange -> Outcome A * Exchange.

Definition pure {A} (a : A) : Handler A := fun x => (Done a, x).

Definition and_then {A B} (h : Handler A) (k : A -> Handler B) : Handler B :=
  fun x =>
    match h x with
    | (Done a, x') => k a x'
    | (Rejected e, x') => (Rejected e, x')
    end.

Definition raise {A} (e : Raised) : Handler A := fun x => (Rejected e, x).

Definition attempt {A} (body : Handler A) (handler : Raised -> Handler A)
    : Handler A :=
  fun x =>
    match body x with
    | (Done a, x') => (Done a, x')
    | (Rejected e, x') => handler e x'
    end.

(** An effect on the store, run inside a handler. *)
Definition lift {A} (m : M A) : Handler A :=
  fun x =>
    match m (world x) with
    | (Normal a, w') => (Done a, mkExchange w' (sent x))
    | (Throw e, w') => (Rejected (from_store e), mkExchange w' (sent x))
    end.

(** res.status(code).json(body) *)
Definition res_json (r : Reply) : Handler unit :=
  fun x =>
    match sent x with
    | None => (Done tt, mkExchange (world x) (Some r))
    | Some _ => (Rejected headers_sent, x)
    end.

(** console.error(text, error) *)
Definition console_error_of (text : string) (e : Raised) : Handler unit :=
  lift (log (console_error text
               (match e with
                | from_store err => Some err
                | headers_sent => None
                end))).

(** A request as it reaches the handler: nothing answered yet. *)
Definition incoming (w : World) : Exchange := mkExchange w None.

End Express.

Declare Scope express_scope.
Delimit Scope express_scope with express.
Notation "x <- h ;; k" := (Express.and_then h (fun x => k))
(at level 61, h at next level, right associativity) : express_scope.
Notation "h ;;; k" := (Express.and_then h (fun _ => k))
(at level 61, right associativity) : express_scope.

Module UnguardedRoutes.

Import NotificationService Express.
Local Open Scope express_scope.

(** .from('appointments').delete().eq('id', id) *)
Definition delete_appointment_row (id : string) (d : Db) : Db :=
  with_appointments d
    (filter (fun a => negb (String.eqb (apt_id a) id)) (appointments d)).

(** DELETE /api/appointments/:id *)
Definition delete_appointment (userId id : string) : Handler unit :=
  attempt
    (appointment <- lift (read (AppointmentRoutes.appointment_by_id id)) ;;
     match appointment with
     | None => res_json (res_status_json 404 "Consulta não encontrada")
     | Some apt =>
         familyMember <- lift (read (member_of (apt_parent_id apt) userId)) ;;
         (if delete_refused familyMember
          then res_json (res_status_json 403 "Sem permissão para deletar")
          else pure tt) ;;;
         lift (write (delete_appointment_row id)) ;;;
         res_json (res_status_json 200 "Consulta removida com sucesso")
     end)
    (fun error =>
       console_error_of "Error deleting appointment:" error ;;;
       res_json (res_status_json 500 "Erro ao deletar consulta")).

(** .from('medications').select('parent_id').eq('id', id).single() *)
Definition medication_by_id (id : string) (d : Db) : option Medication :=
  single (filter (fun m => String.eqb (med_id m) id) (medications d)).

(** .from('medications').delete().eq('id', id) *)
Definition delete_medication_row (id : string) (d : Db) : Db :=
  mkDb (profiles d) (parents d) (family_members d)
       (filter (fun m => negb (String.eqb (med_id m) id)) (medications d))
       (appointments d) (notifications d) (push_subscriptions d).

(** DELETE /api/medications/:id *)
Definition delete_medication (userId id : string) : Handler unit :=
  attempt
    (medication <- lift (read (medication_by_id id)) ;;
     match medication with
     | None => res_json (res_status_json 404 "Medicamento não encontrado")
     | Some med =>
         familyMember <- lift (read (member_of (med_parent_id med) userId)) ;;
         (if delete_refused familyMember
          then res_json (res_status_json 403 "Sem permissão para deletar")
          else pure tt) ;;;
         lift (write (delete_medication_row id)) ;;;
         res_json (res_status_json 200 "Medicamento removido com sucesso")
     end)
    (fun error =>
       console_error_of "Error deleting medication:" error ;;;
       res_json (res_status_json 500 "Erro ao deletar medicamento")).

(** DELETE /api/parents/:id *)
Definition delete_parent (userId id : string) : Handler unit :=
  attempt
    (familyMember <- lift (read (member_of id userId)) ;;
     (if not_admin familyMember
      then res_json (res_status_json 403 "Apenas administradores podem deletar")
      else pure tt) ;;;
     lift (write (ParentRoutes.delete_parent id)) ;;;
     res_json (res_status_json 200 "Idoso removido com sucesso"))
    (fun error =>
       console_error_of "Error deleting parent:" error ;;;
       res_json (res_status_json 500 "Erro ao deletar idoso")).

(** appointmentSchema after parsing: the fields the model's rows carry,
    the doctor's name, which the notification quotes, and
    duration_minutes, a positive integer with default 60. *)
Record AppointmentBody := mkAppointmentBody {
  ab_parent_id : string;
  ab_doctor_name : string;
  ab_scheduled_at : string;
  ab_duration_minutes : Z;
  ab_status : AppointmentStatus }.

Section StoreChecks.

(** The store's reading of the values of a row: the input functions of
    the column types.  PostgreSQL's, not the program's. *)
Variable accepts_values : AppointmentBody -> bool.

(** The instant the store reads scheduled_at as, a TIMESTAMPTZ column;
    none when the string is no timestamp for it. *)
Variable timestamptz_in : string -> option Z.

(** .from('appointments').insert({ ...body, created_by }): rejected when a
    value does not read as its column type (duration_minutes is INTEGER,
    so at most 2147483647), by PRIMARY KEY (id) and by the foreign keys
    parent_id -> parents(id) and created_by -> profiles(id); updated_at
    takes its default, the store's NOW(). *)
Definition insert_appointment (newId : string) (body : AppointmentBody)
    (created_by : string) (dbNow : Z) : M (option Exn) :=
  fun w =>
    if negb (accepts_values body)
    then (Normal (Some (PostgrestError "invalid input syntax")), w)
    else if Z.ltb 2147483647 (ab_duration_minutes body)
    then (Normal (Some (PostgrestError "integer out of range")), w)
    else match timestamptz_in (ab_scheduled_at body) with
    | None => (Normal (Some (PostgrestError "invalid input syntax")), w)
    | Some scheduledAt =>
    if existsb (fun a => String.eqb (apt_id a) newId) (appointments (db w))
    then (Normal (Some (PostgrestError "appointments_pkey")), w)
    else if negb (existsb (fun p => String.eqb (pa_id p) (ab_parent_id body))
                          (parents (db w)))
    then (Normal (Some (PostgrestError "appointments_parent_id_fkey")), w)
    else if negb (mem_string created_by (map pr_id (profiles (db w))))
    then (Normal (Some (PostgrestError "appointments_created_by_fkey")), w)
    else (Normal None,
          mkWorld (with_appointments (db w)
                     (appointments (db w)
                      ++ [mkAppointment newId (ab_parent_id body) scheduledAt
                            (ab_status body) None dbNow]))
                  (console w))
    end.

Variable webpush_sendNotification :
  PushSubscription -> NotificationPayload -> option Exn.

(** new Date(body.scheduled_at).toLocaleDateString('pt-BR') *)
Variable toLocaleDateString : string -> string.

(** POST /api/appointments.  [newId] is the id the store generates,
    [dbNow] its clock. *)
Definition post_appointment (userId : string) (body : AppointmentBody)
    (newId : string) (dbNow : Z) : Handler unit :=
  attempt
    (familyMember <- lift (read (member_of (ab_parent_id body) userId)) ;;
     (if edit_refused familyMember
      then res_json (res_status_json 403 "Sem permissão para agendar consultas")
      else pure tt) ;;;
     error <- lift (insert_appointment newId body userId dbNow) ;;
     match error with
     | Some e => raise (from_store e)
     | None =>
         otherMembers <-
           lift (read (other_active_members (ab_parent_id body) userId)) ;;
         lift (for_of otherMembers (fun member =>
                 createNotification webpush_sendNotification
                   (fm_user_id member) Schema.appointment
                   "📅 Nova consulta agendada"
                   ("Consulta com " ++ ab_doctor_name body ++ " agendada para "
                      ++ toLocaleDateString (ab_scheduled_at body))
                   [("appointment_id", newId);
                    ("parent_id", ab_parent_id body)])) ;;;
         res_json (res_status_json 201 "Consulta agendada com sucesso")
     end)
    (fun error =>
       console_error_of "Error creating appointment:" error ;;;
       res_json (res_status_json 500 "Erro ao agendar consulta")).

End StoreChecks.

End UnguardedRoutes.

(* ================================================================== *)
(** * Vocabulary of the statements *)
(* ================================================================== *)

Module Props.

Import NotificationService.

(** The rows of a table carry pairwise distinct keys (PRIMARY KEY). *)
Fixpoint distinct (keys : list string) : bool :=
  match keys with
  | [] => true
  | k :: rest => negb (mem_string k rest) && distinct rest
  end.

(** The push channel rejects the delivery to [sub] with status 410. *)
Definition reports_gone
    (send : PushSubscription -> NotificationPayload -> option Exn)
    (payload : NotificationPayload) (sub : PushSubscriptionRow) : bool :=
  match send (mkPushSubscription (ps_endpoint sub) (ps_keys sub)) payload with
  | Some error => is_gone error
  | None => false
  end.

Definition deactivated (s : PushSubscriptionRow) : PushSubscriptionRow :=
  mkPushSubscriptionRow (ps_id s) (ps_user_id s) (ps_endpoint s) (ps_keys s) false.

(** The store after the deliveries to [subs], one after the other. *)
Definition after_deliveries
    (send : PushSubscription -> NotificationPayload -> option Exn)
    (payload : NotificationPayload)
    (subs : list PushSubscriptionRow) (d : Db) : Db :=
  fold_left (fun d sub =>
               if reports_gone send payload sub
               then deactivate_subscription (ps_id sub) d
               else d)
            subs d.

(** One delivery seen from a row [s] of push_subscriptions: the row is
    switched off when it carries the id of [sub] and the delivery to [sub]
    was answered 410. *)
Definition touch_row
    (send : PushSubscription -> NotificationPayload -> option Exn)
    (payload : NotificationPayload)
    (sub s : PushSubscriptionRow) : PushSubscriptionRow :=
  if String.eqb (ps_id s) (ps_id sub) && reports_gone send payload sub
  then deactivated s else s.

(** The payload createNotification hands to the push channel. *)
Definition payload_of (type : NotificationType) (title message : string)
    (data : list (string * string)) : NotificationPayload :=
  mkNotificationPayload title message
    (Some "/icon-192x192.png") (Some "/badge-72x72.png")
    (("type", string_of_type type) :: data)
    [("view", "Ver"); ("dismiss", "Dispensar")].

(** An async body that completes normally from every world. *)
Definition never_throws {A} (m : M A) : Prop :=
  forall w, exists a w', m w = (Normal a, w').

(** Memberships of a recipient that are active. *)
Definition active_members (parentId : string) (d : Db) : list FamilyMember :=
  filter (fun m => String.eqb (fm_parent_id m) parentId
                   && Status_eqb (fm_status m) active)
         (family_members d).

(** A recipient with an active membership has an active admin. *)
Definition has_active_admin (parentId : string) (d : Db) : Prop :=
  active_members parentId d <> [] -> active_admins parentId d <> [].

(** Notification rows addressed to [userId]. *)
Definition notifications_for (userId : string) (d : Db) : list Notification :=
  filter (fun n => String.eqb (n_user_id n) userId) (notifications d).

(** What the status sweep run at [now] does to one appointment row: a
    scheduled row whose time is past becomes missed (the trigger stamps
    updated_at, the other columns stay), any other row is untouched. *)
Definition swept (now dbNow : Z) (a a' : Appointment) : Prop :=
  (apt_status a = scheduled /\ (apt_scheduled_at a < now)%Z ->
     a' = mkAppointment (apt_id a) (apt_parent_id a) (apt_scheduled_at a)
                        missed (apt_outcome a) dbNow)
  /\ (~ (apt_status a = scheduled /\ (apt_scheduled_at a < now)%Z) -> a' = a).

(** adminCheck?.role === 'admin': the requester's membership on the
    recipient, of whatever status, has role admin. *)
Definition holds_admin_role (parentId userId : string) (d : Db) : bool :=
  match member_of parentId userId d with
  | Some chk => Role_eqb (fm_role chk) admin
  | None => false
  end.

(** The row transfer-admin writes for the new admin. *)
Definition promoted (m : FamilyMember) : FamilyMember :=
  mkFamilyMember (fm_id m) (fm_parent_id m) (fm_user_id m) admin
    (Some (mkPermissions true true true))
    (fm_status m) (fm_invited_by m) (fm_accepted_at m).

(** The row transfer-admin writes for the former admin. *)
Definition demoted (m : FamilyMember) : FamilyMember :=
  mkFamilyMember (fm_id m) (fm_parent_id m) (fm_user_id m) editor
    (Some (mkPermissions true true false))
    (fm_status m) (fm_invited_by m) (fm_accepted_at m).

(** The schedule string HH:MM of an hour and a minute. *)
Definition two_digits (n : nat) : string :=
  String (ascii_of_nat (48 + n / 10))
         (String (ascii_of_nat (48 + n mod 10)) "").

Definition clock (h m : nat) : string :=
  (two_digits h ++ ":" ++ two_digits m)%string.

(** The scan reads [clock h m] back as the numbers h and m. *)
Definition reads_back (h m : nat) : bool :=
  match map NotificationService.Number
            (NotificationService.split_colon (clock h m)) with
  | [Some a; Some b] => Z.eqb a (Z.of_nat h) && Z.eqb b (Z.of_nat m)
  | _ => false
  end.

(** The foreign keys the scan relies on: every membership belongs to a
    profile and every medication to a recipient. *)
Definition references_hold (d : Db) : bool :=
  forallb (fun m => mem_string (fm_user_id m) (map pr_id (profiles d)))
          (family_members d)
  && forallb (fun med =>
                match NotificationService.parent_of (med_parent_id med) d with
                | Some _ => true
                | None => false
                end)
             (medications d).

(** The six membership requests of the family routes. *)
Inductive Request :=
| Invite (userId : string) (body : FamilyRoutes.InviteBody) (newId : string)
| Accept (userId userEmail inviteId : string) (now : Z)
| Decline (userId userEmail inviteId : string)
| UpdatePermissions (userId memberId : string)
    (body : FamilyRoutes.UpdatePermissionsBody)
| Remove (userId memberId : string)
| TransferAdmin (userId memberId : string).

Definition handle
    (send : PushSubscription -> NotificationPayload -> option Exn)
    (r : Request) : M Reply :=
  match r with
  | Invite userId body newId => FamilyRoutes.invite send userId body newId
  | Accept userId userEmail inviteId now =>
      FamilyRoutes.accept send userId userEmail inviteId now
  | Decline userId userEmail inviteId =>
      FamilyRoutes.decline send userId userEmail inviteId
  | UpdatePermissions userId memberId body =>
      FamilyRoutes.update_permissions send userId memberId body
  | Remove userId memberId => FamilyRoutes.remove_member send userId memberId
  | TransferAdmin userId memberId =>
      FamilyRoutes.transfer_admin send userId memberId
  end.

(** The world after a sequence of requests. *)
Definition handle_all
    (send : PushSubscription -> NotificationPayload -> option Exn)
    (rs : list Request) (w : World) : World :=
  fold_left (fun w r => snd (handle send r w)) rs w.

(** Every recipient that has a membership, of any status, has an active
    admin. *)
Definition administered (d : Db) : Prop :=
  forall parentId,
    NotificationService.members_of_parent parentId d <> [] ->
    active_admins parentId d <> [].

(** PRIMARY KEY (id) on family_members. *)
Definition keyed (d : Db) : Prop :=
  distinct (map fm_id (family_members d)) = true.

(** The request is neither of the two that the routes let through by
    mistake: a change of permissions by an actor whose own membership is
    not active, and a transfer of the admin role to the actor's own
    membership. *)
Definition clear_of_slips (r : Request) (d : Db) : bool :=
  match r with
  | UpdatePermissions userId memberId _ =>
      match member_by_id memberId d with
      | Some mem =>
          match member_of (fm_parent_id mem) userId d with
          | Some chk => Status_eqb (fm_status chk) active
          | None => true
          end
      | None => true
      end
  | TransferAdmin userId memberId =>
      match member_by_id memberId d with
      | Some target =>
          match member_of (fm_parent_id target) userId d with
          | Some cur => negb (String.eqb (fm_id cur) memberId)
          | None => true
          end
      | None => true
      end
  | _ => true
  end.

(** Each request of the sequence is clear of the slips in the world it is
    served in. *)
Fixpoint all_clear
    (send : PushSubscription -> NotificationPayload -> option Exn)
    (rs : list Request) (w : World) : bool :=
  match rs with
  | [] => true
  | r :: rest =>
      clear_of_slips r (db w) && all_clear send rest (snd (handle send r w))
  end.

(** [administered] read off the rows: every row has an active admin row
    of the same recipient beside it. *)
Definition guarded (rows : list FamilyMember) : Prop :=
  forall m, In m rows ->
    exists a, In a rows /\ fm_parent_id a = fm_parent_id m
              /\ fm_role a = admin /\ fm_status a = active.

End Props.
Export Props.

(* ================================================================== *)
(** * Concrete stores used by the examples *)
(* ================================================================== *)

Module Scenarios.

Import NotificationService.

(** A push channel on which every delivery succeeds. *)
Definition deliver_all (_ : PushSubscription) (_ : NotificationPayload)
    : option Exn := None.

(** A push channel that answers 410 for one endpoint, 500 for another and
    delivers to the rest. *)
Definition channel (sub : PushSubscription) (_ : NotificationPayload)
    : option Exn :=
  if String.eqb (endpoint sub) "https://push.example/gone"
  then Some (WebPushError (Some 410%Z))
  else if String.eqb (endpoint sub) "https://push.example/busy"
  then Some (WebPushError (Some 500%Z))
  else None.

Definition ana := mkProfile "u-ana" "ana@example.com" "Ana".
Definition bruno := mkProfile "u-bruno" "bruno@example.com" "Bruno".
Definition carla := mkProfile "u-carla" "carla@example.com" "Carla".

Definition dona_maria := mkParent "p-1" "Dona Maria".

Definition empty_db : Db := mkDb [] [] [] [] [] [] [].

Definition people : Db :=
  mkDb [ana; bruno; carla] [dona_maria] [] [] [] [] [].

(** Ana has three active subscriptions (one gone, one busy, one live) and
    Bruno one whose endpoint is gone as well. *)
Definition push_db : Db :=
  with_push_subscriptions people
    [ mkPushSubscriptionRow "s-1" "u-ana" "https://push.example/gone" ("k", "a") true;
      mkPushSubscriptionRow "s-2" "u-ana" "https://push.example/busy" ("k", "a") true;
      mkPushSubscriptionRow "s-3" "u-ana" "https://push.example/live" ("k", "a") true;
      mkPushSubscriptionRow "s-4" "u-bruno" "https://push.example/gone" ("k", "b") true ].

Definition push_world : World := mkWorld push_db [].

Definition full := Some (mkPermissions true true true).
Definition read_only := Some (mkPermissions true false false).

Definition membership (id userId : string) (role : Role)
    (permissions : option Permissions) (status : Status) : FamilyMember :=
  mkFamilyMember id "p-1" userId role permissions status (Some "u-ana") None.

(** Ana is the only admin of Dona Maria, Bruno an active viewer. *)
Definition sole_admin_world : World :=
  mkWorld (with_family_members people
             [ membership "m-ana" "u-ana" admin full active;
               membership "m-bruno" "u-bruno" viewer read_only active ])
          [].

(** Ana and Bruno are both admins, Carla an active viewer. *)
Definition two_admins_world : World :=
  mkWorld (with_family_members people
             [ membership "m-ana" "u-ana" admin full active;
               membership "m-bruno" "u-bruno" admin full active;
               membership "m-carla" "u-carla" viewer read_only active ])
          [].

(** Carla was invited as admin and has not answered yet. *)
Definition pending_admin_world : World :=
  mkWorld (with_family_members
             (mkDb [ana; bruno; carla; mkProfile "u-davi" "davi@example.com" "Davi"]
                   [dona_maria] [] [] [] [] [])
             [ membership "m-ana" "u-ana" admin full active;
               membership "m-bruno" "u-bruno" viewer read_only active;
               membership "m-carla" "u-carla" admin full pending ])
          [].

(** The family of [sole_admin_world] with one appointment of Dona Maria
    and one medication taken at 08:00. *)
Definition care_world : World :=
  mkWorld
    (mkDb [ana; bruno; carla] [dona_maria]
          [ membership "m-ana" "u-ana" admin full active;
            membership "m-bruno" "u-bruno" viewer read_only active ]
          [ mkMedication "med-1" "p-1" "Losartana" "50mg" ["08:00"] true ]
          [ mkAppointment "a-1" "p-1" 5000 scheduled None 100 ]
          [] [])
    [].

End Scenarios.

(* ================================================================== *)
(** * Vocabulary of the statements on the other routes *)
(* ================================================================== *)

Module RouteProps.

Import NotificationService.

(** The user has a row in profiles. *)
Definition registered (d : Db) (userId : string) : bool :=
  mem_string userId (map pr_id (profiles d)).

(** createNotification for a row given as a whole. *)
Definition notify
    (send : PushSubscription -> NotificationPayload -> option Exn)
    (n : Notification) : M unit :=
  createNotification send (n_user_id n) (n_type n) (n_title n) (n_message n)
                     (n_data n).

(** Every table but notifications and push_subscriptions is the same. *)
Definition only_notified (d d' : Db) : Prop :=
  profiles d' = profiles d /\ parents d' = parents d
  /\ family_members d' = family_members d /\ medications d' = medications d
  /\ appointments d' = appointments d.

(** UNIQUE (parent_id, user_id) on family_members. *)
Fixpoint pairs_distinct (rows : list FamilyMember) : bool :=
  match rows with
  | [] => true
  | m :: rest =>
      negb (existsb (fun x => String.eqb (fm_parent_id x) (fm_parent_id m)
                              && String.eqb (fm_user_id x) (fm_user_id m)) rest)
      && pairs_distinct rest
  end.

(** UNIQUE (user_id, endpoint) on push_subscriptions. *)
Fixpoint endpoints_distinct (rows : list PushSubscriptionRow) : bool :=
  match rows with
  | [] => true
  | s :: rest =>
      negb (existsb (fun x => String.eqb (ps_user_id x) (ps_user_id s)
                              && String.eqb (ps_endpoint x) (ps_endpoint s)) rest)
      && endpoints_distinct rest
  end.

(** The stored flag a permission names. *)
Definition flag_of (permission : Permission) (p : option Permissions) : bool :=
  match permission with
  | view => flag can_view p
  | edit => flag can_edit p
  | delete => flag can_delete p
  end.

(** The text of the 403 of checkFamilyPermission. *)
Definition refusal_of (permission : Permission) : Reply :=
  res_status_json 403
    ("Sem permissão para " ++
     match permission with
     | view => "visualizar"
     | edit => "editar"
     | delete => "deletar"
     end).

(** The foreign keys to parents: every membership, medication and
    appointment belongs to a recipient of the table. *)
Definition parents_referenced (d : Db) : bool :=
  forallb (fun m => existsb (fun p => String.eqb (pa_id p) (fm_parent_id m))
                            (parents d))
          (family_members d)
  && forallb (fun m => existsb (fun p => String.eqb (pa_id p) (med_parent_id m))
                               (parents d))
             (medications d)
  && forallb (fun a => existsb (fun p => String.eqb (pa_id p) (apt_parent_id a))
                               (parents d))
             (appointments d).

(** The membership POST /api/parents gives the creator. *)
Definition creator_row (userId newParentId newMemberId : string) (now : Z)
    : FamilyMember :=
  mkFamilyMember newMemberId newParentId userId admin
    (Some (mkPermissions true true true)) active (Some userId) (Some now).

(** The row POST /api/medications inserts. *)
Definition medication_row (body : MedicationRoutes.MedicationBody)
    (newId : string) : Medication :=
  mkMedication newId (MedicationRoutes.mb_parent_id body)
    (MedicationRoutes.mb_name body) (MedicationRoutes.mb_dosage body)
    (MedicationRoutes.mb_times body) (MedicationRoutes.mb_is_active body).

(** The notification POST /api/medications creates for one member. *)
Definition medication_note (body : MedicationRoutes.MedicationBody)
    (newId parentName : string) (member : FamilyMember) : Notification :=
  mkNotification (fm_user_id member) medication
    "💊 Novo medicamento adicionado"
    (MedicationRoutes.mb_name body ++ " foi adicionado para " ++ parentName)
    [("medication_id", newId);
     ("parent_id", MedicationRoutes.mb_parent_id body)]
    false.

(** The table has a recipient with this id. *)
Definition recipient_exists (d : Db) (parentId : string) : bool :=
  existsb (fun p => String.eqb (pa_id p) parentId) (parents d).

(** The row POST /api/appointments inserts; [scheduledAt] is the instant
    the store reads scheduled_at as. *)
Definition appointment_row (body : UnguardedRoutes.AppointmentBody)
    (newId : string) (scheduledAt dbNow : Z) : Appointment :=
  mkAppointment newId (UnguardedRoutes.ab_parent_id body) scheduledAt
    (UnguardedRoutes.ab_status body) None dbNow.

(** The notification POST /api/appointments creates for one member;
    [scheduledDate] is the date as toLocaleDateString writes it. *)
Definition appointment_note (body : UnguardedRoutes.AppointmentBody)
    (newId scheduledDate : string) (member : FamilyMember) : Notification :=
  mkNotification (fm_user_id member) Schema.appointment
    "📅 Nova consulta agendada"
    ("Consulta com " ++ UnguardedRoutes.ab_doctor_name body
       ++ " agendada para " ++ scheduledDate)
    [("appointment_id", newId);
     ("parent_id", UnguardedRoutes.ab_parent_id body)]
    false.

(** The reminder sendAppointmentReminders creates for one appointment and
    one member of its recipient. *)
Definition appointment_reminder (dateFormatted doctorName : string)
    (p : Parent) (apt : Appointment) (member : FamilyMember) : Notification :=
  mkNotification (fm_user_id member) Schema.appointment
    "📅 Lembrete de consulta"
    (pa_name p ++ " tem consulta amanhã (" ++ dateFormatted ++ ") - "
       ++ doctorName)
    [("appointment_id", apt_id apt); ("parent_id", apt_parent_id apt)]
    false.

(** The appointments the reminder is about: status scheduled, time
    between the two bounds. *)
Definition due_tomorrow (dayStart dayEnd : Z) (d : Db) : list Appointment :=
  filter (fun a => Z.leb dayStart (apt_scheduled_at a)
                   && Z.leb (apt_scheduled_at a) dayEnd
                   && AppointmentStatus_eqb (apt_status a) scheduled)
         (appointments d).

(** The reminders sendAppointmentReminders creates for one appointment:
    one per membership of its recipient, of any status. *)
Definition reminders_of_appointment (format_date : Z -> string)
    (doctor_name_of : string -> string) (d : Db) (apt : Appointment)
    : list Notification :=
  match parent_of (apt_parent_id apt) d with
  | Some p =>
      map (appointment_reminder (format_date (apt_scheduled_at apt))
             (doctor_name_of (apt_id apt)) p apt)
          (members_of_parent (apt_parent_id apt) d)
  | None => []
  end.

(** The row PATCH /api/appointments/:id/status leaves in place of [a]. *)
Definition patched (status : AppointmentStatus) (outcome : option string)
    (dbNow : Z) (a : Appointment) : Appointment :=
  mkAppointment (apt_id a) (apt_parent_id a) (apt_scheduled_at a) status
    (match outcome with
     | Some o => Some o
     | None => apt_outcome a
     end)
    dbNow.

(** The notification the status route creates for one member. *)
Definition status_note (status : AppointmentStatus)
    (id parentId parentName : string) (member : FamilyMember) : Notification :=
  mkNotification (fm_user_id member) Schema.appointment
    ("📅 Consulta " ++ AppointmentRoutes.status_text status)
    ("A consulta de " ++ parentName ++ " foi "
       ++ AppointmentRoutes.status_text status)
    [("appointment_id", id); ("parent_id", parentId)]
    false.

(** The notification the invite route leaves for the invited user. *)
Definition added_note (addedByName : string) (p : Parent)
    (parentId newMemberId : string) : Notification :=
  mkNotification newMemberId family
    "👨‍👩‍👧‍👦 Adicionado à família"
    (addedByName ++ " adicionou você para ajudar a cuidar de " ++ pa_name p)
    [("parent_id", parentId)]
    false.

(** The notification the accept route leaves for the inviter. *)
Definition accepted_note (userEmail parentName parentId inviteId inviter : string)
    : Notification :=
  mkNotification inviter family
    "✅ Convite aceito"
    (userEmail ++ " aceitou o convite para cuidar de " ++ parentName)
    [("parent_id", parentId); ("member_id", inviteId)]
    false.

End RouteProps.
Export RouteProps.

(* ================================================================== *)
(** * Lemmas on the effects *)
(* ================================================================== *)

Import NotificationService.

Lemma Role_eqb_eq (a b : Role) : Role_eqb a b = true <-> a = b.
Proof. destruct a, b; simpl; split; intro H; congruence. Qed.

Lemma Status_eqb_eq (a b : Status) : Status_eqb a b = true <-> a = b.
Proof. destruct a, b; simpl; split; intro H; congruence. Qed.

Lemma AppointmentStatus_eqb_eq (a b : AppointmentStatus) :
  AppointmentStatus_eqb a b = true <-> a = b.
Proof. destruct a, b; simpl; split; intro H; congruence. Qed.

Lemma mem_string_In (s : string) (l : list string) :
  mem_string s l = true <-> In s l.
Proof.
  unfold mem_string. rewrite existsb_exists. split.
  - intros [x [Hin Heq]]. apply String.eqb_eq in Heq. now subst.
  - intro Hin. exists s. split; [assumption | apply String.eqb_refl].
Qed.

(** Rows with pairwise distinct keys are determined by their key. *)
Lemma distinct_keys_inj {A} (key : A -> string) (rows : list A) :
  distinct (map key rows) = true ->
  forall s t, In s rows -> In t rows -> key s = key t -> s = t.
Proof.
  induction rows as [|r rest IH]; simpl; intros Hd s t Hs Ht Heq; [contradiction|].
  apply andb_true_iff in Hd. destruct Hd as [Hfresh Hd].
  apply negb_true_iff in Hfresh.
  assert (Hnot : forall x, In x rest -> key x <> key r).
  { intros x Hx Hid.
    assert (mem_string (key r) (map key rest) = true) as Hin.
    { apply mem_string_In. rewrite <- Hid. now apply in_map. }
    congruence. }
  destruct Hs as [<-|Hs], Ht as [<-|Ht].
  - reflexivity.
  - exfalso. apply (Hnot t Ht). now symmetry.
  - exfalso. now apply (Hnot s Hs).
  - now apply IH.
Qed.

Section EffectLemmas.

Variable send : PushSubscription -> NotificationPayload -> option Exn.

(** One delivery attempt completes; it touches the store only when the
    channel answers 410, and then only through the row id of [sub]. *)
Lemma send_to_subscription_run userId payload sub w :
  exists w',
    send_to_subscription send userId payload sub w = (Normal tt, w')
    /\ db w' = (if reports_gone send payload sub
                then deactivate_subscription (ps_id sub) (db w)
                else db w).
Proof.
  unfold send_to_subscription, reports_gone, try_catch.
  destruct (send _ payload) as [error|]; simpl.
  - unfold bind, log, throw. simpl.
    destruct (is_gone error); simpl; eexists; split; reflexivity.
  - unfold log. eexists; split; reflexivity.
Qed.

Lemma for_of_deliveries userId payload subs : forall w,
  exists w',
    for_of subs (send_to_subscription send userId payload) w = (Normal tt, w')
    /\ db w' = after_deliveries send payload subs (db w).
Proof.
  induction subs as [|sub rest IH]; intro w; simpl.
  - exists w. split; reflexivity.
  - destruct (send_to_subscription_run userId payload sub w) as [w1 [Hrun Hdb]].
    destruct (IH w1) as [w2 [Hrest Hdb2]].
    exists w2. unfold bind at 1. rewrite Hrun. split; [exact Hrest|].
    rewrite Hdb2, Hdb. reflexivity.
Qed.

Lemma sendPushNotification_run userId payload w :
  exists w',
    sendPushNotification send userId payload w = (Normal tt, w')
    /\ db w' = after_deliveries send payload
                 (active_subscriptions userId (db w)) (db w).
Proof.
  unfold sendPushNotification, try_catch, bind, read.
  destruct (active_subscriptions userId (db w)) as [|sub rest] eqn:Hsubs.
  - eexists. split; reflexivity.
  - destruct (for_of_deliveries userId payload (sub :: rest) w) as [w' [Hrun Hdb]].
    rewrite Hrun. exists w'. split; [reflexivity | exact Hdb].
Qed.

(** Deliveries never touch a table other than push_subscriptions. *)
Lemma after_deliveries_frame payload subs : forall d,
  let d' := after_deliveries send payload subs d in
  profiles d' = profiles d /\ parents d' = parents d
  /\ family_members d' = family_members d /\ medications d' = medications d
  /\ appointments d' = appointments d /\ notifications d' = notifications d.
Proof.
  induction subs as [|sub rest IH]; intro d; simpl.
  - repeat split.
  - destruct (reports_gone send payload sub).
    + specialize (IH (deactivate_subscription (ps_id sub) d)). simpl in IH.
      exact IH.
    + apply IH.
Qed.

(** What createNotification does, in both outcomes of the insert. *)
Lemma createNotification_run userId type title message data w :
  exists w',
    createNotification send userId type title message data w = (Normal tt, w')
    /\ db w' =
       (if mem_string userId (map pr_id (profiles (db w)))
        then after_deliveries send (payload_of type title message data)
               (active_subscriptions userId (db w))
               (with_notifications (db w)
                  (notifications (db w)
                   ++ [mkNotification userId type title message data false]))
        else db w).
Proof.
  unfold createNotification, try_catch, bind at 1, insert_notification. simpl.
  destruct (mem_string userId (map pr_id (profiles (db w)))) eqn:Hfk.
  - match goal with
    | |- context [sendPushNotification send ?u ?p ?w0] =>
        destruct (sendPushNotification_run u p w0) as [w' [Hrun Hdb]]
    end.
    rewrite Hrun. exists w'. split; [reflexivity|]. exact Hdb.
  - unfold throw, log. simpl. eexists. split; reflexivity.
Qed.

Lemma createNotification_never_throws userId type title message data :
  never_throws (createNotification send userId type title message data).
Proof.
  intro w.
  destruct (createNotification_run userId type title message data w)
    as [w' [Hrun _]].
  exists tt, w'. exact Hrun.
Qed.

(** createNotification writes to notifications and push_subscriptions
    only. *)
Lemma createNotification_frame userId type title message data w w' c :
  createNotification send userId type title message data w = (c, w') ->
  profiles (db w') = profiles (db w) /\ parents (db w') = parents (db w)
  /\ family_members (db w') = family_members (db w)
  /\ medications (db w') = medications (db w)
  /\ appointments (db w') = appointments (db w).
Proof.
  intro Hrun.
  destruct (createNotification_run userId type title message data w)
    as [w1 [Hrun1 Hdb]].
  rewrite Hrun in Hrun1. injection Hrun1 as _ ->.
  rewrite Hdb.
  destruct (mem_string userId (map pr_id (profiles (db w)))).
  - match goal with
    | |- context [after_deliveries send ?p ?subs ?d0] =>
        pose proof (after_deliveries_frame p subs d0) as Hf
    end.
    simpl in Hf. destruct Hf as (H1 & H2 & H3 & H4 & H5 & _).
    rewrite H1, H2, H3, H4, H5. repeat split.
  - repeat split.
Qed.

End EffectLemmas.

(* ================================================================== *)
(** * Notification dispatcher *)
(* ================================================================== *)

Section Dispatcher.

Variable send : PushSubscription -> NotificationPayload -> option Exn.
Variable payload : NotificationPayload.

Lemma after_deliveries_cons sub rest d :
  after_deliveries send payload (sub :: rest) d
  = after_deliveries send payload rest
      (if reports_gone send payload sub
       then deactivate_subscription (ps_id sub) d else d).
Proof. reflexivity. Qed.

Lemma after_deliveries_rows subs : forall d,
  push_subscriptions (after_deliveries send payload subs d)
  = map (fun s => fold_left (fun s sub => touch_row send payload sub s) subs s)
        (push_subscriptions d).
Proof.
  induction subs as [|sub rest IH]; intro d.
  - simpl. symmetry. apply map_id.
  - rewrite after_deliveries_cons.
    destruct (reports_gone send payload sub) eqn:Hg.
    + rewrite IH. unfold deactivate_subscription, with_push_subscriptions.
      cbn [push_subscriptions]. rewrite map_map. apply map_ext. intro s.
      cbn [fold_left]. f_equal. unfold touch_row, deactivated.
      rewrite Hg, andb_true_r. reflexivity.
    + rewrite IH. apply map_ext. intro s.
      cbn [fold_left]. f_equal. unfold touch_row.
      rewrite Hg, andb_false_r. reflexivity.
Qed.

Lemma touches_spec subs : forall s,
  fold_left (fun s sub => touch_row send payload sub s) subs s
  = if existsb (fun sub => String.eqb (ps_id s) (ps_id sub)
                           && reports_gone send payload sub) subs
    then deactivated s else s.
Proof.
  induction subs as [|sub rest IH]; intro s; simpl; [reflexivity|].
  rewrite IH. unfold touch_row.
  destruct (String.eqb (ps_id s) (ps_id sub) && reports_gone send payload sub);
    simpl; [|reflexivity].
  destruct (existsb _ rest); reflexivity.
Qed.

(** With distinct row ids, the rows deactivated by the deliveries to the
    active subscriptions of [userId] are exactly those subscriptions whose
    endpoint answered 410. *)
Lemma after_deliveries_exact userId d :
  distinct (map ps_id (push_subscriptions d)) = true ->
  push_subscriptions
    (after_deliveries send payload (active_subscriptions userId d) d)
  = map (fun s =>
           if String.eqb (ps_user_id s) userId && ps_is_active s
              && reports_gone send payload s
           then deactivated s else s)
        (push_subscriptions d).
Proof.
  intro Hd. rewrite after_deliveries_rows. apply map_ext_in. intros s Hs.
  rewrite touches_spec.
  match goal with
  | |- (if ?a then _ else _) = (if ?b then _ else _) =>
      replace a with b; [reflexivity|]
  end.
  unfold active_subscriptions.
  destruct (String.eqb (ps_user_id s) userId && ps_is_active s
            && reports_gone send payload s) eqn:Hsel; symmetry.
  - apply existsb_exists. exists s.
    apply andb_true_iff in Hsel. destruct Hsel as [Hsel Hg].
    split; [apply filter_In; split; assumption|].
    now rewrite String.eqb_refl, Hg.
  - apply not_true_iff_false. intro Hex.
    apply existsb_exists in Hex. destruct Hex as [t [Ht Hcond]].
    apply filter_In in Ht. destruct Ht as [Ht Hsel_t].
    apply andb_true_iff in Hcond. destruct Hcond as [Hid Hg].
    apply String.eqb_eq in Hid.
    assert (s = t) by (now apply (distinct_keys_inj ps_id _ Hd)). subst t.
    rewrite Hsel_t, Hg in Hsel. discriminate.
Qed.

End Dispatcher.

(** C7 (as amended): when the store accepts the insert (the addressee is a
    registered profile), createNotification completes normally, appends
    exactly one Notification row whatever the push channel answers, and
    sets is_active to false on exactly those active subscriptions of the
    user whose delivery was rejected with status 410; every other
    subscription row, and every other notification row, is as before. *)
Theorem createNotification_persists_one_row
    (send : PushSubscription -> NotificationPayload -> option Exn)
    (userId : string) (type : NotificationType) (title message : string)
    (data : list (string * string)) (w : World)
    (Hprofile : mem_string userId (map pr_id (profiles (db w))) = true)
    (Hkeys : distinct (map ps_id (push_subscriptions (db w))) = true) :
  exists w',
    createNotification send userId type title message data w = (Normal tt, w')
    /\ notifications (db w')
       = (notifications (db w)
          ++ [mkNotification userId type title message data false])%list
    /\ push_subscriptions (db w')
       = map (fun s =>
                if String.eqb (ps_user_id s) userId && ps_is_active s
                   && reports_gone send (payload_of type title message data) s
                then deactivated s else s)
             (push_subscriptions (db w)).
Proof.
  destruct (createNotification_run send userId type title message data w)
    as [w' [Hrun Hdb]].
  exists w'. split; [exact Hrun|]. rewrite Hdb, Hprofile. split.
  - match goal with
    | |- context [after_deliveries send ?p ?subs ?d0] =>
        pose proof (after_deliveries_frame send p subs d0) as Hf
    end.
    simpl in Hf. destruct Hf as (_ & _ & _ & _ & _ & Hn). rewrite Hn.
    reflexivity.
  - match goal with
    | |- context [with_notifications ?d0 ?l] =>
        change (active_subscriptions userId d0)
          with (active_subscriptions userId (with_notifications d0 l));
        rewrite (after_deliveries_exact send _ userId (with_notifications d0 l))
    end; [reflexivity | exact Hkeys].
Qed.

(** A run of C7 on a store where the user has a gone, a busy and a live
    endpoint: one row is added and only the gone subscription of that user
    is switched off. *)
Lemma createNotification_persists_one_row_witness :
  mem_string "u-ana" (map pr_id (profiles (db Scenarios.push_world))) = true
  /\ distinct (map ps_id (push_subscriptions (db Scenarios.push_world))) = true
  /\ exists w',
       createNotification Scenarios.channel "u-ana" system "t" "m" []
         Scenarios.push_world = (Normal tt, w')
       /\ notifications (db w') = [mkNotification "u-ana" system "t" "m" [] false]
       /\ map (fun s => (ps_id s, ps_is_active s)) (push_subscriptions (db w'))
          = [("s-1", false); ("s-2", true); ("s-3", true); ("s-4", true)].
Proof.
  split; [reflexivity|]. split; [reflexivity|].
  destruct (createNotification_persists_one_row Scenarios.channel
              "u-ana" system "t" "m" [] Scenarios.push_world
              eq_refl eq_refl) as [w' [Hrun [Hrows Hsubs]]].
  exists w'. split; [exact Hrun|]. split.
  - rewrite Hrows. reflexivity.
  - rewrite Hsubs. reflexivity.
Defined.

(** When the store rejects the insert, createNotification logs the error
    and completes normally with the store as it was. *)
Lemma createNotification_rejected_insert
    (send : PushSubscription -> NotificationPayload -> option Exn)
    (userId : string) (type : NotificationType) (title message : string)
    (data : list (string * string)) (w : World) :
  mem_string userId (map pr_id (profiles (db w))) = false ->
  createNotification send userId type title message data w
  = (Normal tt,
     mkWorld (db w)
       (console w ++ [console_error "Error creating notification:"
                        (Some (PostgrestError "notifications_user_id_fkey"))])).
Proof.
  intro Hfk.
  unfold createNotification, try_catch, bind, insert_notification.
  cbn beta iota delta [n_user_id]. rewrite Hfk. reflexivity.
Qed.

(** C7, counterexample: a call whose addressee is no registered profile
    (the accept route passes the empty string when invited_by is null)
    completes normally and persists no row. *)
Lemma createNotification_may_persist_nothing :
  exists w',
    createNotification Scenarios.deliver_all "" family "t" "m" []
      Scenarios.push_world = (Normal tt, w')
    /\ notifications (db w') = notifications (db Scenarios.push_world)
    /\ List.length (notifications (db w'))
       <> S (List.length (notifications (db Scenarios.push_world))).
Proof.
  eexists. split.
  - apply createNotification_rejected_insert. reflexivity.
  - split; [reflexivity | discriminate].
Qed.

(** C10: createNotification completes normally from every world and for
    every answer of the push channel, and when the store rejects the
    insert it logs the error and leaves the store as it was; so some call
    returns normally with no Notification row persisted. *)
Theorem createNotification_swallows_every_failure :
  (forall send userId type title message data,
      never_throws (createNotification send userId type title message data))
  /\ (exists send userId type title message data w w',
         createNotification send userId type title message data w
         = (Normal tt, w')
         /\ notifications (db w') = notifications (db w)
         /\ console w'
            = (console w
               ++ [console_error "Error creating notification:"
                     (Some (PostgrestError "notifications_user_id_fkey"))])%list).
Proof.
  split.
  - intros. apply createNotification_never_throws.
  - exists Scenarios.deliver_all, "u-nobody", system, "t", "m", [],
      Scenarios.push_world.
    eexists. split.
    + apply createNotification_rejected_insert. reflexivity.
    + split; reflexivity.
Qed.

(* ================================================================== *)
(** * Appointment status sweep *)
(* ================================================================== *)

Lemma past_and_scheduled_iff now a :
  Scheduler.past_and_scheduled now a = true
  <-> apt_status a = scheduled /\ (apt_scheduled_at a < now)%Z.
Proof.
  unfold Scheduler.past_and_scheduled.
  rewrite andb_true_iff, Z.ltb_lt, AppointmentStatus_eqb_eq. tauto.
Qed.

Lemma Forall2_map_r {A B} (R : A -> B -> Prop) (f : A -> B) (l : list A) :
  (forall x, In x l -> R x (f x)) -> Forall2 R l (map f l).
Proof.
  induction l as [|x rest IH]; simpl; intro H; constructor.
  - apply H. now left.
  - apply IH. intros y Hy. apply H. now right.
Qed.

(** C8: the sweep completes and rewrites the appointments row by row: a
    row becomes missed exactly when its status is scheduled and its
    scheduled_at is before the job's clock; every other row, whatever its
    status, and every other table is left as it was. *)
Theorem status_sweep_marks_exactly_past_scheduled (now dbNow : Z) (w : World) :
  exists w',
    Scheduler.update_appointment_statuses now dbNow w = (Normal tt, w')
    /\ Forall2 (swept now dbNow) (appointments (db w)) (appointments (db w'))
    /\ (forall a, In a (appointments (db w)) ->
          apt_status a <> scheduled -> In a (appointments (db w')))
    /\ db w' = with_appointments (db w) (appointments (db w'))
    /\ console w' = console w.
Proof.
  eexists. split; [reflexivity|]. cbn [db console].
  unfold AppointmentRoutes.update_appointments.
  cbn [appointments with_appointments]. repeat split.
  - apply Forall2_map_r. intros a _.
    destruct (Scheduler.past_and_scheduled now a) eqn:Hsel; split; intro H.
    + reflexivity.
    + exfalso. apply H. now apply past_and_scheduled_iff.
    + apply past_and_scheduled_iff in H. congruence.
    + reflexivity.
  - intros a Hin Hstatus. apply in_map_iff. exists a. split; [|assumption].
    destruct (Scheduler.past_and_scheduled now a) eqn:Hsel; [|reflexivity].
    apply past_and_scheduled_iff in Hsel. tauto.
Qed.

(** The two rows of the sweep example: scheduled for yesterday, and
    completed yesterday. *)
Example status_sweep_yesterday :
  let yesterday := 1000%Z in
  let today := 2440%Z in
  let a1 := mkAppointment "a-1" "p-1" yesterday scheduled None 900 in
  let a2 := mkAppointment "a-2" "p-1" yesterday completed (Some "ok") 990 in
  let a3 := mkAppointment "a-3" "p-1" (today + 60) scheduled None 900 in
  let w := mkWorld (with_appointments Scenarios.people [a1; a2; a3]) [] in
  appointments (db (snd (Scheduler.update_appointment_statuses today 2441 w)))
  = [mkAppointment "a-1" "p-1" yesterday missed None 2441; a2; a3].
Proof. reflexivity. Qed.

(* ================================================================== *)
(** * Membership operations *)
(* ================================================================== *)

Import FamilyRoutes.

(** Runs the next createNotification of the goal and records that it
    leaves the other tables alone. *)
Ltac run_notification send :=
  match goal with
  | |- context [createNotification send ?u ?t ?ti ?m ?d ?w0] =>
      let w' := fresh "w'" in
      let Hrun := fresh "Hrun" in
      let Hframe := fresh "Hframe" in
      destruct (createNotification_run send u t ti m d w0) as [w' [Hrun _]];
      pose proof (createNotification_frame send u t ti m d w0 w' _ Hrun) as Hframe;
      rewrite Hrun
  end.

Section RemoveMember.

Variable send : PushSubscription -> NotificationPayload -> option Exn.
Variables userId memberId : string.
Variable w : World.
Variable mem : FamilyMember.
Hypothesis Htarget : member_by_id memberId (db w) = Some mem.

Lemma remove_member_unauthorized :
  String.eqb (fm_user_id mem) userId = false ->
  holds_admin_role (fm_parent_id mem) userId (db w) = false ->
  remove_member send userId memberId w
  = (Normal (res_status_json 403 "Sem permissão para remover este membro"), w).
Proof.
  intros Hself Hadmin. unfold remove_member, try_catch, bind, read.
  rewrite Htarget. fold (holds_admin_role (fm_parent_id mem) userId (db w)).
  rewrite Hself, Hadmin. reflexivity.
Qed.

Lemma remove_member_last_admin :
  String.eqb (fm_user_id mem) userId
  || holds_admin_role (fm_parent_id mem) userId (db w) = true ->
  fm_role mem = admin ->
  List.length (active_admins (fm_parent_id mem) (db w)) = 1%nat ->
  remove_member send userId memberId w
  = (Normal (res_status_json 400
       "Não é possível remover o último administrador. Adicione outro admin primeiro."),
     w).
Proof.
  intros Hauth Hrole Hcount. unfold remove_member, try_catch, bind, read.
  rewrite Htarget. fold (holds_admin_role (fm_parent_id mem) userId (db w)).
  rewrite <- negb_orb, Hauth, Hrole. cbv beta iota zeta delta [negb Role_eqb ret].
  rewrite Hcount. reflexivity.
Qed.

Lemma remove_member_deletes :
  String.eqb (fm_user_id mem) userId
  || holds_admin_role (fm_parent_id mem) userId (db w) = true ->
  fm_role mem <> admin
  \/ List.length (active_admins (fm_parent_id mem) (db w)) <> 1%nat ->
  exists w',
    remove_member send userId memberId w
    = (Normal (res_status_json 200
                 (if String.eqb (fm_user_id mem) userId
                  then "Você saiu da família"
                  else "Membro removido com sucesso")), w')
    /\ family_members (db w')
       = filter (fun m => negb (String.eqb (fm_id m) memberId))
                (family_members (db w)).
Proof.
  intros Hauth Hfree. unfold remove_member, try_catch, bind, read.
  rewrite Htarget. fold (holds_admin_role (fm_parent_id mem) userId (db w)).
  rewrite <- negb_orb, Hauth. cbv beta iota zeta delta [negb ret].
  assert (Hguard :
            Role_eqb (fm_role mem) admin = true ->
            Nat.eqb (List.length (active_admins (fm_parent_id mem) (db w))) 1
            = false).
  { intro Hr. apply Role_eqb_eq in Hr. apply Nat.eqb_neq.
    destruct Hfree as [Hne|Hne]; [contradiction | exact Hne]. }
  destruct (Role_eqb (fm_role mem) admin);
    [rewrite (Hguard eq_refl)|]; unfold write; cbv beta iota;
    (destruct (String.eqb (fm_user_id mem) userId);
     [ eexists; split; reflexivity
     | run_notification send; eexists; split; [reflexivity|];
       destruct Hframe as (_ & _ & Hfm & _); rewrite Hfm; reflexivity ]).
Qed.

End RemoveMember.

(** The guards of a Remove request on an existing membership, in the
    terms of the route's own queries ([holds_admin_role] reads the role of
    the requester's membership whatever its status).  When the target has
    role admin and the requester is the target or passes that check: with
    exactly one active admin on the recipient the request is refused (400,
    last administrator) and the store is unchanged; with two or more it
    succeeds and the row is deleted.  A requester whose membership does
    not have role admin is refused (403) for any membership but their own,
    and may delete their own (non-admin) membership. *)
Theorem remove_member_guards
    (send : PushSubscription -> NotificationPayload -> option Exn)
    (userId memberId : string) (w : World) (mem : FamilyMember)
    (Htarget : member_by_id memberId (db w) = Some mem) :
  let parentId := fm_parent_id mem in
  let authorised :=
    fm_user_id mem = userId \/ holds_admin_role parentId userId (db w) = true in
  let deleted w' :=
    family_members (db w')
    = filter (fun m => negb (String.eqb (fm_id m) memberId))
             (family_members (db w)) in
  (fm_role mem = admin -> authorised ->
   List.length (active_admins parentId (db w)) = 1%nat ->
   remove_member send userId memberId w
   = (Normal (res_status_json 400
        "Não é possível remover o último administrador. Adicione outro admin primeiro."),
      w))
  /\ (fm_role mem = admin -> authorised ->
      (2 <= List.length (active_admins parentId (db w)))%nat ->
      exists r w',
        remove_member send userId memberId w = (Normal r, w')
        /\ code_of r = 200%Z /\ deleted w')
  /\ (holds_admin_role parentId userId (db w) = false ->
      fm_user_id mem <> userId ->
      remove_member send userId memberId w
      = (Normal (res_status_json 403 "Sem permissão para remover este membro"), w))
  /\ (fm_user_id mem = userId -> fm_role mem <> admin ->
      exists w',
        remove_member send userId memberId w
        = (Normal (res_status_json 200 "Você saiu da família"), w')
        /\ deleted w').
Proof.
  intros parentId authorised deleted.
  assert (Hauth : authorised ->
            String.eqb (fm_user_id mem) userId
            || holds_admin_role parentId userId (db w) = true).
  { intros [Hself|Hadmin]; apply orb_true_iff;
      [left; now apply String.eqb_eq | now right]. }
  repeat split.
  - intros Hrole Hok Hcount.
    now apply (remove_member_last_admin send userId memberId w mem Htarget);
      [apply Hauth| |].
  - intros Hrole Hok Hcount.
    destruct (remove_member_deletes send userId memberId w mem Htarget
                (Hauth Hok)) as [w' [Hrun Hdel]].
    { right. fold parentId. lia. }
    eexists. exists w'. split; [exact Hrun|]. split; [reflexivity | exact Hdel].
  - intros Hadmin Hother.
    apply (remove_member_unauthorized send userId memberId w mem Htarget);
      [now apply String.eqb_neq | exact Hadmin].
  - intros Hself Hrole.
    destruct (remove_member_deletes send userId memberId w mem Htarget)
      as [w' [Hrun Hdel]].
    { apply orb_true_iff. left. now apply String.eqb_eq. }
    { now left. }
    exists w'. split; [|exact Hdel].
    rewrite Hrun. apply String.eqb_eq in Hself. rewrite Hself. reflexivity.
Qed.

(** On a concrete family: with Ana the sole admin her removal of her
    own membership is refused and nothing changes. *)
Lemma remove_member_guards_witness :
  member_by_id "m-ana" (db Scenarios.sole_admin_world)
  = Some (Scenarios.membership "m-ana" "u-ana" admin Scenarios.full active)
  /\ remove_member Scenarios.channel "u-ana" "m-ana" Scenarios.sole_admin_world
     = (Normal (res_status_json 400
          "Não é possível remover o último administrador. Adicione outro admin primeiro."),
        Scenarios.sole_admin_world).
Proof.
  split; [reflexivity|].
  refine (proj1 (remove_member_guards Scenarios.channel "u-ana" "m-ana"
                   Scenarios.sole_admin_world _ eq_refl) _ _ _).
  - reflexivity.
  - left. reflexivity.
  - reflexivity.
Defined.

(** C3: the check of the Remove route reads the role of the requester's
    membership and not its status, unlike the count of active admins a
    few lines below it and unlike checkFamilyPermission.  Carla was
    invited as admin and has not answered: she is not among the active
    admins of Dona Maria (Ana is the only one) and checkFamilyPermission
    refuses her, yet her request to remove Bruno, another member, is not
    answered 403: it is answered 200, Bruno's membership is deleted and
    Bruno is told that he was removed. *)
Theorem pending_admin_removes_another_member :
  let w := Scenarios.pending_admin_world in
  let r := remove_member Scenarios.channel "u-carla" "m-bruno" w in
  option_map (fun m => (fm_role m, fm_status m))
             (member_of "p-1" "u-carla" (db w)) = Some (admin, pending)
  /\ map fm_id (active_admins "p-1" (db w)) = ["m-ana"]
  /\ option_map fm_user_id (member_by_id "m-bruno" (db w)) = Some "u-bruno"
  /\ fst (checkFamilyPermission view (Some "u-carla") (Some "p-1") w)
     = Normal (answered (res_status_json 403 "Acesso negado"))
  /\ fst r <> Normal (res_status_json 403
                        "Sem permissão para remover este membro")
  /\ fst r = Normal (res_status_json 200 "Membro removido com sucesso")
  /\ map fm_id (family_members (db (snd r))) = ["m-ana"; "m-carla"]
  /\ map n_user_id (notifications (db (snd r))) = ["u-bruno"].
Proof. vm_compute. repeat split. discriminate. Qed.

(** Removing one of two admins succeeds; a viewer cannot remove another
    member but can leave. *)
Example remove_member_runs :
  let gone w := map fm_id (family_members (db (snd w))) in
  (let r := remove_member Scenarios.channel "u-ana" "m-bruno"
              Scenarios.two_admins_world in
   fst r = Normal (res_status_json 200 "Membro removido com sucesso")
   /\ gone r = ["m-ana"; "m-carla"])
  /\ (let r := remove_member Scenarios.channel "u-carla" "m-bruno"
                 Scenarios.two_admins_world in
      fst r = Normal (res_status_json 403 "Sem permissão para remover este membro")
      /\ gone r = ["m-ana"; "m-bruno"; "m-carla"])
  /\ (let r := remove_member Scenarios.channel "u-carla" "m-carla"
                 Scenarios.two_admins_world in
      fst r = Normal (res_status_json 200 "Você saiu da família")
      /\ gone r = ["m-ana"; "m-bruno"]).
Proof. vm_compute. repeat split. Qed.

(* ---------------------------------------------------------------- *)
(** ** Transfer of the admin role *)

Lemma single_Some {A} (l : list A) (x : A) : single l = Some x -> l = [x].
Proof.
  destruct l as [|y [|z rest]]; simpl; intro H; try discriminate.
  now injection H as ->.
Qed.

Lemma filter_map_stable {A} (p : A -> bool) (g : A -> A) (l : list A) :
  (forall x, p (g x) = p x) -> filter p (map g l) = map g (filter p l).
Proof.
  intro Hp. induction l as [|x rest IH]; simpl; [reflexivity|].
  rewrite Hp. destruct (p x); simpl; now rewrite IH.
Qed.

Section TransferAdmin.

Variable send : PushSubscription -> NotificationPayload -> option Exn.
Variables userId memberId : string.
Variable w : World.

Lemma transfer_admin_target_missing :
  member_by_id memberId (db w) = None ->
  transfer_admin send userId memberId w
  = (Normal (res_status_json 404 "Membro não encontrado ou inativo"), w).
Proof.
  intro H. unfold transfer_admin, try_catch, bind, read. rewrite H. reflexivity.
Qed.

Lemma transfer_admin_target_inactive target :
  member_by_id memberId (db w) = Some target ->
  fm_status target <> active ->
  transfer_admin send userId memberId w
  = (Normal (res_status_json 404 "Membro não encontrado ou inativo"), w).
Proof.
  intros H Hst. unfold transfer_admin, try_catch, bind, read. rewrite H.
  destruct (Status_eqb (fm_status target) active) eqn:E.
  - apply Status_eqb_eq in E. contradiction.
  - reflexivity.
Qed.

Lemma transfer_admin_actor_not_admin target :
  member_by_id memberId (db w) = Some target ->
  fm_status target = active ->
  holds_admin_role (fm_parent_id target) userId (db w) = false ->
  transfer_admin send userId memberId w = (Normal (res_status_json 403
               "Apenas administradores podem transferir admin"), w).
Proof.
  intros H Hst Hrole. unfold transfer_admin, try_catch, bind, read.
  rewrite H, Hst. cbn [Status_eqb negb]. unfold holds_admin_role in Hrole.
  destruct (member_of (fm_parent_id target) userId (db w)) as [cur|];
    [rewrite Hrole|]; reflexivity.
Qed.

(** The two writes of a transfer, read off the table. *)
Lemma transfer_admin_writes target cur :
  member_by_id memberId (db w) = Some target ->
  fm_status target = active ->
  member_of (fm_parent_id target) userId (db w) = Some cur ->
  fm_role cur = admin ->
  exists w',
    transfer_admin send userId memberId w
    = (Normal (res_status_json 200 "Admin transferido com sucesso"), w')
    /\ family_members (db w')
       = map (fun m =>
                if String.eqb (fm_id m) (fm_id cur) then demoted m
                else if String.eqb (fm_id m) memberId then promoted m
                else m)
             (family_members (db w)).
Proof.
  intros H Hst Hcur Hrole. unfold transfer_admin, try_catch, bind, read.
  rewrite H, Hst. cbn [Status_eqb negb]. rewrite Hcur, Hrole.
  cbn [Role_eqb negb]. unfold write. cbv beta iota.
  run_notification send. eexists. split; [reflexivity|].
  destruct Hframe as (_ & _ & Hfm & _). rewrite Hfm.
  unfold update_member, with_family_members. cbn [db family_members].
  rewrite map_map. apply map_ext. intro m.
  destruct (String.eqb (fm_id m) memberId) eqn:Ht; cbn [fm_id];
    destruct (String.eqb (fm_id m) (fm_id cur)); reflexivity.
Qed.

End TransferAdmin.

Lemma member_by_id_id memberId d m :
  member_by_id memberId d = Some m -> fm_id m = memberId.
Proof.
  unfold member_by_id. intro H. apply single_Some in H.
  assert (In m (filter (fun x => String.eqb (fm_id x) memberId) (family_members d)))
    as Hin by (rewrite H; now left).
  apply filter_In in Hin. now apply String.eqb_eq.
Qed.

Lemma transfer_keeps_keys (c1 c2 : bool) (m : FamilyMember) :
  let m' := if c1 then demoted m else if c2 then promoted m else m in
  fm_id m' = fm_id m /\ fm_parent_id m' = fm_parent_id m
  /\ fm_user_id m' = fm_user_id m.
Proof. destruct c1, c2; repeat split. Qed.

(** C4 (as amended): a TransferAdmin request is refused with 404 when the
    target membership is missing or not active and with 403 when the actor
    does not hold role admin on the recipient, the store being left as it
    was.  Otherwise it succeeds, and when the target is not the actor's
    own membership: the target row has role admin with all three flags
    true, the actor's row has role editor with view and edit true and
    delete false, and every other row is unchanged (so any further admin
    of the recipient remains one). *)
Theorem transfer_admin_moves_the_role
    (send : PushSubscription -> NotificationPayload -> option Exn)
    (userId memberId : string) (w : World) :
  let refused code text :=
    transfer_admin send userId memberId w
    = (Normal (res_status_json code text), w) in
  (member_by_id memberId (db w) = None ->
   refused 404%Z "Membro não encontrado ou inativo")
  /\ (forall target,
        member_by_id memberId (db w) = Some target ->
        fm_status target <> active ->
        refused 404%Z "Membro não encontrado ou inativo")
  /\ (forall target,
        member_by_id memberId (db w) = Some target ->
        fm_status target = active ->
        holds_admin_role (fm_parent_id target) userId (db w) = false ->
        refused 403%Z "Apenas administradores podem transferir admin")
  /\ (forall target cur,
        member_by_id memberId (db w) = Some target ->
        fm_status target = active ->
        member_of (fm_parent_id target) userId (db w) = Some cur ->
        fm_role cur = admin ->
        fm_id cur <> memberId ->
        exists w',
          transfer_admin send userId memberId w
          = (Normal (res_status_json 200 "Admin transferido com sucesso"), w')
          /\ member_by_id memberId (db w') = Some (promoted target)
          /\ member_of (fm_parent_id target) userId (db w') = Some (demoted cur)
          /\ family_members (db w')
             = map (fun m =>
                      if String.eqb (fm_id m) (fm_id cur) then demoted m
                      else if String.eqb (fm_id m) memberId then promoted m
                      else m)
                   (family_members (db w))).
Proof.
  intro refused. repeat split.
  - apply transfer_admin_target_missing.
  - intros target. apply transfer_admin_target_inactive.
  - intros target. apply transfer_admin_actor_not_admin.
  - intros target cur Ht Hst Hcur Hrole Hdistinct.
    destruct (transfer_admin_writes send userId memberId w target cur
                Ht Hst Hcur Hrole) as [w' [Hrun Hrows]].
    exists w'. split; [exact Hrun|].
    pose proof (member_by_id_id _ _ _ Ht) as Hid.
    assert (Hneq : String.eqb memberId (fm_id cur) = false).
    { apply String.eqb_neq. congruence. }
    repeat split; [| |exact Hrows].
    + unfold member_by_id. rewrite Hrows.
      rewrite filter_map_stable.
      * unfold member_by_id in Ht. apply single_Some in Ht. rewrite Ht.
        cbn [map]. rewrite Hid, Hneq, String.eqb_refl. reflexivity.
      * intro m. now rewrite (proj1 (transfer_keeps_keys _ _ m)).
    + unfold member_of. rewrite Hrows.
      rewrite filter_map_stable.
      * unfold member_of in Hcur. apply single_Some in Hcur. rewrite Hcur.
        cbn [map]. rewrite String.eqb_refl. reflexivity.
      * intro m. destruct (transfer_keeps_keys
                             (String.eqb (fm_id m) (fm_id cur))
                             (String.eqb (fm_id m) memberId) m)
          as (_ & -> & ->). reflexivity.
Qed.

(** C4 on a concrete family: Ana, the sole admin, hands the role to
    Bruno. *)
Lemma transfer_admin_moves_the_role_witness :
  exists w',
    transfer_admin Scenarios.channel "u-ana" "m-bruno" Scenarios.sole_admin_world
    = (Normal (res_status_json 200 "Admin transferido com sucesso"), w')
    /\ option_map (fun m => (fm_role m, fm_permissions m))
         (member_by_id "m-bruno" (db w'))
       = Some (admin, Some (mkPermissions true true true))
    /\ option_map (fun m => (fm_role m, fm_permissions m))
         (member_of "p-1" "u-ana" (db w'))
       = Some (editor, Some (mkPermissions true true false)).
Proof.
  destruct (proj2 (proj2 (proj2
              (transfer_admin_moves_the_role Scenarios.channel "u-ana" "m-bruno"
                 Scenarios.sole_admin_world)))
              (Scenarios.membership "m-bruno" "u-bruno" viewer Scenarios.read_only active)
              (Scenarios.membership "m-ana" "u-ana" admin Scenarios.full active)
              eq_refl eq_refl eq_refl eq_refl)
    as [w' [Hrun [Htarget [Hactor _]]]].
  - discriminate.
  - exists w'. split; [exact Hrun|].
    unfold Scenarios.membership in Hactor. cbn [fm_parent_id] in Hactor.
    rewrite Htarget, Hactor. split; reflexivity.
Defined.

(** C4, counterexample: with two admins, Ana transfers to Carla; the
    request succeeds and the recipient has two admins afterwards, Bruno and
    Carla, not the target alone. *)
Lemma transfer_admin_may_leave_two_admins :
  let r := transfer_admin Scenarios.channel "u-ana" "m-carla"
             Scenarios.two_admins_world in
  fst r = Normal (res_status_json 200 "Admin transferido com sucesso")
  /\ map fm_id (active_admins "p-1" (db (snd r))) = ["m-bruno"; "m-carla"]
  /\ map fm_id (filter (fun m => Role_eqb (fm_role m) admin)
                       (family_members (db (snd r))))
     <> ["m-carla"].
Proof. vm_compute. repeat split. discriminate. Qed.

(** C2, failing run: Ana, the sole admin, names her own membership as the
    target of a transfer.  The request succeeds; the promotion is
    overwritten by the demotion, and the recipient is left with two active
    memberships and no admin. *)
Theorem transfer_admin_to_self_leaves_no_admin :
  let w := Scenarios.sole_admin_world in
  let r := transfer_admin Scenarios.channel "u-ana" "m-ana" w in
  map fm_id (active_admins "p-1" (db w)) = ["m-ana"]
  /\ fst r = Normal (res_status_json 200 "Admin transferido com sucesso")
  /\ map (fun m => (fm_id m, fm_role m, fm_status m)) (family_members (db (snd r)))
     = [("m-ana", editor, active); ("m-bruno", viewer, active)]
  /\ active_members "p-1" (db (snd r)) <> []
  /\ active_admins "p-1" (db (snd r)) = [].
Proof. vm_compute. repeat split. discriminate. Qed.

(* ---------------------------------------------------------------- *)
(** ** Invitations *)

Lemma notifyFamilyMemberAdded_run
    (send : PushSubscription -> NotificationPayload -> option Exn)
    (parentId newMemberId addedByName : string) (w : World) :
  exists w',
    notifyFamilyMemberAdded send parentId newMemberId addedByName w
    = (Normal tt, w')
    /\ family_members (db w') = family_members (db w).
Proof.
  unfold notifyFamilyMemberAdded, try_catch, bind, read.
  destruct (single _) as [p|].
  - run_notification send. eexists. split; [reflexivity|].
    now destruct Hframe as (_ & _ & Hfm & _).
  - eexists. split; reflexivity.
Qed.

Lemma existsb_false_filter {A} (p : A -> bool) (l : list A) :
  existsb p l = false -> filter p l = [].
Proof.
  induction l as [|x rest IH]; simpl; [reflexivity|].
  intro H. apply orb_false_iff in H. destruct H as [Hx Hrest].
  rewrite Hx. now apply IH.
Qed.

Section Invite.

Variable send : PushSubscription -> NotificationPayload -> option Exn.
Variable userId : string.
Variable body : InviteBody.
Variable newId : string.
Variable w : World.

(** The actor passes the admin check of the route. *)
Hypothesis Hgate : holds_admin_role (inv_parent_id body) userId (db w) = true.

Ltac pass_gate :=
  unfold invite, try_catch, bind, read;
  unfold holds_admin_role in Hgate;
  destruct (member_of (inv_parent_id body) userId (db w)) as [inv|];
  [rewrite Hgate; cbn [negb] | discriminate].

Lemma invite_unknown_email :
  profile_by_email (inv_email body) (db w) = None ->
  invite send userId body newId w
  = (Normal (res_status_json 404
       "Usuário não encontrado. Ele precisa criar uma conta primeiro."), w).
Proof. intro H. pass_gate. rewrite H. reflexivity. Qed.

Lemma invite_existing_member invited existing :
  profile_by_email (inv_email body) (db w) = Some invited ->
  member_of (inv_parent_id body) (pr_id invited) (db w) = Some existing ->
  (fm_status existing = active ->
   invite send userId body newId w
   = (Normal (res_status_json 400 "Usuário já é membro da família"), w))
  /\ (fm_status existing = pending ->
      invite send userId body newId w
      = (Normal (res_status_json 400 "Convite já enviado e pendente"), w)).
Proof.
  intros Hp Hm. split; intro Hst; pass_gate; rewrite Hp, Hm; cbn [option_map];
    rewrite Hst; reflexivity.
Qed.

Lemma invite_creates_pending invited :
  profile_by_email (inv_email body) (db w) = Some invited ->
  existsb (fun m => String.eqb (fm_parent_id m) (inv_parent_id body)
                    && String.eqb (fm_user_id m) (pr_id invited))
          (family_members (db w)) = false ->
  existsb (fun m => String.eqb (fm_id m) newId) (family_members (db w)) = false ->
  exists w',
    invite send userId body newId w
    = (Normal (res_status_json 201 "Convite enviado com sucesso"), w')
    /\ family_members (db w')
       = (family_members (db w)
          ++ [mkFamilyMember newId (inv_parent_id body) (pr_id invited)
                (inv_role body)
                (Some (match inv_permissions body with
                       | Some p => p
                       | None => default_permissions (inv_role body)
                       end))
                pending (Some userId) None])%list.
Proof.
  intros Hp Hpair Hfresh. pass_gate. rewrite Hp.
  unfold member_of at 1. rewrite (existsb_false_filter _ _ Hpair).
  cbn [single option_map]. unfold insert_member.
  cbn [fm_id fm_parent_id fm_user_id]. rewrite Hfresh, Hpair.
  match goal with
  | |- context [notifyFamilyMemberAdded send ?p ?u ?n ?w0] =>
      destruct (notifyFamilyMemberAdded_run send p u n w0) as [w' [Hrun Hfm]]
  end.
  cbv zeta. rewrite Hrun. eexists. split; [reflexivity|].
  rewrite Hfm. reflexivity.
Qed.

End Invite.

Lemma invite_not_admin
    (send : PushSubscription -> NotificationPayload -> option Exn)
    (userId : string) (body : InviteBody) (newId : string) (w : World) :
  holds_admin_role (inv_parent_id body) userId (db w) = false ->
  invite send userId body newId w
  = (Normal (res_status_json 403 "Apenas administradores podem convidar"), w).
Proof.
  unfold holds_admin_role, invite, try_catch, bind, read. intro Hgate.
  destruct (member_of (inv_parent_id body) userId (db w)) as [inv|];
    [rewrite Hgate|]; reflexivity.
Qed.

(** C6 (as amended): an invite by an actor who does not pass the admin
    check of the route is refused with 403 whatever the email.  For an
    actor who passes it: the invite fails with 404 (user not found) when no
    profile has the email; fails with 400 (already a member, or invitation
    pending) when the pair has an active or a pending membership; and when
    the pair has no membership and the generated id is new, it answers 201
    and appends one pending membership with the requested role, whose
    flags are the explicit ones if supplied and otherwise
    admin -> all true, editor -> view and edit, viewer -> view only. *)
Theorem invite_outcomes
    (send : PushSubscription -> NotificationPayload -> option Exn)
    (userId : string) (body : InviteBody) (newId : string) (w : World) :
  let parentId := inv_parent_id body in
  let answers code text :=
    invite send userId body newId w = (Normal (res_status_json code text), w) in
  (holds_admin_role parentId userId (db w) = false ->
   answers 403%Z "Apenas administradores podem convidar")
  /\ (holds_admin_role parentId userId (db w) = true ->
      (profile_by_email (inv_email body) (db w) = None ->
       answers 404%Z
         "Usuário não encontrado. Ele precisa criar uma conta primeiro.")
      /\ (forall invited existing,
            profile_by_email (inv_email body) (db w) = Some invited ->
            member_of parentId (pr_id invited) (db w) = Some existing ->
            (fm_status existing = active ->
             answers 400%Z "Usuário já é membro da família")
            /\ (fm_status existing = pending ->
                answers 400%Z "Convite já enviado e pendente"))
      /\ (forall invited,
            profile_by_email (inv_email body) (db w) = Some invited ->
            existsb (fun m => String.eqb (fm_parent_id m) parentId
                              && String.eqb (fm_user_id m) (pr_id invited))
                    (family_members (db w)) = false ->
            existsb (fun m => String.eqb (fm_id m) newId)
                    (family_members (db w)) = false ->
            exists w',
              invite send userId body newId w
              = (Normal (res_status_json 201 "Convite enviado com sucesso"), w')
              /\ family_members (db w')
                 = (family_members (db w)
                    ++ [mkFamilyMember newId parentId (pr_id invited)
                          (inv_role body)
                          (Some (match inv_permissions body with
                                 | Some p => p
                                 | None => default_permissions (inv_role body)
                                 end))
                          pending (Some userId) None])%list))
  /\ default_permissions admin = mkPermissions true true true
  /\ default_permissions editor = mkPermissions true true false
  /\ default_permissions viewer = mkPermissions true false false.
Proof.
  intros parentId answers. split; [apply invite_not_admin|].
  split; [|repeat split]. intro Hgate. split; [|split].
  - now apply invite_unknown_email.
  - intros invited existing. now apply invite_existing_member.
  - intros invited. now apply invite_creates_pending.
Qed.

(** C6 on a concrete family: Ana invites Carla as editor without explicit
    flags. *)
Lemma invite_outcomes_witness :
  holds_admin_role "p-1" "u-ana" (db Scenarios.sole_admin_world) = true
  /\ exists w',
       invite Scenarios.channel "u-ana"
         (mkInviteBody "p-1" "carla@example.com" editor None) "m-carla"
         Scenarios.sole_admin_world
       = (Normal (res_status_json 201 "Convite enviado com sucesso"), w')
       /\ family_members (db w')
          = (family_members (db Scenarios.sole_admin_world)
             ++ [mkFamilyMember "m-carla" "p-1" "u-carla" editor
                   (Some (mkPermissions true true false)) pending
                   (Some "u-ana") None])%list.
Proof.
  split; [reflexivity|].
  exact (proj2 (proj2 (proj1 (proj2
           (invite_outcomes Scenarios.channel "u-ana"
              (mkInviteBody "p-1" "carla@example.com" editor None) "m-carla"
              Scenarios.sole_admin_world)) eq_refl))
           Scenarios.carla eq_refl eq_refl eq_refl).
Defined.

(** C6, counterexample: Bruno, a viewer, invites an email no profile has;
    the answer is 403 (only admins may invite), not user-not-found. *)
Lemma invite_by_viewer_is_refused_first :
  let w := Scenarios.sole_admin_world in
  let r := invite Scenarios.channel "u-bruno"
             (mkInviteBody "p-1" "nobody@example.com" viewer None) "m-new" w in
  profile_by_email "nobody@example.com" (db w) = None
  /\ r = (Normal (res_status_json 403 "Apenas administradores podem convidar"), w)
  /\ code_of (res_status_json 403 "Apenas administradores podem convidar") <> 404%Z.
Proof. vm_compute. repeat split. discriminate. Qed.

(** An invite for a pair that has an inactive membership passes the
    already-member test; the insert is then rejected by the UNIQUE key and
    the route answers 500. *)
Example invite_over_inactive_membership :
  let w := mkWorld (with_family_members Scenarios.people
             [ Scenarios.membership "m-ana" "u-ana" admin Scenarios.full active;
               Scenarios.membership "m-bruno" "u-bruno" viewer
                 Scenarios.read_only inactive ]) [] in
  let r := invite Scenarios.channel "u-ana"
             (mkInviteBody "p-1" "bruno@example.com" viewer None) "m-new" w in
  fst r = Normal (res_status_json 500 "Erro ao enviar convite")
  /\ family_members (db (snd r)) = family_members (db w).
Proof. vm_compute. split; reflexivity. Qed.

(* ---------------------------------------------------------------- *)
(** ** The admin check of the family routes *)

(** The admin check reads role only: rewriting the status column of the
    table in any way does not change its verdict. *)
Lemma holds_admin_role_ignores_status
    (restatus : FamilyMember -> Status) (parentId userId : string) (d : Db) :
  let d' := with_family_members d
              (map (fun m => mkFamilyMember (fm_id m) (fm_parent_id m)
                               (fm_user_id m) (fm_role m) (fm_permissions m)
                               (restatus m) (fm_invited_by m) (fm_accepted_at m))
                   (family_members d)) in
  holds_admin_role parentId userId d' = holds_admin_role parentId userId d.
Proof.
  unfold holds_admin_role, member_of. cbn [family_members with_family_members].
  rewrite filter_map_stable by reflexivity.
  destruct (filter _ (family_members d)) as [|m [|m2 rest]]; reflexivity.
Qed.

Lemma filter_and {A} (f g : A -> bool) (l : list A) :
  filter (fun x => f x && g x) l = filter g (filter f l).
Proof.
  induction l as [|x rest IH]; cbn [filter]; [reflexivity|].
  destruct (f x); cbn [andb filter]; [destruct (g x)|]; now rewrite IH.
Qed.

(** C9: the admin checks of invite, update-permissions and transfer-admin
    read the role of the actor's membership and not its status.  So in
    every store, a user whose membership on a recipient has role admin and
    a status other than active (pending, or inactive), whom
    checkFamilyPermission refuses, passes the three checks and the
    requests are carried out: the invitation is appended as a pending
    row, the permissions of another member are rewritten, and the admin
    role is moved to an active member, the table after each request being
    the table before with exactly that change. *)
Theorem pending_admin_passes_the_admin_checks
    (send : PushSubscription -> NotificationPayload -> option Exn)
    (w : World) (userId parentId : string) (actor : FamilyMember)
    (Hactor : member_of parentId userId (db w) = Some actor)
    (Hrole : fm_role actor = admin)
    (Hstatus : fm_status actor <> active) :
  active_member_of parentId userId (db w) = None
  /\ (forall body newId invited,
        inv_parent_id body = parentId ->
        profile_by_email (inv_email body) (db w) = Some invited ->
        existsb (fun m => String.eqb (fm_parent_id m) parentId
                          && String.eqb (fm_user_id m) (pr_id invited))
                (family_members (db w)) = false ->
        existsb (fun m => String.eqb (fm_id m) newId) (family_members (db w))
        = false ->
        exists w',
          invite send userId body newId w
          = (Normal (res_status_json 201 "Convite enviado com sucesso"), w')
          /\ family_members (db w')
             = (family_members (db w)
                ++ [mkFamilyMember newId parentId (pr_id invited)
                      (inv_role body)
                      (Some (match inv_permissions body with
                             | Some p => p
                             | None => default_permissions (inv_role body)
                             end))
                      pending (Some userId) None])%list)
  /\ (forall memberId body mem,
        member_by_id memberId (db w) = Some mem ->
        fm_parent_id mem = parentId ->
        fm_user_id mem <> userId ->
        exists w',
          update_permissions send userId memberId body w
          = (Normal (res_status_json 200 "Permissões atualizadas com sucesso"),
             w')
          /\ family_members (db w')
             = map (fun m =>
                      if String.eqb (fm_id m) memberId
                      then mkFamilyMember (fm_id m) (fm_parent_id m)
                             (fm_user_id m)
                             (match upd_role body with
                              | Some r => r
                              | None => fm_role m
                              end)
                             (match upd_permissions body with
                              | Some p => Some p
                              | None => fm_permissions m
                              end)
                             (fm_status m) (fm_invited_by m) (fm_accepted_at m)
                      else m)
                   (family_members (db w)))
  /\ (forall memberId target,
        member_by_id memberId (db w) = Some target ->
        fm_parent_id target = parentId ->
        fm_status target = active ->
        exists w',
          transfer_admin send userId memberId w
          = (Normal (res_status_json 200 "Admin transferido com sucesso"), w')
          /\ family_members (db w')
             = map (fun m =>
                      if String.eqb (fm_id m) (fm_id actor) then demoted m
                      else if String.eqb (fm_id m) memberId then promoted m
                      else m)
                   (family_members (db w))).
Proof.
  split; [|split; [|split]].
  - unfold active_member_of.
    rewrite (filter_and (fun m => String.eqb (fm_parent_id m) parentId
                                  && String.eqb (fm_user_id m) userId)
                        (fun m => Status_eqb (fm_status m) active)).
    unfold member_of in Hactor. apply single_Some in Hactor. rewrite Hactor.
    cbn [filter]. destruct (Status_eqb (fm_status actor) active) eqn:Hst;
      [|reflexivity].
    apply Status_eqb_eq in Hst. contradiction.
  - intros body newId invited Hparent Hprofile Hpair Hfresh. subst parentId.
    apply (invite_creates_pending send userId body newId w); try assumption.
    unfold holds_admin_role. now rewrite Hactor, Hrole.
  - intros memberId body mem Hmem Hparent Hother. subst parentId.
    unfold update_permissions, try_catch, bind, read.
    rewrite Hmem, Hactor, Hrole. cbn [Role_eqb negb].
    apply String.eqb_neq in Hother. rewrite Hother.
    unfold write. cbv beta iota. run_notification send.
    eexists. split; [reflexivity|].
    destruct Hframe as (_ & _ & Hfm & _). rewrite Hfm. reflexivity.
  - intros memberId target Htarget Hparent Hst. subst parentId.
    now apply (transfer_admin_writes send userId memberId w target actor).
Qed.

(** Carla was invited as admin and has not answered.  She invites Davi,
    makes Ana, the only active admin, a viewer, and hands the admin role
    to Bruno: each request is carried out. *)
Lemma pending_admin_passes_the_admin_checks_witness :
  let w := Scenarios.pending_admin_world in
  (exists w',
      invite Scenarios.channel "u-carla"
        (mkInviteBody "p-1" "davi@example.com" editor None) "m-davi" w
      = (Normal (res_status_json 201 "Convite enviado com sucesso"), w')
      /\ map (fun m => (fm_id m, fm_status m)) (family_members (db w'))
         = [("m-ana", active); ("m-bruno", active); ("m-carla", pending);
            ("m-davi", pending)])
  /\ (exists w',
        update_permissions Scenarios.channel "u-carla" "m-ana"
          (mkUpdatePermissionsBody (Some viewer) None) w
        = (Normal (res_status_json 200 "Permissões atualizadas com sucesso"),
           w')
        /\ map (fun m => (fm_id m, fm_role m)) (family_members (db w'))
           = [("m-ana", viewer); ("m-bruno", viewer); ("m-carla", admin)])
  /\ (exists w',
        transfer_admin Scenarios.channel "u-carla" "m-bruno" w
        = (Normal (res_status_json 200 "Admin transferido com sucesso"), w')
        /\ map (fun m => (fm_id m, fm_role m)) (family_members (db w'))
           = [("m-ana", admin); ("m-bruno", admin); ("m-carla", editor)]).
Proof.
  cbv zeta.
  destruct (pending_admin_passes_the_admin_checks Scenarios.channel
              Scenarios.pending_admin_world "u-carla" "p-1"
              (Scenarios.membership "m-carla" "u-carla" admin Scenarios.full
                 pending)
              eq_refl eq_refl ltac:(discriminate))
    as (_ & Hinvite & Hupdate & Htransfer).
  split; [|split].
  - destruct (Hinvite (mkInviteBody "p-1" "davi@example.com" editor None)
                "m-davi" (mkProfile "u-davi" "davi@example.com" "Davi")
                eq_refl eq_refl eq_refl eq_refl) as [w' [Hrun Hrows]].
    exists w'. split; [exact Hrun|]. rewrite Hrows. reflexivity.
  - destruct (Hupdate "m-ana" (mkUpdatePermissionsBody (Some viewer) None)
                (Scenarios.membership "m-ana" "u-ana" admin Scenarios.full
                   active)
                eq_refl eq_refl ltac:(discriminate)) as [w' [Hrun Hrows]].
    exists w'. split; [exact Hrun|]. rewrite Hrows. reflexivity.
  - destruct (Htransfer "m-bruno"
                (Scenarios.membership "m-bruno" "u-bruno" viewer
                   Scenarios.read_only active)
                eq_refl eq_refl eq_refl) as [w' [Hrun Hrows]].
    exists w'. split; [exact Hrun|]. rewrite Hrows. reflexivity.
Defined.

(** The second run against C2: the pending admin of the store above
    demotes Ana, the only active admin, who stays an active member. *)
Example pending_admin_demotes_the_last_admin :
  let w := Scenarios.pending_admin_world in
  let r := update_permissions Scenarios.channel "u-carla" "m-ana"
             (mkUpdatePermissionsBody (Some viewer) None) w in
  map fm_id (active_admins "p-1" (db w)) = ["m-ana"]
  /\ map fm_id (active_members "p-1" (db (snd r))) = ["m-ana"; "m-bruno"]
  /\ active_admins "p-1" (db (snd r)) = [].
Proof. vm_compute. repeat split. Qed.

(* ================================================================== *)
(** * Permission checks and the admin role *)
(* ================================================================== *)

(** The middleware lets an active admin through whatever the flags. *)
Lemma checkFamilyPermission_admin permission userId parentId w fm :
  parentId <> "" ->
  active_member_of parentId userId (db w) = Some fm ->
  fm_role fm = admin ->
  checkFamilyPermission permission (Some userId) (Some parentId) w
  = (Normal next, w).
Proof.
  intros Hpid Hfm Hrole. unfold checkFamilyPermission, try_catch, bind, read.
  destruct parentId as [|c rest]; [congruence|].
  rewrite Hfm, Hrole. reflexivity.
Qed.

(** So do the tests of the routes that name the role. *)
Lemma role_naming_guards_admin fm :
  fm_role fm = admin ->
  edit_refused (Some fm) = false /\ delete_refused (Some fm) = false
  /\ not_admin (Some fm) = false.
Proof.
  intro Hrole. unfold edit_refused, delete_refused, not_admin.
  rewrite Hrole. cbn [Role_eqb negb]. rewrite !andb_false_r. repeat split.
Qed.

(** PATCH /api/appointments/:id/status reads the flag alone: a member
    whose stored can_edit is false is refused, admin or not, and nothing
    is written. *)
Lemma patch_status_reads_flag_only
    (send : PushSubscription -> NotificationPayload -> option Exn)
    userId id status outcome dbNow w apt fm :
  AppointmentRoutes.appointment_by_id id (db w) = Some apt ->
  member_of (apt_parent_id apt) userId (db w) = Some fm ->
  flag can_edit (fm_permissions fm) = false ->
  AppointmentRoutes.patch_status send userId id status outcome dbNow w
  = (Normal (res_status_json 403 "Sem permissão"), w).
Proof.
  intros Hapt Hfm Hflag.
  unfold AppointmentRoutes.patch_status, try_catch, bind, read.
  rewrite Hapt, Hfm. unfold status_edit_refused. rewrite Hflag. reflexivity.
Qed.

(** C5, failing run: Ana promotes Bruno, an active viewer, to admin by
    sending the role alone, so his stored flags stay those of a viewer.
    The middleware and the role-naming tests then grant Bruno edit and
    delete, but his PATCH of an appointment status is answered 403 and the
    appointment is not changed. *)
Theorem admin_with_stale_flags_cannot_patch_status :
  let w0 := Scenarios.care_world in
  let promote := update_permissions Scenarios.channel "u-ana" "m-bruno"
                   (mkUpdatePermissionsBody (Some admin) None) w0 in
  let w := snd promote in
  let bruno := member_of "p-1" "u-bruno" (db w) in
  fst promote = Normal (res_status_json 200 "Permissões atualizadas com sucesso")
  /\ option_map (fun m => (fm_role m, fm_status m, fm_permissions m)) bruno
     = Some (admin, active, Some (mkPermissions true false false))
  /\ checkFamilyPermission edit (Some "u-bruno") (Some "p-1") w = (Normal next, w)
  /\ checkFamilyPermission delete (Some "u-bruno") (Some "p-1") w = (Normal next, w)
  /\ edit_refused bruno = false
  /\ delete_refused bruno = false
  /\ AppointmentRoutes.patch_status Scenarios.channel "u-bruno" "a-1"
       completed None 6000 w
     = (Normal (res_status_json 403 "Sem permissão"), w).
Proof. vm_compute. repeat split. Qed.

(* ================================================================== *)
(** * Medication reminder scan *)
(* ================================================================== *)

(** C1, failing run: the medication is scheduled at 08:00 and the scan
    runs at 07:55, five minutes before; the hours differ, so the test of
    the scan is false and no notification is generated for either member
    of the family.  (At 07:54 and 07:56, and at 23:57 for a schedule of
    00:02, none is generated either.) *)
Theorem scan_at_0755_misses_the_0800_dose :
  let w := Scenarios.care_world in
  map fm_user_id (active_members "p-1" (db w)) = ["u-ana"; "u-bruno"]
  /\ map med_times (filter med_is_active (medications (db w))) = [["08:00"]]
  /\ (60 * 8 + 0 - (60 * 7 + 55) = 5)%Z
  /\ due_in_five "08:00" 7 55 = false
  /\ sendMedicationReminders Scenarios.channel 7 55 w = (Normal tt, w)
  /\ notifications (db (snd (sendMedicationReminders Scenarios.channel 7 55 w)))
     = [].
Proof. vm_compute. repeat split. Qed.

(** The cases of the scan that behave as described: one minute early or
    late nothing is sent, and 00:02 is not matched at 23:57. *)
Example scan_off_by_one_minute :
  let w := Scenarios.care_world in
  sendMedicationReminders Scenarios.channel 7 54 w = (Normal tt, w)
  /\ sendMedicationReminders Scenarios.channel 7 56 w = (Normal tt, w)
  /\ due_in_five "00:02" 23 57 = false.
Proof. vm_compute. repeat split. Qed.

(** A dose at 08:05 seen at 08:00 passes the test of the scan, but the
    member query is refused and nobody is notified. *)
Example scan_same_hour :
  let w := mkWorld
      (mkDb [Scenarios.ana; Scenarios.bruno; Scenarios.carla]
            [Scenarios.dona_maria]
            [ Scenarios.membership "m-ana" "u-ana" admin Scenarios.full active;
              Scenarios.membership "m-bruno" "u-bruno" viewer
                Scenarios.read_only pending ]
            [ mkMedication "med-1" "p-1" "Losartana" "50mg" ["08:05"] true ]
            [] [] []) [] in
  due_in_five "08:05" 8 0 = true
  /\ members_with_profiles "p-1" (db w) = None
  /\ sendMedicationReminders Scenarios.channel 8 0 w = (Normal tt, w).
Proof. vm_compute. repeat split. Qed.

(* ---------------------------------------------------------------- *)
(** ** When the scan fires *)

Lemma reads_back_all :
  forallb (fun h => forallb (reads_back h) (seq 0 60)) (seq 0 24) = true.
Proof. vm_compute. reflexivity. Qed.

Lemma clock_parses (h m : nat) :
  (h < 24)%nat -> (m < 60)%nat ->
  map Number (split_colon (clock h m)) = [Some (Z.of_nat h); Some (Z.of_nat m)].
Proof.
  intros Hh Hm. pose proof reads_back_all as Hall.
  rewrite forallb_forall in Hall.
  specialize (Hall h). rewrite in_seq in Hall.
  assert (Hrow : forallb (reads_back h) (seq 0 60) = true) by (apply Hall; lia).
  rewrite forallb_forall in Hrow.
  specialize (Hrow m). rewrite in_seq in Hrow.
  assert (Hcell : reads_back h m = true) by (apply Hrow; lia).
  unfold reads_back in Hcell.
  destruct (map Number (split_colon (clock h m)))
    as [|[a|] [|[b|] [|c rest]]]; try discriminate.
  apply andb_true_iff in Hcell. destruct Hcell as [Ha Hb].
  apply Z.eqb_eq in Ha, Hb. now subst.
Qed.

(** The test of the scan on a schedule HH:MM: same hour, and the minute
    five ahead. *)
Lemma due_in_five_clock (h m : nat) (currentHour currentMinute : Z) :
  (h < 24)%nat -> (m < 60)%nat ->
  due_in_five (clock h m) currentHour currentMinute
  = (Z.eqb (Z.of_nat h) currentHour
     && Z.eqb (Z.of_nat m - currentMinute) 5)%bool.
Proof.
  intros Hh Hm. unfold due_in_five. rewrite (clock_parses h m Hh Hm).
  reflexivity.
Qed.

(** A dose in the first five minutes of an hour is never announced: no
    clock reading passes the test.  In particular the reading five minutes
    before it, which lies in the previous hour, does not. *)
Lemma first_five_minutes_never_due (h m : nat) (currentHour currentMinute : Z) :
  (h < 24)%nat -> (m < 5)%nat -> (0 <= currentMinute)%Z ->
  due_in_five (clock h m) currentHour currentMinute = false.
Proof.
  intros Hh Hm Hcm. rewrite due_in_five_clock by lia.
  apply andb_false_iff. right. apply Z.eqb_neq. lia.
Qed.

(** Among the clock readings that are five minutes before the dose on the
    same day, the scan fires exactly for the doses at minute five or
    later. *)
Lemma five_minutes_before_iff (h m ch cm : nat) :
  (h < 24)%nat -> (m < 60)%nat -> (ch < 24)%nat -> (cm < 60)%nat ->
  (60 * h + m = 60 * ch + cm + 5)%nat ->
  due_in_five (clock h m) (Z.of_nat ch) (Z.of_nat cm) = true <-> (5 <= m)%nat.
Proof.
  intros Hh Hm Hch Hcm Hgap. rewrite due_in_five_clock by lia.
  rewrite andb_true_iff, !Z.eqb_eq. lia.
Qed.

(* ---------------------------------------------------------------- *)
(** ** What the scan inserts *)

Section Scan.

Variable send : PushSubscription -> NotificationPayload -> option Exn.
Variables currentHour currentMinute : Z.

(** family_members has two foreign keys to profiles, user_id and
    invited_by, so the member query of the scan is refused. *)
Lemma member_query_refused (parentId : string) (d : Db) :
  relationships "family_members" "profiles" = 2%nat
  /\ members_with_profiles parentId d = None.
Proof. split; reflexivity. Qed.

Lemma times_skipped (med : Medication) : forall (times : list string) (w : World),
  for_of times (fun time =>
    if due_in_five time currentHour currentMinute
    then
      bind (read (members_with_profiles (med_parent_id med)))
           (fun familyMembers =>
              match familyMembers with
              | None => ret tt
              | Some members => for_of members (remind_member send med time)
              end)
    else ret tt) w
  = (Normal tt, w).
Proof.
  induction times as [|time rest IH]; intro w; [reflexivity|].
  cbn [for_of]. unfold bind at 1.
  destruct (due_in_five time currentHour currentMinute).
  - unfold bind, read.
    rewrite (proj2 (member_query_refused (med_parent_id med) (db w))).
    cbn [ret]. apply IH.
  - cbn [ret]. apply IH.
Qed.

Lemma medications_skipped : forall (meds : list Medication) (w : World),
  for_of meds (fun med =>
    for_of (med_times med) (fun time =>
      if due_in_five time currentHour currentMinute
      then
        bind (read (members_with_profiles (med_parent_id med)))
             (fun familyMembers =>
                match familyMembers with
                | None => ret tt
                | Some members => for_of members (remind_member send med time)
                end)
      else ret tt)) w
  = (Normal tt, w).
Proof.
  induction meds as [|med rest IH]; intro w; [reflexivity|].
  cbn [for_of]. unfold bind at 1. rewrite times_skipped. apply IH.
Qed.

(** The scan completes and leaves the store and the console as they
    were, whatever is due. *)
Lemma sendMedicationReminders_idle (w : World) :
  sendMedicationReminders send currentHour currentMinute w = (Normal tt, w).
Proof.
  unfold sendMedicationReminders, try_catch.
  unfold bind at 1, read at 1. now rewrite medications_skipped.
Qed.

End Scan.

(* ================================================================== *)
(** * The last-admin invariant along sequences of requests *)
(* ================================================================== *)

(** ** What each route writes to family_members *)

Section TableEffects.

Variable send : PushSubscription -> NotificationPayload -> option Exn.

Lemma invite_effect userId body newId w :
  let rows := family_members (db w) in
  let rows' := family_members (db (snd (invite send userId body newId w))) in
  rows' = rows
  \/ exists inviter row,
       member_of (inv_parent_id body) userId (db w) = Some inviter
       /\ existsb (fun m => String.eqb (fm_id m) newId) rows = false
       /\ fm_id row = newId /\ fm_parent_id row = inv_parent_id body
       /\ fm_status row = pending
       /\ rows' = (rows ++ [row])%list.
Proof.
  cbv zeta. unfold invite, try_catch, bind, read.
  destruct (member_of (inv_parent_id body) userId (db w)) as [inviter|];
    [|now left].
  destruct (Role_eqb (fm_role inviter) admin); cbn [negb]; [|now left].
  destruct (profile_by_email (inv_email body) (db w)) as [invited|]; [|now left].
  destruct (option_map fm_status
              (member_of (inv_parent_id body) (pr_id invited) (db w)))
    as [[| |]|]; try (now left);
    (unfold insert_member; cbv zeta; cbn [fm_id fm_parent_id fm_user_id];
     destruct (existsb (fun m => String.eqb (fm_id m) newId)
                       (family_members (db w))) eqn:Hid; [now left|];
     destruct (existsb (fun m => String.eqb (fm_parent_id m) _ && _)
                       (family_members (db w))); [now left|];
     cbv beta iota;
     match goal with
     | |- context [notifyFamilyMemberAdded send ?p ?u ?n ?w0] =>
         destruct (notifyFamilyMemberAdded_run send p u n w0) as [w1 [Hrun Hfm]]
     end;
     rewrite Hrun; right; eexists; eexists;
     split; [reflexivity|]; split; [reflexivity|];
     split; [|split; [|split; [|cbv beta iota delta [ret snd]; rewrite Hfm; reflexivity]]];
     reflexivity).
Qed.

Lemma accept_effect userId userEmail inviteId now w :
  let rows := family_members (db w) in
  let rows' :=
    family_members (db (snd (accept send userId userEmail inviteId now w))) in
  rows' = rows
  \/ rows' = map (fun m =>
                    if String.eqb (fm_id m) inviteId
                    then mkFamilyMember (fm_id m) (fm_parent_id m) (fm_user_id m)
                           (fm_role m) (fm_permissions m) active
                           (fm_invited_by m) (Some now)
                    else m) rows.
Proof.
  cbv zeta. unfold accept, try_catch, bind, read.
  destruct (pending_invite inviteId userId (db w)) as [inv|]; [|now left].
  unfold write. cbv beta iota. run_notification send. right.
  cbv beta iota delta [ret snd]. destruct Hframe as (_ & _ & Hfm & _).
    rewrite Hfm. reflexivity.
Qed.

Lemma decline_effect userId userEmail inviteId w :
  let rows := family_members (db w) in
  let rows' :=
    family_members (db (snd (decline send userId userEmail inviteId w))) in
  rows' = rows
  \/ exists inv,
       pending_invite inviteId userId (db w) = Some inv
       /\ rows' = filter (fun m => negb (String.eqb (fm_id m) inviteId)) rows.
Proof.
  cbv zeta. unfold decline, try_catch, bind, read.
  destruct (pending_invite inviteId userId (db w)) as [inv|]; [|now left].
  unfold write. cbv beta iota. run_notification send. right. exists inv.
  split; [reflexivity|].
  cbv beta iota delta [ret snd]. destruct Hframe as (_ & _ & Hfm & _).
    rewrite Hfm. reflexivity.
Qed.

Lemma update_permissions_effect userId memberId body w :
  let rows := family_members (db w) in
  let rows' :=
    family_members (db (snd (update_permissions send userId memberId body w))) in
  rows' = rows
  \/ exists mem chk,
       member_by_id memberId (db w) = Some mem
       /\ member_of (fm_parent_id mem) userId (db w) = Some chk
       /\ fm_role chk = admin /\ fm_user_id mem <> userId
       /\ rows' = map (fun m =>
                         if String.eqb (fm_id m) memberId
                         then mkFamilyMember (fm_id m) (fm_parent_id m)
                                (fm_user_id m)
                                (match upd_role body with
                                 | Some r => r
                                 | None => fm_role m
                                 end)
                                (match upd_permissions body with
                                 | Some p => Some p
                                 | None => fm_permissions m
                                 end)
                                (fm_status m) (fm_invited_by m) (fm_accepted_at m)
                         else m) rows.
Proof.
  cbv zeta. unfold update_permissions, try_catch, bind, read.
  destruct (member_by_id memberId (db w)) as [mem|] eqn:Hmem; [|now left].
  destruct (member_of (fm_parent_id mem) userId (db w)) as [chk|] eqn:Hchk;
    [|now left].
  destruct (Role_eqb (fm_role chk) admin) eqn:Hrole; cbn [negb]; [|now left].
  destruct (String.eqb (fm_user_id mem) userId) eqn:Hself; [now left|].
  unfold write. cbv beta iota. run_notification send. right. exists mem, chk.
  split; [reflexivity|]. split; [exact Hchk|].
  split; [now apply Role_eqb_eq|]. split; [now apply String.eqb_neq|].
  cbv beta iota delta [ret snd]. destruct Hframe as (_ & _ & Hfm & _).
  rewrite Hfm. reflexivity.
Qed.

Lemma remove_member_effect userId memberId w :
  let rows := family_members (db w) in
  let rows' := family_members (db (snd (remove_member send userId memberId w))) in
  rows' = rows
  \/ exists mem,
       member_by_id memberId (db w) = Some mem
       /\ (fm_role mem <> admin
           \/ List.length (active_admins (fm_parent_id mem) (db w)) <> 1%nat)
       /\ rows' = filter (fun m => negb (String.eqb (fm_id m) memberId)) rows.
Proof.
  cbv zeta.
  destruct (member_by_id memberId (db w)) as [mem|] eqn:Hmem.
  2:{ left. unfold remove_member, try_catch, bind, read. now rewrite Hmem. }
  destruct (String.eqb (fm_user_id mem) userId
            || holds_admin_role (fm_parent_id mem) userId (db w)) eqn:Hauth.
  2:{ left. apply orb_false_iff in Hauth. destruct Hauth as [Hs Ha].
      now rewrite (remove_member_unauthorized send _ _ _ _ Hmem Hs Ha). }
  destruct (Role_eqb (fm_role mem) admin) eqn:Hrole.
  - destruct (Nat.eqb (List.length (active_admins (fm_parent_id mem) (db w))) 1)
      eqn:Hcount.
    + left. apply Role_eqb_eq in Hrole. apply Nat.eqb_eq in Hcount.
      now rewrite (remove_member_last_admin send _ _ _ _ Hmem Hauth Hrole Hcount).
    + right. apply Nat.eqb_neq in Hcount. exists mem.
      destruct (remove_member_deletes send _ _ _ _ Hmem Hauth (or_intror Hcount))
        as [w' [Hrun Hdel]].
      rewrite Hrun. repeat split; [now right | exact Hdel].
  - right. exists mem.
    assert (Hne : fm_role mem <> admin).
    { intro H. apply Role_eqb_eq in H. congruence. }
    destruct (remove_member_deletes send _ _ _ _ Hmem Hauth (or_introl Hne))
      as [w' [Hrun Hdel]].
    rewrite Hrun. repeat split; [now left | exact Hdel].
Qed.

Lemma transfer_admin_effect userId memberId w :
  let rows := family_members (db w) in
  let rows' := family_members (db (snd (transfer_admin send userId memberId w))) in
  rows' = rows
  \/ exists target cur,
       member_by_id memberId (db w) = Some target
       /\ fm_status target = active
       /\ member_of (fm_parent_id target) userId (db w) = Some cur
       /\ rows' = map (fun m =>
                         if String.eqb (fm_id m) (fm_id cur) then demoted m
                         else if String.eqb (fm_id m) memberId then promoted m
                         else m) rows.
Proof.
  cbv zeta.
  destruct (member_by_id memberId (db w)) as [target|] eqn:Ht.
  2:{ left. now rewrite (transfer_admin_target_missing send _ _ _ Ht). }
  destruct (Status_eqb (fm_status target) active) eqn:Hst.
  2:{ left. rewrite (transfer_admin_target_inactive send _ _ _ _ Ht);
        [reflexivity|]. intro H. apply Status_eqb_eq in H. congruence. }
  apply Status_eqb_eq in Hst.
  destruct (holds_admin_role (fm_parent_id target) userId (db w)) eqn:Hrole.
  2:{ left. now rewrite (transfer_admin_actor_not_admin send _ _ _ _ Ht Hst Hrole). }
  unfold holds_admin_role in Hrole.
  destruct (member_of (fm_parent_id target) userId (db w)) as [cur|] eqn:Hcur;
    [|discriminate].
  apply Role_eqb_eq in Hrole.
  destruct (transfer_admin_writes send _ _ _ _ _ Ht Hst Hcur Hrole)
    as [w' [Hrun Hrows]].
  right. exists target, cur. rewrite Hrun. repeat split; assumption.
Qed.

End TableEffects.

(** ** The invariant on the rows *)

Lemma filter_nonempty {A} (f : A -> bool) (l : list A) :
  filter f l <> [] <-> exists x, In x l /\ f x = true.
Proof.
  split.
  - destruct (filter f l) as [|x rest] eqn:E; [congruence|]. intros _.
    exists x. apply filter_In. rewrite E. now left.
  - intros [x Hx] E. apply filter_In in Hx. rewrite E in Hx. contradiction.
Qed.

Lemma administered_guarded d : administered d <-> guarded (family_members d).
Proof.
  unfold administered, guarded, members_of_parent, active_admins. split.
  - intros H m Hm.
    assert (Hne : filter (fun x => String.eqb (fm_parent_id x) (fm_parent_id m))
                         (family_members d) <> []).
    { apply filter_nonempty. exists m. split; [assumption | apply String.eqb_refl]. }
    apply H in Hne. apply filter_nonempty in Hne. destruct Hne as [a [Ha Hsel]].
    + apply andb_true_iff in Hsel. destruct Hsel as [Hsel Hst].
      apply andb_true_iff in Hsel. destruct Hsel as [Hp Hr].
      exists a. repeat split; [assumption | now apply String.eqb_eq
                              | now apply Role_eqb_eq | now apply Status_eqb_eq].
  - intros H p Hne. apply filter_nonempty in Hne. destruct Hne as [m [Hm Hp]].
    apply String.eqb_eq in Hp. destruct (H m Hm) as [a (Ha & Hpa & Hr & Hst)].
    apply filter_nonempty. exists a. split; [assumption|].
    rewrite Hpa, Hp, Hr, Hst, String.eqb_refl. reflexivity.
Qed.

Lemma member_by_id_In memberId d m :
  member_by_id memberId d = Some m ->
  In m (family_members d) /\ fm_id m = memberId.
Proof.
  intro H. split; [|now apply (member_by_id_id _ d)].
  unfold member_by_id in H. apply single_Some in H.
  assert (In m (filter (fun x => String.eqb (fm_id x) memberId) (family_members d)))
    as Hin by (rewrite H; now left).
  now apply filter_In in Hin.
Qed.

Lemma member_of_In parentId userId d m :
  member_of parentId userId d = Some m ->
  In m (family_members d) /\ fm_parent_id m = parentId /\ fm_user_id m = userId.
Proof.
  unfold member_of. intro H. apply single_Some in H.
  assert (In m (filter (fun x => String.eqb (fm_parent_id x) parentId
                                 && String.eqb (fm_user_id x) userId)
                       (family_members d)))
    as Hin by (rewrite H; now left).
  apply filter_In in Hin. destruct Hin as [Hin Hsel].
  apply andb_true_iff in Hsel. destruct Hsel as [Hp Hu].
  repeat split; [assumption | now apply String.eqb_eq | now apply String.eqb_eq].
Qed.

Lemma pending_invite_In inviteId userId d m :
  pending_invite inviteId userId d = Some m ->
  In m (family_members d) /\ fm_id m = inviteId /\ fm_status m = pending.
Proof.
  unfold pending_invite. intro H. apply single_Some in H.
  assert (In m (filter (fun x => String.eqb (fm_id x) inviteId
                                 && String.eqb (fm_user_id x) userId
                                 && Status_eqb (fm_status x) pending)
                       (family_members d)))
    as Hin by (rewrite H; now left).
  apply filter_In in Hin. destruct Hin as [Hin Hsel].
  apply andb_true_iff in Hsel. destruct Hsel as [Hsel Hst].
  apply andb_true_iff in Hsel. destruct Hsel as [Hid _].
  repeat split; [assumption | now apply String.eqb_eq | now apply Status_eqb_eq].
Qed.

(** *** Keys *)

Lemma distinct_filter {A} (key : A -> string) (f : A -> bool) (rows : list A) :
  distinct (map key rows) = true -> distinct (map key (filter f rows)) = true.
Proof.
  induction rows as [|r rest IH]; cbn [map filter distinct]; [reflexivity|].
  intro H. apply andb_true_iff in H. destruct H as [Hfresh Hd].
  destruct (f r); cbn [map distinct]; [|now apply IH].
  apply andb_true_iff. split; [|now apply IH].
  apply negb_true_iff. apply negb_true_iff in Hfresh.
  apply not_true_iff_false. intro Hin. apply not_true_iff_false in Hfresh.
  apply Hfresh. apply mem_string_In. apply mem_string_In in Hin.
  apply in_map_iff in Hin. destruct Hin as [x [Hk Hx]].
  apply filter_In in Hx. apply in_map_iff. exists x. tauto.
Qed.

Lemma distinct_snoc (keys : list string) (k : string) :
  distinct keys = true -> mem_string k keys = false ->
  distinct (keys ++ [k]) = true.
Proof.
  induction keys as [|x rest IH]; cbn [app distinct mem_string existsb];
    intros Hd Hk; [reflexivity|].
  apply andb_true_iff in Hd. destruct Hd as [Hfresh Hd].
  apply orb_false_iff in Hk. destruct Hk as [Hkx Hk].
  apply andb_true_iff. split; [|now apply IH].
  apply negb_true_iff. apply negb_true_iff in Hfresh.
  apply not_true_iff_false. intro Hin. apply mem_string_In in Hin.
  apply in_app_or in Hin. destruct Hin as [Hin|[<-|[]]].
  - apply mem_string_In in Hin. congruence.
  - rewrite String.eqb_refl in Hkx. discriminate.
Qed.

Lemma fresh_id_not_member (newId : string) (rows : list FamilyMember) :
  existsb (fun m => String.eqb (fm_id m) newId) rows = false ->
  mem_string newId (map fm_id rows) = false.
Proof.
  intro H. apply not_true_iff_false. intro Hin. apply mem_string_In in Hin.
  apply in_map_iff in Hin. destruct Hin as [m [Hid Hm]].
  apply not_true_iff_false in H. apply H. apply existsb_exists.
  exists m. split; [assumption|]. rewrite Hid. apply String.eqb_refl.
Qed.

(** *** Each kind of write keeps the rows guarded *)

Section GuardedRows.

Variable rows : list FamilyMember.
Hypothesis Hkeys : distinct (map fm_id rows) = true.
Hypothesis Hguarded : guarded rows.

Lemma guarded_snoc row inviter :
  In inviter rows -> fm_parent_id inviter = fm_parent_id row ->
  guarded (rows ++ [row]).
Proof.
  intros Hin Hparent m Hm. apply in_app_or in Hm.
  assert (Hold : forall x, In x rows ->
            exists a, In a (rows ++ [row]) /\ fm_parent_id a = fm_parent_id x
                      /\ fm_role a = admin /\ fm_status a = active).
  { intros x Hx. destruct (Hguarded x Hx) as [a (Ha & Hrest)].
    exists a. split; [apply in_or_app; now left | exact Hrest]. }
  destruct Hm as [Hm|[<-|[]]]; [now apply Hold|].
  rewrite <- Hparent. now apply Hold.
Qed.

Lemma guarded_accept inviteId now :
  guarded (map (fun m =>
                  if String.eqb (fm_id m) inviteId
                  then mkFamilyMember (fm_id m) (fm_parent_id m) (fm_user_id m)
                         (fm_role m) (fm_permissions m) active
                         (fm_invited_by m) (Some now)
                  else m) rows).
Proof.
  intros m' Hm'. apply in_map_iff in Hm'. destruct Hm' as [m [<- Hm]].
  destruct (Hguarded m Hm) as [a (Ha & Hp & Hr & Hst)].
  eexists. split; [apply in_map_iff; exists a; split; [reflexivity | exact Ha]|].
  destruct (String.eqb (fm_id a) inviteId), (String.eqb (fm_id m) inviteId);
    cbn [fm_parent_id fm_role fm_status]; repeat split; assumption.
Qed.

Lemma guarded_decline inviteId inv :
  In inv rows -> fm_id inv = inviteId -> fm_status inv = pending ->
  guarded (filter (fun m => negb (String.eqb (fm_id m) inviteId)) rows).
Proof.
  intros Hinv Hid Hst m Hm. apply filter_In in Hm. destruct Hm as [Hm _].
  destruct (Hguarded m Hm) as [a (Ha & Hp & Hr & Hact)].
  exists a. split; [|repeat split; assumption].
  apply filter_In. split; [assumption|].
  apply negb_true_iff. apply String.eqb_neq. intro Heq.
  assert (a = inv) by (apply (distinct_keys_inj fm_id rows Hkeys); congruence).
  subst a. congruence.
Qed.

Lemma guarded_update memberId mem chk (f : FamilyMember -> FamilyMember) :
  In mem rows -> fm_id mem = memberId ->
  In chk rows -> fm_parent_id chk = fm_parent_id mem ->
  fm_role chk = admin -> fm_status chk = active ->
  fm_user_id chk <> fm_user_id mem ->
  (forall m, fm_parent_id (f m) = fm_parent_id m) ->
  guarded (map (fun m => if String.eqb (fm_id m) memberId then f m else m) rows).
Proof.
  intros Hmem Hid Hchk Hparent Hrole Hact Huser Hf m' Hm'.
  apply in_map_iff in Hm'. destruct Hm' as [m [<- Hm]].
  assert (Hsame : forall x, In x rows -> fm_id x = memberId -> x = mem).
  { intros x Hx Hxid. apply (distinct_keys_inj fm_id rows Hkeys); congruence. }
  assert (Hkeep : forall a, In a rows -> fm_id a <> memberId ->
            In a (map (fun m => if String.eqb (fm_id m) memberId then f m else m)
                      rows)).
  { intros a Ha Hne. apply in_map_iff. exists a. split; [|assumption].
    apply String.eqb_neq in Hne. now rewrite Hne. }
  assert (Hchk_id : fm_id chk <> memberId).
  { intro Heq. apply Hsame in Heq; [|assumption]. subst chk. congruence. }
  assert (Hparent_m :
            fm_parent_id (if String.eqb (fm_id m) memberId then f m else m)
            = fm_parent_id m).
  { destruct (String.eqb (fm_id m) memberId); [apply Hf | reflexivity]. }
  rewrite Hparent_m.
  destruct (Hguarded m Hm) as [a (Ha & Hp & Hr & Hst)].
  destruct (String.eqb (fm_id a) memberId) eqn:Haid.
  - apply String.eqb_eq in Haid. apply Hsame in Haid; [|assumption]. subst a.
    exists chk. repeat split; try assumption; [now apply Hkeep | congruence].
  - apply String.eqb_neq in Haid. exists a.
    repeat split; try assumption. now apply Hkeep.
Qed.

Lemma another_key {A} (key : A -> string) (l : list A) (x : A) :
  distinct (map key l) = true -> In x l -> List.length l <> 1%nat ->
  exists a, In a l /\ key a <> key x.
Proof.
  intros Hd Hin Hlen.
  destruct l as [|y [|z rest]]; [contradiction | now elim Hlen |].
  cbn [map distinct mem_string existsb] in Hd.
  apply andb_true_iff in Hd. destruct Hd as [Hfresh _].
  apply negb_true_iff in Hfresh. apply orb_false_iff in Hfresh.
  destruct Hfresh as [Hyz _]. apply String.eqb_neq in Hyz.
  destruct (String.eqb (key y) (key x)) eqn:E.
  - apply String.eqb_eq in E. exists z. split; [right; now left | congruence].
  - apply String.eqb_neq in E. exists y. split; [now left | assumption].
Qed.

Lemma guarded_remove memberId mem :
  In mem rows -> fm_id mem = memberId ->
  fm_role mem <> admin
  \/ List.length
       (filter (fun m => String.eqb (fm_parent_id m) (fm_parent_id mem)
                         && Role_eqb (fm_role m) admin
                         && Status_eqb (fm_status m) active) rows) <> 1%nat ->
  guarded (filter (fun m => negb (String.eqb (fm_id m) memberId)) rows).
Proof.
  intros Hmem Hid Hguard m Hm. apply filter_In in Hm. destruct Hm as [Hm _].
  assert (Hkeep : forall a, In a rows -> fm_id a <> memberId ->
            In a (filter (fun m => negb (String.eqb (fm_id m) memberId)) rows)).
  { intros a Ha Hne. apply filter_In. split; [assumption|].
    apply negb_true_iff. now apply String.eqb_neq. }
  destruct (Hguarded m Hm) as [a (Ha & Hp & Hr & Hst)].
  destruct (String.eqb (fm_id a) memberId) eqn:Haid.
  2:{ apply String.eqb_neq in Haid. exists a.
      repeat split; try assumption. now apply Hkeep. }
  apply String.eqb_eq in Haid.
  assert (a = mem) by (apply (distinct_keys_inj fm_id rows Hkeys); congruence).
  subst a. destruct Hguard as [Hne|Hlen]; [contradiction|].
  set (sel := fun m => String.eqb (fm_parent_id m) (fm_parent_id mem)
                       && Role_eqb (fm_role m) admin
                       && Status_eqb (fm_status m) active) in *.
  destruct (another_key fm_id (filter sel rows) mem) as [b [Hb Hbid]].
  - now apply distinct_filter.
  - apply filter_In. split; [assumption|]. unfold sel.
    now rewrite String.eqb_refl, Hr, Hst.
  - exact Hlen.
  - apply filter_In in Hb. destruct Hb as [Hb Hsel]. unfold sel in Hsel.
    apply andb_true_iff in Hsel. destruct Hsel as [Hsel Hbst].
    apply andb_true_iff in Hsel. destruct Hsel as [Hbp Hbr].
    apply String.eqb_eq in Hbp. apply Role_eqb_eq in Hbr.
    apply Status_eqb_eq in Hbst.
    exists b. repeat split; try assumption; [|congruence].
    apply Hkeep; [assumption | congruence].
Qed.

Lemma guarded_transfer memberId target cur :
  In target rows -> fm_id target = memberId -> fm_status target = active ->
  In cur rows -> fm_parent_id cur = fm_parent_id target ->
  fm_id cur <> memberId ->
  guarded (map (fun m =>
                  if String.eqb (fm_id m) (fm_id cur) then demoted m
                  else if String.eqb (fm_id m) memberId then promoted m
                  else m) rows).
Proof.
  intros Ht Htid Htst Hc Hcp Hcid m' Hm'.
  apply in_map_iff in Hm'. destruct Hm' as [m [<- Hm]].
  rewrite (proj1 (proj2 (transfer_keeps_keys _ _ m))).
  assert (Hsame : forall x y, In x rows -> In y rows -> fm_id x = fm_id y -> x = y)
    by (apply (distinct_keys_inj fm_id rows Hkeys)).
  destruct (Hguarded m Hm) as [a (Ha & Hp & Hr & Hst)].
  destruct (String.eqb (fm_parent_id m) (fm_parent_id target)) eqn:Hpm.
  - apply String.eqb_eq in Hpm. exists (promoted target). repeat split.
    + apply in_map_iff. exists target. split; [|assumption]. cbv beta.
      assert (String.eqb (fm_id target) (fm_id cur) = false) as ->
        by (apply String.eqb_neq; congruence).
      now rewrite Htid, String.eqb_refl.
    + cbn [promoted fm_parent_id]. congruence.
    + cbn [promoted fm_status]. assumption.
  - apply String.eqb_neq in Hpm. exists a. repeat split; try assumption.
    apply in_map_iff. exists a. split; [|assumption]. cbv beta.
    assert (String.eqb (fm_id a) (fm_id cur) = false) as ->.
    { apply String.eqb_neq. intro Heq. apply Hsame in Heq; try assumption.
      subst a. congruence. }
    assert (String.eqb (fm_id a) memberId = false) as ->.
    { apply String.eqb_neq. intro Heq. rewrite <- Htid in Heq.
      apply Hsame in Heq; try assumption. subst a. congruence. }
    reflexivity.
Qed.

End GuardedRows.

(** ** Every request clear of the two slips keeps the invariant *)

Lemma map_keeps_ids (g : FamilyMember -> FamilyMember) (rows : list FamilyMember) :
  (forall m, fm_id (g m) = fm_id m) -> map fm_id (map g rows) = map fm_id rows.
Proof. intro H. rewrite map_map. now apply map_ext. Qed.

Section Preservation.

Variable send : PushSubscription -> NotificationPayload -> option Exn.

Lemma handle_preserves (r : Request) (w : World) :
  keyed (db w) -> administered (db w) ->
  clear_of_slips r (db w) = true ->
  keyed (db (snd (handle send r w)))
  /\ administered (db (snd (handle send r w))).
Proof.
  unfold keyed. intros Hkeys Hadm Hclear.
  rewrite administered_guarded in *.
  destruct r as [userId body newId | userId userEmail inviteId now
                | userId userEmail inviteId | userId memberId body
                | userId memberId | userId memberId]; cbn [handle].
  - (* invite *)
    destruct (invite_effect send userId body newId w)
      as [->|(inviter & row & Hinv & Hfresh & Hid & Hp & _ & ->)];
      [now split|].
    apply member_of_In in Hinv. destruct Hinv as (Hin & Hparent & _). split.
    + rewrite map_app. cbn [map]. rewrite Hid.
      apply distinct_snoc; [assumption | now apply fresh_id_not_member].
    + apply (guarded_snoc _ Hadm row inviter); congruence.
  - (* accept *)
    destruct (accept_effect send userId userEmail inviteId now w) as [->| ->];
      [now split|]. split.
    + rewrite map_keeps_ids; [assumption|].
      intro m. now destruct (String.eqb (fm_id m) inviteId).
    + now apply guarded_accept.
  - (* decline *)
    destruct (decline_effect send userId userEmail inviteId w)
      as [->|(inv & Hinv & ->)]; [now split|].
    apply pending_invite_In in Hinv. destruct Hinv as (Hin & Hid & Hst). split.
    + now apply distinct_filter.
    + now apply (guarded_decline _ Hkeys Hadm inviteId inv).
  - (* update-permissions *)
    destruct (update_permissions_effect send userId memberId body w)
      as [->|(mem & chk & Hmem & Hchk & Hrole & Hself & ->)]; [now split|].
    cbn [clear_of_slips] in Hclear. rewrite Hmem, Hchk in Hclear.
    apply Status_eqb_eq in Hclear.
    apply member_by_id_In in Hmem. destruct Hmem as (Hin & Hid).
    apply member_of_In in Hchk. destruct Hchk as (Hcin & Hcp & Hcu). split.
    + rewrite map_keeps_ids; [assumption|].
      intro m. now destruct (String.eqb (fm_id m) memberId).
    + apply (guarded_update _ Hkeys Hadm memberId mem chk); try assumption;
        [congruence | reflexivity].
  - (* remove *)
    destruct (remove_member_effect send userId memberId w)
      as [->|(mem & Hmem & Hguard & ->)]; [now split|].
    apply member_by_id_In in Hmem. destruct Hmem as (Hin & Hid). split.
    + now apply distinct_filter.
    + now apply (guarded_remove _ Hkeys Hadm memberId mem).
  - (* transfer-admin *)
    destruct (transfer_admin_effect send userId memberId w)
      as [->|(target & cur & Ht & Hst & Hcur & ->)]; [now split|].
    cbn [clear_of_slips] in Hclear. rewrite Ht, Hcur in Hclear.
    apply negb_true_iff in Hclear. apply String.eqb_neq in Hclear.
    apply member_by_id_In in Ht. destruct Ht as (Hin & Hid).
    apply member_of_In in Hcur. destruct Hcur as (Hcin & Hcp & _). split.
    + rewrite map_keeps_ids; [assumption|].
      intro m. apply (transfer_keeps_keys _ _ m).
    + now apply (guarded_transfer _ Hkeys Hadm memberId target cur).
Qed.

(** X8: along any sequence of membership requests in which no permission
    change is made by an actor whose own membership is not active and no
    transfer names the actor's own membership, every recipient that has a
    membership keeps an active admin. *)
Lemma requests_keep_an_active_admin (rs : list Request) : forall w,
  keyed (db w) -> administered (db w) ->
  all_clear send rs w = true ->
  keyed (db (handle_all send rs w))
  /\ administered (db (handle_all send rs w))
  /\ forall parentId, has_active_admin parentId (db (handle_all send rs w)).
Proof.
  induction rs as [|r rest IH]; intros w Hkeys Hadm Hclear.
  - cbn [handle_all fold_left]. repeat split; try assumption.
    intros p Hactive. apply Hadm. unfold active_members in Hactive.
    apply filter_nonempty in Hactive. destruct Hactive as [m [Hm Hsel]].
    apply andb_true_iff in Hsel. destruct Hsel as [Hp _].
    apply filter_nonempty. now exists m.
  - cbn [all_clear] in Hclear. apply andb_true_iff in Hclear.
    destruct Hclear as [Hr Hrest].
    destruct (handle_preserves r w Hkeys Hadm Hr) as [Hkeys' Hadm'].
    exact (IH _ Hkeys' Hadm' Hrest).
Qed.

End Preservation.

(** The family of the examples satisfies the invariant, and a run of
    requests clear of the slips keeps it: Ana invites Carla as admin,
    Carla accepts, Ana hands the role to Bruno, then leaves. *)
Example a_clear_run_keeps_an_admin :
  let rs := [ Invite "u-ana" (mkInviteBody "p-1" "carla@example.com" admin None)
                     "m-carla";
              Accept "u-carla" "carla@example.com" "m-carla" 10;
              TransferAdmin "u-ana" "m-bruno";
              Remove "u-ana" "m-ana" ] in
  let w := Scenarios.sole_admin_world in
  all_clear Scenarios.channel rs w = true
  /\ map (fun m => (fm_id m, fm_role m, fm_status m))
         (family_members (db (handle_all Scenarios.channel rs w)))
     = [("m-bruno", admin, active); ("m-carla", admin, active)].
Proof. vm_compute. split; reflexivity. Qed.

(** X17: on a store whose foreign keys hold and whose active medications are
    all scheduled in the first five minutes of an hour, no scan, at
    whatever time it runs, generates a notification. *)
Lemma doses_at_the_hour_are_never_announced
    (send : PushSubscription -> NotificationPayload -> option Exn)
    (currentHour currentMinute : Z) (w : World) :
  references_hold (db w) = true ->
  (0 <= currentMinute)%Z ->
  (forall med time,
      In med (medications (db w)) -> med_is_active med = true ->
      In time (med_times med) ->
      exists h m, (h < 24)%nat /\ (m < 5)%nat /\ time = clock h m) ->
  exists w',
    sendMedicationReminders send currentHour currentMinute w = (Normal tt, w')
    /\ notifications (db w') = notifications (db w).
Proof.
  intros Href Hcm Hearly. exists w.
  split; [apply sendMedicationReminders_idle | reflexivity].
Qed.

(* ================================================================== *)
(** * Further properties: loops of notifications *)
(* ================================================================== *)

Lemma only_notified_refl d : only_notified d d.
Proof. repeat split. Qed.

Lemma only_notified_trans d1 d2 d3 :
  only_notified d1 d2 -> only_notified d2 d3 -> only_notified d1 d3.
Proof.
  unfold only_notified.
  intros (A1 & A2 & A3 & A4 & A5) (B1 & B2 & B3 & B4 & B5).
  repeat split; congruence.
Qed.

Section NotifyLoops.

Variable send : PushSubscription -> NotificationPayload -> option Exn.

(** One createNotification: the row is appended when its addressee is
    registered, and nothing else changes outside push_subscriptions. *)
Lemma notify_run (n : Notification) (w : World) :
  n_is_read n = false ->
  exists w',
    notify send n w = (Normal tt, w')
    /\ notifications (db w')
       = (notifications (db w)
          ++ (if registered (db w) (n_user_id n) then [n] else []))%list
    /\ only_notified (db w) (db w').
Proof.
  intro Hread. unfold notify.
  destruct (createNotification_run send (n_user_id n) (n_type n) (n_title n)
              (n_message n) (n_data n) w) as [w' [Hrun Hdb]].
  pose proof (createNotification_frame send _ _ _ _ _ _ _ _ Hrun) as Hframe.
  exists w'. split; [exact Hrun|]. split; [|exact Hframe].
  rewrite Hdb. unfold registered.
  destruct (mem_string (n_user_id n) (map pr_id (profiles (db w)))).
  - match goal with
    | |- context [after_deliveries send ?p ?subs ?d0] =>
        pose proof (after_deliveries_frame send p subs d0) as Hf
    end.
    simpl in Hf. destruct Hf as (_ & _ & _ & _ & _ & Hn). rewrite Hn.
    destruct n. simpl in Hread. subst. reflexivity.
  - now rewrite app_nil_r.
Qed.

(** A loop of createNotification calls never throws; it appends the rows
    of the registered addressees, in order, and nothing else changes
    outside push_subscriptions. *)
Lemma notify_loop {A} (row : A -> Notification) : forall (xs : list A) (w : World),
  (forall x, n_is_read (row x) = false) ->
  exists w',
    for_of xs (fun x => notify send (row x)) w = (Normal tt, w')
    /\ notifications (db w')
       = (notifications (db w)
          ++ filter (fun n => registered (db w) (n_user_id n)) (map row xs))%list
    /\ only_notified (db w) (db w').
Proof.
  intros xs w Hread. revert w.
  induction xs as [|x rest IH]; intro w.
  - exists w. repeat split. cbn [map filter]. now rewrite app_nil_r.
  - cbn [for_of]. unfold bind at 1.
    destruct (notify_run (row x) w (Hread x)) as [w1 [Hrun [Hrows Hsame]]].
    rewrite Hrun. destruct (IH w1) as [w2 [Hrun2 [Hrows2 Hsame2]]].
    exists w2. split; [exact Hrun2|]. split.
    + rewrite Hrows2, Hrows. cbn [map filter].
      assert (Hreg : forall u, registered (db w1) u = registered (db w) u).
      { intro u. unfold registered. destruct Hsame as (Hpr & _). now rewrite Hpr. }
      rewrite (filter_ext _ _ (fun n => Hreg (n_user_id n))).
      destruct (registered (db w) (n_user_id (row x)));
        rewrite <- app_assoc; reflexivity.
    + now apply (only_notified_trans _ (db w1)).
Qed.

End NotifyLoops.

(* ================================================================== *)
(** * Further properties: the error handler *)
(* ================================================================== *)

(** X1: outside development, every JSON answer errorHandler sends with a
    status of 500 or more carries the fixed text and nothing of the error
    that caused it: neither its message, nor its stack, nor details.  The
    handler sends a JSON answer exactly when the status it computes lies
    between 100 and 999; for any other status code of the error the
    response throws and no JSON answer is sent. *)
Theorem errorHandler_hides_server_errors
    (NODE_ENV : option string) (err : ErrorMiddleware.Err)
    (Hprod : ErrorMiddleware.development NODE_ENV = false) :
  (forall r,
      ErrorMiddleware.errorHandler NODE_ENV err = ErrorMiddleware.sends r ->
      (100 <= ErrorMiddleware.er_status r <= 999)%Z
      /\ ((500 <= ErrorMiddleware.er_status r)%Z ->
          ErrorMiddleware.er_body r
          = ErrorMiddleware.mkErrorBody "Internal server error" None None None))
  /\ (forall code msg stack,
        err = ErrorMiddleware.AppError (Some code) msg stack ->
        code <> 0%Z ->
        ((exists r, ErrorMiddleware.errorHandler NODE_ENV err
                    = ErrorMiddleware.sends r
                    /\ ErrorMiddleware.er_status r = code)
         <-> (100 <= code <= 999)%Z)
        /\ (~ (100 <= code <= 999)%Z ->
            ErrorMiddleware.errorHandler NODE_ENV err
            = ErrorMiddleware.throws_RangeError code)).
Proof.
  split.
  - intros r Hr. destruct err as [errors|code msg stack];
      unfold ErrorMiddleware.errorHandler, ErrorMiddleware.status_json in Hr.
    + cbn in Hr. injection Hr as <-. cbn. split; lia.
    + cbv zeta in Hr. rewrite Hprod in Hr.
      match type of Hr with
      | (if ?c then _ else _) = _ => destruct c eqn:Hrange; [|discriminate]
      end.
      injection Hr as <-. cbn [ErrorMiddleware.er_status ErrorMiddleware.er_body].
      apply andb_true_iff in Hrange. destruct Hrange as [Hlo Hhi].
      apply Z.leb_le in Hlo, Hhi. split; [lia|].
      intro Hserver. apply Z.leb_le in Hserver. now rewrite Hserver.
  - intros code msg stack -> Hcode.
    unfold ErrorMiddleware.errorHandler, ErrorMiddleware.status_json.
    cbv zeta. apply Z.eqb_neq in Hcode. rewrite Hcode.
    destruct (Z.leb 100 code && Z.leb code 999) eqn:Hrange.
    + apply andb_true_iff in Hrange. destruct Hrange as [Hlo Hhi].
      apply Z.leb_le in Hlo, Hhi. split; [|lia].
      split; [lia|]. intros _. eexists. split; reflexivity.
    + assert (~ (100 <= code <= 999)%Z) as Hout.
      { intros [Hlo Hhi]. apply Z.leb_le in Hlo, Hhi.
        rewrite Hlo, Hhi in Hrange. discriminate. }
      split; [|reflexivity].
      split; [intros (r & Hr & _); discriminate | intro; contradiction].
Qed.

(** A refused connection in production is answered 503 with the fixed
    body; an error carrying the status code 1000 gets no JSON answer. *)
Lemma errorHandler_hides_server_errors_witness :
  (exists r,
      ErrorMiddleware.errorHandler (Some "production")
        (ErrorMiddleware.AppError (Some 503%Z)
           "connect ECONNREFUSED 10.0.0.5:5432" (Some "at Pool.connect"))
      = ErrorMiddleware.sends r
      /\ ErrorMiddleware.er_body r
         = ErrorMiddleware.mkErrorBody "Internal server error" None None None)
  /\ ErrorMiddleware.errorHandler (Some "production")
       (ErrorMiddleware.AppError (Some 1000%Z) "boom" None)
     = ErrorMiddleware.throws_RangeError 1000.
Proof.
  split.
  - eexists. split; [reflexivity|].
    apply (proj1 (errorHandler_hides_server_errors (Some "production")
                    (ErrorMiddleware.AppError (Some 503%Z)
                       "connect ECONNREFUSED 10.0.0.5:5432"
                       (Some "at Pool.connect"))
                    eq_refl) _ eq_refl).
    cbn. lia.
  - apply (proj2 (errorHandler_hides_server_errors (Some "production")
                    (ErrorMiddleware.AppError (Some 1000%Z) "boom" None)
                    eq_refl) 1000%Z "boom" None eq_refl); [discriminate | lia].
Defined.

(* ================================================================== *)
(** * Further properties: authentication *)
(* ================================================================== *)

Lemma substring_all (s : string) : String.substring 0 (String.length s) s = s.
Proof. induction s as [|c rest IH]; cbn; [reflexivity | now rewrite IH]. Qed.

Lemma token_of_bearer (t : string) :
  Authentication.token_of (Some ("Bearer " ++ t)) = Some t.
Proof.
  unfold Authentication.token_of. simpl.
  assert (String.prefix "" t = true) as -> by (now destruct t).
  now rewrite Nat.sub_0_r, substring_all.
Qed.

Section Authenticate.

Variable getUser : string -> Authentication.GetUser.

Lemma authenticate_run (authHeader : option string) (w : World) :
  exists entry w',
    Authentication.authenticate getUser authHeader w = (Normal entry, w')
    /\ db w' = db w
    /\ (forall user, entry = Authentication.enters user ->
          w' = w
          /\ exists token,
               Authentication.token_of authHeader = Some token
               /\ token <> "" /\ getUser token = Authentication.got user).
Proof.
  unfold Authentication.authenticate, try_catch.
  destruct (Authentication.token_of authHeader) as [[|c rest]|] eqn:Htoken;
    try (eexists; eexists; split; [reflexivity|]; split; [reflexivity|];
         intros user H; discriminate).
  destruct (getUser (String c rest)) as [user| |e] eqn:Hget.
  - eexists; eexists; split; [reflexivity|]. split; [reflexivity|].
    intros user' H. injection H as <-. split; [reflexivity|].
    exists (String c rest). repeat split; [discriminate | exact Hget].
  - eexists; eexists; split; [reflexivity|]. split; [reflexivity|].
    intros user H. discriminate.
  - eexists; eexists; split; [reflexivity|]. split; [reflexivity|].
    intros user H. discriminate.
Qed.

End Authenticate.

(** X2: authenticate always answers or passes the request on, and
    never writes to the store.  It passes a request on only with the user
    the identity store returns for the token of the header, which is not
    empty; and a header that is the bare token is treated exactly as the
    same token behind the Bearer prefix. *)
Theorem authenticate_admits_only_vouched_tokens
    (getUser : string -> Authentication.GetUser)
    (authHeader : option string) (w : World) :
  (exists entry w',
      Authentication.authenticate getUser authHeader w = (Normal entry, w')
      /\ db w' = db w
      /\ (forall user, entry = Authentication.enters user ->
            exists token,
              Authentication.token_of authHeader = Some token
              /\ token <> "" /\ getUser token = Authentication.got user))
  /\ (forall token,
        String.prefix "Bearer " token = false ->
        Authentication.authenticate getUser (Some ("Bearer " ++ token)) w
        = Authentication.authenticate getUser (Some token) w)
  /\ Authentication.authenticate getUser None w
     = (Normal (Authentication.turned_away
                  (res_status_json 401 "Token não fornecido")), w)
  /\ Authentication.authenticate getUser (Some "Bearer ") w
     = (Normal (Authentication.turned_away
                  (res_status_json 401 "Token não fornecido")), w).
Proof.
  split; [|split; [|split; reflexivity]].
  - destruct (authenticate_run getUser authHeader w)
      as (entry & w' & Hrun & Hdb & Hin).
    exists entry, w'. repeat split; try assumption.
    intros user He. now destruct (Hin user He).
  - intros token Hbare. unfold Authentication.authenticate.
    rewrite token_of_bearer. unfold Authentication.token_of.
    now rewrite Hbare.
Qed.

(* ================================================================== *)
(** * Further properties: lookups under the UNIQUE key of family_members *)
(* ================================================================== *)

Lemma pairs_distinct_filter (rows : list FamilyMember) (p u : string) :
  pairs_distinct rows = true ->
  (List.length (filter (fun m => String.eqb (fm_parent_id m) p
                                 && String.eqb (fm_user_id m) u) rows) <= 1)%nat.
Proof.
  induction rows as [|m rest IH]; cbn [pairs_distinct filter]; intro H; [cbn; lia|].
  apply andb_true_iff in H. destruct H as [Hfresh Hrest].
  destruct (String.eqb (fm_parent_id m) p && String.eqb (fm_user_id m) u) eqn:Hm;
    [|now apply IH].
  apply andb_true_iff in Hm. destruct Hm as [Hp Hu].
  apply String.eqb_eq in Hp, Hu. subst p u.
  apply negb_true_iff in Hfresh.
  rewrite (existsb_false_filter _ _ Hfresh). cbn. lia.
Qed.

(** With one membership per pair, the membership of a pair is the row of
    the table for that pair. *)
Lemma member_of_iff (d : Db) (p u : string) (m : FamilyMember) :
  pairs_distinct (family_members d) = true ->
  (member_of p u d = Some m
   <-> In m (family_members d) /\ fm_parent_id m = p /\ fm_user_id m = u).
Proof.
  intro Hd. split; [apply member_of_In|].
  intros (Hin & Hp & Hu). unfold member_of.
  pose proof (pairs_distinct_filter _ p u Hd) as Hlen.
  assert (Hm : In m (filter (fun x => String.eqb (fm_parent_id x) p
                                      && String.eqb (fm_user_id x) u)
                            (family_members d))).
  { apply filter_In. split; [assumption|].
    now rewrite Hp, Hu, !String.eqb_refl. }
  destruct (filter _ (family_members d)) as [|x [|y rest]];
    [contradiction | | cbn in Hlen; lia].
  destruct Hm as [->|[]]. reflexivity.
Qed.

Lemma active_member_of_iff (d : Db) (p u : string) (m : FamilyMember) :
  pairs_distinct (family_members d) = true ->
  (active_member_of p u d = Some m
   <-> In m (family_members d) /\ fm_parent_id m = p /\ fm_user_id m = u
       /\ fm_status m = active).
Proof.
  intro Hd. unfold active_member_of.
  rewrite (filter_and (fun x => String.eqb (fm_parent_id x) p
                                && String.eqb (fm_user_id x) u)
                      (fun x => Status_eqb (fm_status x) active)).
  pose proof (pairs_distinct_filter _ p u Hd) as Hlen.
  split.
  - intro H. apply single_Some in H.
    assert (Hm : In m (filter (fun x => Status_eqb (fm_status x) active)
                         (filter (fun x => String.eqb (fm_parent_id x) p
                                           && String.eqb (fm_user_id x) u)
                                 (family_members d))))
      by (rewrite H; now left).
    apply filter_In in Hm. destruct Hm as [Hm Hst].
    apply filter_In in Hm. destruct Hm as [Hm Hpu].
    apply andb_true_iff in Hpu. destruct Hpu as [Hp Hu].
    repeat split; [assumption | now apply String.eqb_eq | now apply String.eqb_eq
                  | now apply Status_eqb_eq].
  - intros (Hin & Hp & Hu & Hst).
    assert (Hm : In m (filter (fun x => String.eqb (fm_parent_id x) p
                                        && String.eqb (fm_user_id x) u)
                              (family_members d))).
    { apply filter_In. split; [assumption|].
      now rewrite Hp, Hu, !String.eqb_refl. }
    destruct (filter (fun x => String.eqb (fm_parent_id x) p
                               && String.eqb (fm_user_id x) u)
                     (family_members d)) as [|x [|y rest]];
      [contradiction | | cbn in Hlen; lia].
    destruct Hm as [->|[]]. cbn [filter]. now rewrite Hst.
Qed.

(** X3: with one membership per pair, checkFamilyPermission passes a
    request on exactly when the user has a membership on the recipient
    whose status is active and whose role is admin or whose stored flag
    for the permission is true; in every other case (no membership, a
    pending or inactive one, a flag that is false or missing) it answers
    403.  It never writes. *)
Theorem checkFamilyPermission_decides
    (permission : Permission) (userId parentId : string) (w : World)
    (Hpid : parentId <> "")
    (Hunique : pairs_distinct (family_members (db w)) = true) :
  let result :=
    checkFamilyPermission permission (Some userId) (Some parentId) w in
  snd result = w
  /\ (fst result = Normal next
      <-> exists fm,
            In fm (family_members (db w))
            /\ fm_parent_id fm = parentId /\ fm_user_id fm = userId
            /\ fm_status fm = active
            /\ (fm_role fm = admin \/ flag_of permission (fm_permissions fm) = true))
  /\ (fst result = Normal next
      \/ fst result = Normal (answered (res_status_json 403 "Acesso negado"))
      \/ fst result = Normal (answered (refusal_of permission))).
Proof.
  cbv zeta. unfold checkFamilyPermission, try_catch, bind, read.
  destruct parentId as [|c rest]; [congruence|].
  destruct (active_member_of (String c rest) userId (db w)) as [fm|] eqn:Hfm.
  - apply (active_member_of_iff _ _ _ _ Hunique) in Hfm.
    destruct Hfm as (Hin & Hp & Hu & Hst).
    destruct (Role_eqb (fm_role fm) admin) eqn:Hrole.
    + split; [reflexivity|]. split; [|now left].
      split; [intros _|reflexivity].
      exists fm. apply Role_eqb_eq in Hrole. repeat split; try assumption.
      now left.
    + assert (Hnot : fm_role fm <> admin).
      { intro H. apply Role_eqb_eq in H. congruence. }
      assert (Hsame : forall x,
                 In x (family_members (db w)) ->
                 fm_parent_id x = String c rest -> fm_user_id x = userId ->
                 x = fm).
      { intros x Hx Hxp Hxu.
        assert (member_of (String c rest) userId (db w) = Some x) as H1
          by (apply member_of_iff; auto).
        assert (member_of (String c rest) userId (db w) = Some fm) as H2
          by (apply member_of_iff; auto).
        congruence. }
      replace (match permission with
               | view => flag can_view (fm_permissions fm)
               | edit => flag can_edit (fm_permissions fm)
               | delete => flag can_delete (fm_permissions fm)
               end) with (flag_of permission (fm_permissions fm))
        by (now destruct permission).
      destruct (flag_of permission (fm_permissions fm)) eqn:Hflag; cbn [negb].
      * split; [reflexivity|]. split; [|now left].
        split; [intros _|reflexivity].
        exists fm. repeat split; try assumption. now right.
      * split; [reflexivity|]. split; [|right; right; reflexivity].
        split; [discriminate|].
        intros (x & Hx & Hxp & Hxu & _ & Hgrant).
        rewrite (Hsame x Hx Hxp Hxu) in Hgrant.
        destruct Hgrant; congruence.
  - split; [reflexivity|]. split; [|right; left; reflexivity].
    split; [discriminate|].
    intros (x & Hx & Hxp & Hxu & Hxs & _).
    assert (active_member_of (String c rest) userId (db w) = Some x) as H
      by (apply active_member_of_iff; auto).
    congruence.
Qed.

(** Bruno, an active viewer, asks to edit. *)
Lemma checkFamilyPermission_decides_witness :
  let result :=
    checkFamilyPermission edit (Some "u-bruno") (Some "p-1")
      Scenarios.sole_admin_world in
  pairs_distinct (family_members (db Scenarios.sole_admin_world)) = true
  /\ snd result = Scenarios.sole_admin_world
  /\ (fst result = Normal next
      \/ fst result = Normal (answered (res_status_json 403 "Acesso negado"))
      \/ fst result = Normal (answered (refusal_of edit))).
Proof.
  split; [reflexivity|].
  destruct (checkFamilyPermission_decides edit "u-bruno" "p-1"
              Scenarios.sole_admin_world ltac:(discriminate) eq_refl)
    as (Hsame & _ & Hcases).
  split; assumption.
Defined.

(* ================================================================== *)
(** * Further properties: from the invitation to the access *)
(* ================================================================== *)

Lemma existsb_false_filter_and {A} (f g : A -> bool) (l : list A) :
  existsb f l = false -> filter (fun x => f x && g x) l = [].
Proof.
  intro H. rewrite filter_and, (existsb_false_filter _ _ H). reflexivity.
Qed.

Lemma filter_none {A} (f : A -> bool) (l : list A) :
  (forall x, In x l -> f x = false) -> filter f l = [].
Proof.
  induction l as [|x rest IH]; intro H; cbn [filter]; [reflexivity|].
  rewrite (H x (or_introl eq_refl)). apply IH. intros y Hy. apply H. now right.
Qed.

Lemma existsb_false_In {A} (f : A -> bool) (l : list A) (x : A) :
  existsb f l = false -> In x l -> f x = false.
Proof.
  intros H Hin. apply not_true_iff_false. intro Hx.
  apply not_true_iff_false in H. apply H. apply existsb_exists. now exists x.
Qed.

Section AcceptDecline.

Variable send : PushSubscription -> NotificationPayload -> option Exn.

Lemma accept_run userId userEmail inviteId now w inv :
  pending_invite inviteId userId (db w) = Some inv ->
  exists w',
    accept send userId userEmail inviteId now w
    = (Normal (res_status_json 200 "Convite aceito com sucesso"), w')
    /\ family_members (db w')
       = map (fun m =>
                if String.eqb (fm_id m) inviteId
                then mkFamilyMember (fm_id m) (fm_parent_id m) (fm_user_id m)
                       (fm_role m) (fm_permissions m) active
                       (fm_invited_by m) (Some now)
                else m)
             (family_members (db w)).
Proof.
  intro Hinv. unfold accept, try_catch, bind, read. rewrite Hinv.
  unfold write. cbv beta iota zeta. run_notification send.
  eexists. split; [reflexivity|].
  destruct Hframe as (_ & _ & Hfm & _). rewrite Hfm. reflexivity.
Qed.

Lemma accept_not_found userId userEmail inviteId now w :
  pending_invite inviteId userId (db w) = None ->
  accept send userId userEmail inviteId now w
  = (Normal (res_status_json 404 "Convite não encontrado ou já processado"), w).
Proof.
  intro Hinv. unfold accept, try_catch, bind, read. now rewrite Hinv.
Qed.

Lemma decline_run userId userEmail inviteId w inv :
  pending_invite inviteId userId (db w) = Some inv ->
  exists w',
    decline send userId userEmail inviteId w
    = (Normal (res_status_json 200 "Convite recusado"), w')
    /\ family_members (db w')
       = filter (fun m => negb (String.eqb (fm_id m) inviteId))
                (family_members (db w)).
Proof.
  intro Hinv. unfold decline, try_catch, bind, read. rewrite Hinv.
  unfold write. cbv beta iota zeta. run_notification send.
  eexists. split; [reflexivity|].
  destruct Hframe as (_ & _ & Hfm & _). rewrite Hfm. reflexivity.
Qed.

Lemma decline_not_found userId userEmail inviteId w :
  pending_invite inviteId userId (db w) = None ->
  decline send userId userEmail inviteId w
  = (Normal (res_status_json 404 "Convite não encontrado"), w).
Proof.
  intro Hinv. unfold decline, try_catch, bind, read. now rewrite Hinv.
Qed.

End AcceptDecline.

Lemma checkFamilyPermission_of_lookup permission userId parentId w :
  parentId <> "" ->
  checkFamilyPermission permission (Some userId) (Some parentId) w
  = (Normal
       (match active_member_of parentId userId (db w) with
        | None => answered (res_status_json 403 "Acesso negado")
        | Some fm =>
            if Role_eqb (fm_role fm) admin
               || flag_of permission (fm_permissions fm)
            then next else answered (refusal_of permission)
        end), w).
Proof.
  intro Hpid. unfold checkFamilyPermission, try_catch, bind, read.
  destruct parentId as [|c rest]; [congruence|].
  destruct (active_member_of (String c rest) userId (db w)) as [fm|];
    [|reflexivity].
  destruct (Role_eqb (fm_role fm) admin); [reflexivity|].
  cbn [orb]. destruct permission; cbn [flag_of];
    match goal with
    | |- context [flag ?f ?p] => destruct (flag f p)
    end; reflexivity.
Qed.

(** X5: an admin invites a registered user who has no membership
    on the recipient, and the user accepts.  Both requests succeed.
    Between the two the invited user is refused every permission (the
    membership is pending); after the acceptance the middleware grants
    exactly what the invitation said: everything for role admin, and
    otherwise the explicit flags when the invitation carried some, else
    view and edit for an editor and view alone for a viewer. *)
Theorem invited_member_gets_the_invited_access
    (send : PushSubscription -> NotificationPayload -> option Exn)
    (userId : string) (body : InviteBody) (newId userEmail : string) (now : Z)
    (w : World) (invited : Profile)
    (Hpid : inv_parent_id body <> "")
    (Hgate : holds_admin_role (inv_parent_id body) userId (db w) = true)
    (Hprofile : profile_by_email (inv_email body) (db w) = Some invited)
    (Hpair : existsb (fun m => String.eqb (fm_parent_id m) (inv_parent_id body)
                               && String.eqb (fm_user_id m) (pr_id invited))
                     (family_members (db w)) = false)
    (Hfresh : existsb (fun m => String.eqb (fm_id m) newId)
                      (family_members (db w)) = false) :
  let invitation := invite send userId body newId w in
  let w1 := snd invitation in
  let acceptance := accept send (pr_id invited) userEmail newId now w1 in
  let w2 := snd acceptance in
  let granted :=
    match inv_permissions body with
    | Some p => Some p
    | None => Some (default_permissions (inv_role body))
    end in
  fst invitation = Normal (res_status_json 201 "Convite enviado com sucesso")
  /\ fst acceptance = Normal (res_status_json 200 "Convite aceito com sucesso")
  /\ forall permission,
       checkFamilyPermission permission (Some (pr_id invited))
         (Some (inv_parent_id body)) w1
       = (Normal (answered (res_status_json 403 "Acesso negado")), w1)
       /\ checkFamilyPermission permission (Some (pr_id invited))
            (Some (inv_parent_id body)) w2
          = (Normal (if Role_eqb (inv_role body) admin
                        || flag_of permission granted
                     then next else answered (refusal_of permission)), w2).
Proof.
  cbv zeta.
  destruct (invite_creates_pending send userId body newId w Hgate invited
              Hprofile Hpair Hfresh) as [w1 [Hinvite Hrows1]].
  rewrite Hinvite. cbn [fst snd].
  set (row := mkFamilyMember newId (inv_parent_id body) (pr_id invited)
                (inv_role body)
                (Some match inv_permissions body with
                      | Some p => p
                      | None => default_permissions (inv_role body)
                      end)
                pending (Some userId) None) in *.
  assert (Hpending : pending_invite newId (pr_id invited) (db w1) = Some row).
  { unfold pending_invite. rewrite Hrows1, filter_app.
    rewrite (filter_none _ (family_members (db w))).
    - cbn. now rewrite !String.eqb_refl.
    - intros m Hm. now rewrite (existsb_false_In _ _ m Hfresh Hm). }
  destruct (accept_run send (pr_id invited) userEmail newId now w1 row Hpending)
    as [w2 [Haccept Hrows2]].
  rewrite Haccept. cbn [fst snd].
  split; [reflexivity|]. split; [reflexivity|]. intro permission.
  rewrite !checkFamilyPermission_of_lookup by assumption. split.
  - unfold active_member_of. rewrite Hrows1, filter_app.
    rewrite (existsb_false_filter_and _ _ _ Hpair).
    cbn. now rewrite !String.eqb_refl.
  - unfold active_member_of. rewrite Hrows2, Hrows1, map_app, filter_app.
    assert (Hold : map (fun m =>
                if String.eqb (fm_id m) newId
                then mkFamilyMember (fm_id m) (fm_parent_id m) (fm_user_id m)
                       (fm_role m) (fm_permissions m) active
                       (fm_invited_by m) (Some now)
                else m) (family_members (db w)) = family_members (db w)).
    { rewrite <- (map_id (family_members (db w))) at 2.
      apply map_ext_in. intros m Hm.
      destruct (String.eqb (fm_id m) newId) eqn:E; [|reflexivity].
      exfalso. apply not_true_iff_false in Hfresh. apply Hfresh.
      apply existsb_exists. now exists m. }
    rewrite Hold, (existsb_false_filter_and _ _ _ Hpair).
    cbn. rewrite !String.eqb_refl. cbn.
    destruct (inv_permissions body); reflexivity.
Qed.

(** Ana invites Carla as editor; Carla accepts. *)
Lemma invited_member_gets_the_invited_access_witness :
  let body := mkInviteBody "p-1" "carla@example.com" editor None in
  let w1 := snd (invite Scenarios.channel "u-ana" body "m-carla"
                   Scenarios.sole_admin_world) in
  let w2 := snd (accept Scenarios.channel "u-carla" "carla@example.com"
                   "m-carla" 10 w1) in
  checkFamilyPermission edit (Some "u-carla") (Some "p-1") w2 = (Normal next, w2)
  /\ checkFamilyPermission delete (Some "u-carla") (Some "p-1") w2
     = (Normal (answered (refusal_of delete)), w2).
Proof.
  cbv zeta.
  pose proof (invited_member_gets_the_invited_access Scenarios.channel "u-ana"
                (mkInviteBody "p-1" "carla@example.com" editor None)
                "m-carla" "carla@example.com" 10 Scenarios.sole_admin_world
                Scenarios.carla ltac:(discriminate) eq_refl eq_refl eq_refl
                eq_refl) as (_ & _ & Hgrants).
  split.
  - exact (proj2 (Hgrants edit)).
  - exact (proj2 (Hgrants delete)).
Defined.

Lemma distinct_filter_key {A} (key : A -> string) (rows : list A) (k : string) :
  distinct (map key rows) = true ->
  (List.length (filter (fun x => String.eqb (key x) k) rows) <= 1)%nat.
Proof.
  induction rows as [|r rest IH]; cbn [map distinct filter]; intro H; [cbn; lia|].
  apply andb_true_iff in H. destruct H as [Hfresh Hrest].
  destruct (String.eqb (key r) k) eqn:Hk; [|now apply IH].
  apply String.eqb_eq in Hk. subst k. apply negb_true_iff in Hfresh.
  rewrite filter_none; [cbn; lia|].
  intros x Hx. apply String.eqb_neq. intro Heq.
  assert (mem_string (key r) (map key rest) = true) as Hin.
  { apply mem_string_In. rewrite <- Heq. now apply in_map. }
  congruence.
Qed.

Lemma member_by_id_iff (d : Db) (memberId : string) (m : FamilyMember) :
  keyed d ->
  (member_by_id memberId d = Some m
   <-> In m (family_members d) /\ fm_id m = memberId).
Proof.
  intro Hk. split; [apply member_by_id_In|]. intros [Hin Hid].
  unfold member_by_id.
  pose proof (distinct_filter_key fm_id _ memberId Hk) as Hlen.
  assert (Hm : In m (filter (fun x => String.eqb (fm_id x) memberId)
                            (family_members d))).
  { apply filter_In. split; [assumption | now apply String.eqb_eq]. }
  destruct (filter _ (family_members d)) as [|x [|y rest]];
    [contradiction | | cbn in Hlen; lia].
  destruct Hm as [->|[]]. reflexivity.
Qed.

(** X6: accepting a pending invitation answers 200, turns that row,
    and no other, active with accepted_at set; after it the invitation can
    be neither accepted nor declined again (404, nothing written); and no
    user other than the invited one can accept or decline it. *)
Theorem an_invitation_is_accepted_once
    (send : PushSubscription -> NotificationPayload -> option Exn)
    (userId userEmail inviteId : string) (now : Z) (w : World)
    (inv : FamilyMember)
    (Hkeys : keyed (db w))
    (Hinv : pending_invite inviteId userId (db w) = Some inv) :
  let acceptance := accept send userId userEmail inviteId now w in
  let w1 := snd acceptance in
  fst acceptance = Normal (res_status_json 200 "Convite aceito com sucesso")
  /\ member_by_id inviteId (db w1)
     = Some (mkFamilyMember (fm_id inv) (fm_parent_id inv) (fm_user_id inv)
               (fm_role inv) (fm_permissions inv) active (fm_invited_by inv)
               (Some now))
  /\ (forall m, fm_id m <> inviteId ->
        (In m (family_members (db w1)) <-> In m (family_members (db w))))
  /\ (forall anyEmail anyTime,
        accept send userId anyEmail inviteId anyTime w1
        = (Normal (res_status_json 404
                     "Convite não encontrado ou já processado"), w1))
  /\ (forall anyEmail,
        decline send userId anyEmail inviteId w1
        = (Normal (res_status_json 404 "Convite não encontrado"), w1))
  /\ (forall other anyEmail anyTime,
        other <> userId ->
        accept send other anyEmail inviteId anyTime w
        = (Normal (res_status_json 404
                     "Convite não encontrado ou já processado"), w)
        /\ decline send other anyEmail inviteId w
           = (Normal (res_status_json 404 "Convite não encontrado"), w)).
Proof.
  cbv zeta.
  destruct (accept_run send userId userEmail inviteId now w inv Hinv)
    as [w1 [Hrun Hrows]].
  rewrite Hrun. cbn [fst snd].
  set (act := fun m =>
         if String.eqb (fm_id m) inviteId
         then mkFamilyMember (fm_id m) (fm_parent_id m) (fm_user_id m)
                (fm_role m) (fm_permissions m) active (fm_invited_by m)
                (Some now)
         else m) in *.
  pose proof (pending_invite_In _ _ _ _ Hinv) as (Hin & Hid & Hst).
  assert (Hact_id : forall m, fm_id (act m) = fm_id m).
  { intro m. unfold act. now destruct (String.eqb (fm_id m) inviteId). }
  assert (Hsettled : forall u, pending_invite inviteId u (db w1) = None).
  { intro u. unfold pending_invite. rewrite Hrows, filter_none; [reflexivity|].
    intros x Hx. apply in_map_iff in Hx. destruct Hx as [m [<- Hm]].
    unfold act. destruct (String.eqb (fm_id m) inviteId) eqn:E.
    - cbn [fm_id fm_user_id fm_status]. rewrite E. cbn.
      now rewrite andb_false_r.
    - now rewrite E. }
  assert (Hothers : forall other, other <> userId ->
            pending_invite inviteId other (db w) = None).
  { intros other Hother. unfold pending_invite.
    rewrite filter_none; [reflexivity|]. intros x Hx.
    destruct (String.eqb (fm_id x) inviteId) eqn:E; [|reflexivity].
    apply String.eqb_eq in E.
    assert (x = inv) by (apply (distinct_keys_inj fm_id _ Hkeys); congruence).
    subst x.
    assert (pending_invite inviteId userId (db w) = Some inv) as H by assumption.
    unfold pending_invite in H. apply single_Some in H.
    assert (In inv (filter (fun m => String.eqb (fm_id m) inviteId
                                     && String.eqb (fm_user_id m) userId
                                     && Status_eqb (fm_status m) pending)
                           (family_members (db w)))) as Hf
      by (rewrite H; now left).
    apply filter_In in Hf. destruct Hf as [_ Hsel].
    apply andb_true_iff in Hsel. destruct Hsel as [Hsel _].
    apply andb_true_iff in Hsel. destruct Hsel as [_ Hu].
    apply String.eqb_eq in Hu. rewrite Hu.
    apply String.eqb_neq in Hother. rewrite String.eqb_sym in Hother.
    now rewrite Hother. }
  split; [reflexivity|]. split; [|split; [|split; [|split]]].
  - unfold member_by_id. rewrite Hrows, filter_map_stable.
    + assert (member_by_id inviteId (db w) = Some inv) as Hby
        by (apply member_by_id_iff; auto).
      unfold member_by_id in Hby. apply single_Some in Hby. rewrite Hby.
      cbn [map single]. unfold act. apply String.eqb_eq in Hid.
      now rewrite Hid.
    + intro m. now rewrite Hact_id.
  - intros m Hne. rewrite Hrows, in_map_iff. split.
    + intros [x [Hx Hxin]]. unfold act in Hx.
      destruct (String.eqb (fm_id x) inviteId) eqn:E.
      * apply String.eqb_eq in E. subst m. cbn in Hne. congruence.
      * now subst.
    + intro Hm. exists m. split; [|assumption]. unfold act.
      apply String.eqb_neq in Hne. now rewrite Hne.
  - intros. now apply accept_not_found.
  - intros. now apply decline_not_found.
  - intros other anyEmail anyTime Hother. split.
    + apply accept_not_found. now apply Hothers.
    + apply decline_not_found. now apply Hothers.
Qed.

(** Carla accepts the invitation Ana sent her. *)
Lemma an_invitation_is_accepted_once_witness :
  let w := Scenarios.pending_admin_world in
  let w1 := snd (accept Scenarios.channel "u-carla" "carla@example.com"
                   "m-carla" 10 w) in
  option_map (fun m => (fm_status m, fm_accepted_at m))
    (member_by_id "m-carla" (db w1)) = Some (active, Some 10%Z)
  /\ accept Scenarios.channel "u-carla" "carla@example.com" "m-carla" 11 w1
     = (Normal (res_status_json 404 "Convite não encontrado ou já processado"),
        w1).
Proof.
  cbv zeta.
  destruct (an_invitation_is_accepted_once Scenarios.channel "u-carla"
              "carla@example.com" "m-carla" 10 Scenarios.pending_admin_world
              (Scenarios.membership "m-carla" "u-carla" admin Scenarios.full
                 pending)
              eq_refl eq_refl) as (_ & Hrow & _ & Hagain & _).
  split.
  - rewrite Hrow. reflexivity.
  - apply Hagain.
Defined.

(** X7: an invitation that the invited user declines leaves no
    trace in family_members: after invite and decline the table is the
    one before the invitation, so the same user can be invited again. *)
Theorem a_declined_invitation_leaves_no_trace
    (send : PushSubscription -> NotificationPayload -> option Exn)
    (userId : string) (body : InviteBody) (newId userEmail : string)
    (w : World) (invited : Profile)
    (Hgate : holds_admin_role (inv_parent_id body) userId (db w) = true)
    (Hprofile : profile_by_email (inv_email body) (db w) = Some invited)
    (Hpair : existsb (fun m => String.eqb (fm_parent_id m) (inv_parent_id body)
                               && String.eqb (fm_user_id m) (pr_id invited))
                     (family_members (db w)) = false)
    (Hfresh : existsb (fun m => String.eqb (fm_id m) newId)
                      (family_members (db w)) = false) :
  let w1 := snd (invite send userId body newId w) in
  let refusal := decline send (pr_id invited) userEmail newId w1 in
  fst refusal = Normal (res_status_json 200 "Convite recusado")
  /\ family_members (db (snd refusal)) = family_members (db w).
Proof.
  cbv zeta.
  destruct (invite_creates_pending send userId body newId w Hgate invited
              Hprofile Hpair Hfresh) as [w1 [Hinvite Hrows1]].
  rewrite Hinvite. cbn [snd].
  assert (Hpending : exists row,
             pending_invite newId (pr_id invited) (db w1) = Some row).
  { eexists. unfold pending_invite. rewrite Hrows1, filter_app.
    rewrite (filter_none _ (family_members (db w))).
    - cbn. rewrite !String.eqb_refl. reflexivity.
    - intros m Hm. now rewrite (existsb_false_In _ _ m Hfresh Hm). }
  destruct Hpending as [row Hpending].
  destruct (decline_run send (pr_id invited) userEmail newId w1 row Hpending)
    as [w2 [Hdecline Hrows2]].
  rewrite Hdecline. cbn [fst snd]. split; [reflexivity|].
  rewrite Hrows2, Hrows1, filter_app. cbn. rewrite String.eqb_refl. cbn.
  rewrite app_nil_r.
  rewrite <- (filter_ext_in (fun _ => true)).
  - clear. induction (family_members (db w)) as [|x l IH]; cbn; congruence.
  - intros m Hm. now rewrite (existsb_false_In _ _ m Hfresh Hm).
Qed.

Lemma a_declined_invitation_leaves_no_trace_witness :
  let w := Scenarios.sole_admin_world in
  let w1 := snd (invite Scenarios.channel "u-ana"
                   (mkInviteBody "p-1" "carla@example.com" viewer None)
                   "m-carla" w) in
  family_members
    (db (snd (decline Scenarios.channel "u-carla" "carla@example.com"
                "m-carla" w1)))
  = family_members (db w).
Proof.
  cbv zeta.
  exact (proj2 (a_declined_invitation_leaves_no_trace Scenarios.channel "u-ana"
                  (mkInviteBody "p-1" "carla@example.com" viewer None)
                  "m-carla" "carla@example.com" Scenarios.sole_admin_world
                  Scenarios.carla eq_refl eq_refl eq_refl eq_refl)).
Defined.

(* ================================================================== *)
(** * Further properties: the invariant and the scan on the examples *)
(* ================================================================== *)

(** Ana invites Carla as admin, Carla accepts, Ana hands the role to Bruno
    and leaves: Dona Maria still has an active admin. *)
Lemma requests_keep_an_active_admin_witness :
  has_active_admin "p-1"
    (db (handle_all Scenarios.channel
           [ Invite "u-ana" (mkInviteBody "p-1" "carla@example.com" admin None)
                    "m-carla";
             Accept "u-carla" "carla@example.com" "m-carla" 10;
             TransferAdmin "u-ana" "m-bruno";
             Remove "u-ana" "m-ana" ]
           Scenarios.sole_admin_world)).
Proof.
  apply (requests_keep_an_active_admin Scenarios.channel).
  - reflexivity.
  - apply administered_guarded. intros m Hm.
    exists (Scenarios.membership "m-ana" "u-ana" admin Scenarios.full active).
    cbn in Hm. destruct Hm as [<-|[<-|[]]]; repeat split; now left.
  - vm_compute. reflexivity.
Defined.

(** The 08:00 dose of the examples is not announced at 07:55. *)
Lemma doses_at_the_hour_are_never_announced_witness :
  exists w',
    sendMedicationReminders Scenarios.channel 7 55 Scenarios.care_world
    = (Normal tt, w')
    /\ notifications (db w') = notifications (db Scenarios.care_world).
Proof.
  apply (doses_at_the_hour_are_never_announced Scenarios.channel 7 55
           Scenarios.care_world).
  - reflexivity.
  - lia.
  - intros med time Hmed Hact Htime.
    cbn in Hmed. destruct Hmed as [<-|[]].
    cbn in Htime. destruct Htime as [<-|[]].
    exists 8%nat, 0%nat. repeat split; lia.
Defined.

(* ================================================================== *)
(** * Further properties: POST /api/parents *)
(* ================================================================== *)

Lemma filter_all {A} (f : A -> bool) (l : list A) :
  (forall x, In x l -> f x = true) -> filter f l = l.
Proof.
  induction l as [|x rest IH]; intro H; cbn [filter]; [reflexivity|].
  rewrite (H x (or_introl eq_refl)). f_equal. apply IH.
  intros y Hy. apply H. now right.
Qed.

Lemma unreferenced {A} (key : A -> string) (rows : list A)
    (recipients : list Parent) (parentId : string) :
  forallb (fun m => existsb (fun p => String.eqb (pa_id p) (key m)) recipients)
          rows = true ->
  existsb (fun p => String.eqb (pa_id p) parentId) recipients = false ->
  forall m, In m rows -> String.eqb (key m) parentId = false.
Proof.
  intros Href Hfresh m Hm. rewrite forallb_forall in Href.
  specialize (Href m Hm). apply existsb_exists in Href.
  destruct Href as [p [Hp Heq]]. apply String.eqb_eq in Heq.
  apply String.eqb_neq. intros <-.
  pose proof (existsb_false_In _ _ p Hfresh Hp) as Hne.
  cbv beta in Hne. rewrite Heq, String.eqb_refl in Hne. discriminate.
Qed.



(* ================================================================== *)
(** * Further properties: POST /api/notifications/subscribe *)
(* ================================================================== *)

Lemma endpoints_distinct_filter (rows : list PushSubscriptionRow) (u e : string) :
  endpoints_distinct rows = true ->
  (List.length (filter (fun s => String.eqb (ps_user_id s) u
                                 && String.eqb (ps_endpoint s) e) rows) <= 1)%nat.
Proof.
  induction rows as [|s rest IH]; cbn [endpoints_distinct filter]; intro H;
    [cbn; lia|].
  apply andb_true_iff in H. destruct H as [Hfresh Hrest].
  destruct (String.eqb (ps_user_id s) u && String.eqb (ps_endpoint s) e) eqn:Hs;
    [|now apply IH].
  apply andb_true_iff in Hs. destruct Hs as [Hu He].
  apply String.eqb_eq in Hu, He. subst u e.
  apply negb_true_iff in Hfresh.
  rewrite filter_none; [cbn; lia|].
  intros x Hx. exact (existsb_false_In _ _ x Hfresh Hx).
Qed.

Lemma endpoints_distinct_map (g : PushSubscriptionRow -> PushSubscriptionRow)
    (rows : list PushSubscriptionRow) :
  (forall s, ps_user_id (g s) = ps_user_id s /\ ps_endpoint (g s) = ps_endpoint s) ->
  endpoints_distinct (map g rows) = endpoints_distinct rows.
Proof.
  intro Hg. induction rows as [|s rest IH]; cbn [map endpoints_distinct];
    [reflexivity|].
  rewrite IH. f_equal. f_equal. destruct (Hg s) as [-> ->].
  clear IH. induction rest as [|x rest IH]; cbn [map existsb]; [reflexivity|].
  rewrite IH. now destruct (Hg x) as [-> ->].
Qed.

Lemma endpoints_distinct_snoc (rows : list PushSubscriptionRow)
    (row : PushSubscriptionRow) :
  endpoints_distinct rows = true ->
  existsb (fun s => String.eqb (ps_user_id s) (ps_user_id row)
                    && String.eqb (ps_endpoint s) (ps_endpoint row)) rows = false ->
  endpoints_distinct (rows ++ [row]) = true.
Proof.
  induction rows as [|s rest IH]; cbn [app endpoints_distinct existsb];
    intros Hd Hfresh; [reflexivity|].
  apply andb_true_iff in Hd. destruct Hd as [Hs Hrest].
  apply orb_false_iff in Hfresh. destruct Hfresh as [Hne Hfresh].
  rewrite (IH Hrest Hfresh), andb_true_r.
  rewrite existsb_app. cbn [existsb]. apply negb_true_iff in Hs. rewrite Hs.
  cbn [orb]. rewrite orb_false_r.
  rewrite (String.eqb_sym (ps_user_id row)), (String.eqb_sym (ps_endpoint row)).
  now rewrite Hne.
Qed.

(** X19: on a table that satisfies its keys, subscribing leaves one
    row per user and endpoint and touches no row of another user or
    endpoint.  Unless it answers 500 (the generated id is taken or the user
    has no profile, and nothing is written), the user has afterwards
    exactly one row for the endpoint, active and with the keys of the
    request, whatever was stored before; and subscribing again with the
    same body answers 200 and changes nothing. *)
Theorem subscribe_keeps_one_active_row
    (userId : string) (body : NotificationRoutes.SubscriptionBody)
    (newId : string) (w : World)
    (Hids : distinct (map ps_id (push_subscriptions (db w))) = true)
    (Hpairs : endpoints_distinct (push_subscriptions (db w)) = true) :
  let r := NotificationRoutes.subscribe userId body newId w in
  let mine := fun s =>
    String.eqb (ps_user_id s) userId
    && String.eqb (ps_endpoint s) (NotificationRoutes.sub_endpoint body) in
  distinct (map ps_id (push_subscriptions (db (snd r)))) = true
  /\ endpoints_distinct (push_subscriptions (db (snd r))) = true
  /\ (forall s, mine s = false ->
        (In s (push_subscriptions (db (snd r)))
         <-> In s (push_subscriptions (db w))))
  /\ ((fst r = Normal (res_status_json 500 "Erro ao criar subscrição")
       /\ db (snd r) = db w
       /\ filter mine (push_subscriptions (db w)) = []
       /\ (existsb (fun s => String.eqb (ps_id s) newId)
                   (push_subscriptions (db w)) = true
           \/ registered (db w) userId = false))
      \/ (exists id,
            filter mine (push_subscriptions (db (snd r)))
            = [mkPushSubscriptionRow id userId
                 (NotificationRoutes.sub_endpoint body)
                 (NotificationRoutes.sub_keys body) true]
            /\ forall anyId,
                 NotificationRoutes.subscribe userId body anyId (snd r)
                 = (Normal (res_status_json 200 "Subscrição atualizada"),
                    snd r))).
Proof.
  cbv zeta.
  set (rows := push_subscriptions (db w)) in *.
  set (mine := fun s => String.eqb (ps_user_id s) userId
                 && String.eqb (ps_endpoint s)
                               (NotificationRoutes.sub_endpoint body)).
  pose proof (endpoints_distinct_filter rows userId
                (NotificationRoutes.sub_endpoint body) Hpairs) as Hlen.
  fold mine in Hlen.
  assert (Hagain : forall id w1 anyId,
             filter mine (push_subscriptions (db w1))
             = [mkPushSubscriptionRow id userId
                  (NotificationRoutes.sub_endpoint body)
                  (NotificationRoutes.sub_keys body) true] ->
             distinct (map ps_id (push_subscriptions (db w1))) = true ->
             NotificationRoutes.subscribe userId body anyId w1
             = (Normal (res_status_json 200 "Subscrição atualizada"), w1)).
  { intros id w1 anyId Hone Hd.
    unfold NotificationRoutes.subscribe, try_catch, bind, read,
      NotificationRoutes.existing_subscription.
    fold mine. rewrite Hone. cbn [single ps_id]. unfold write. cbn [ret].
    f_equal. destruct w1 as [d1 c1]. cbn [db console] in *. f_equal.
    unfold NotificationRoutes.renew_subscription, with_push_subscriptions.
    destruct d1 as [pr pa fm me ap no ps]. cbn [profiles parents family_members
      medications appointments notifications push_subscriptions] in *.
    f_equal. rewrite <- (map_id ps) at 2. apply map_ext_in.
    intros s Hs. destruct (String.eqb (ps_id s) id) eqn:E; [|reflexivity].
    apply String.eqb_eq in E.
    assert (In (mkPushSubscriptionRow id userId
                  (NotificationRoutes.sub_endpoint body)
                  (NotificationRoutes.sub_keys body) true) ps) as Hin.
    { assert (In (mkPushSubscriptionRow id userId
                    (NotificationRoutes.sub_endpoint body)
                    (NotificationRoutes.sub_keys body) true)
                 (filter mine ps)) as Hf by (rewrite Hone; now left).
      now apply filter_In in Hf. }
    assert (s = mkPushSubscriptionRow id userId
                  (NotificationRoutes.sub_endpoint body)
                  (NotificationRoutes.sub_keys body) true) as ->
      by (apply (distinct_keys_inj ps_id _ Hd); auto).
    reflexivity. }
  assert (Hfresh_id :
            existsb (fun s => String.eqb (ps_id s) newId) rows = false ->
            distinct (map ps_id
                        (rows ++ [mkPushSubscriptionRow newId userId
                                    (NotificationRoutes.sub_endpoint body)
                                    (NotificationRoutes.sub_keys body) true]))
            = true).
  { intro Hid. rewrite map_app. cbn [map ps_id].
    apply distinct_snoc; [assumption|].
    apply not_true_is_false. intro H. apply mem_string_In in H.
    apply in_map_iff in H. destruct H as [s [Hs Hin]].
    pose proof (existsb_false_In _ _ s Hid Hin) as Hne. cbv beta in Hne.
    rewrite Hs, String.eqb_refl in Hne. discriminate. }
  destruct (filter mine rows) as [|ex [|other more]] eqn:Hmine;
    [| |cbn in Hlen; lia].
  - (* no row yet: insert *)
    assert (Hnone : existsb mine rows = false).
    { apply not_true_is_false. intro H. apply existsb_exists in H.
      destruct H as [s [Hin Hs]].
      assert (In s (filter mine rows)) as Hf by (apply filter_In; auto).
      rewrite Hmine in Hf. contradiction. }
    destruct (existsb (fun s => String.eqb (ps_id s) newId) rows) eqn:Hid;
      [|destruct (mem_string userId (map pr_id (profiles (db w)))) eqn:Hreg].
    + assert (Hrun : NotificationRoutes.subscribe userId body newId w
                     = (Normal (res_status_json 500 "Erro ao criar subscrição"),
                        mkWorld (db w)
                          (console w
                           ++ [console_error "Error subscribing:"
                                 (Some (PostgrestError
                                          "push_subscriptions_pkey"))]))).
      { unfold NotificationRoutes.subscribe, try_catch, bind, read,
          NotificationRoutes.existing_subscription,
          NotificationRoutes.insert_subscription.
        cbn [ps_id ps_user_id ps_endpoint]. fold rows. unfold mine in *.
        rewrite Hmine. cbv beta iota zeta delta [single]. fold rows.
        rewrite Hid. reflexivity. }
      rewrite Hrun. cbn [fst snd db]. fold rows.
      split; [assumption|]. split; [assumption|]. split; [tauto|].
      left. repeat split; auto.
    + assert (Hrun : NotificationRoutes.subscribe userId body newId w
                     = (Normal (res_status_json 201
                                  "Subscrição criada com sucesso"),
                        mkWorld
                          (with_push_subscriptions (db w)
                             (rows ++ [mkPushSubscriptionRow newId userId
                                         (NotificationRoutes.sub_endpoint body)
                                         (NotificationRoutes.sub_keys body)
                                         true]))
                          (console w))).
      { unfold NotificationRoutes.subscribe, try_catch, bind, read,
          NotificationRoutes.existing_subscription,
          NotificationRoutes.insert_subscription.
        cbn [ps_id ps_user_id ps_endpoint]. fold rows. unfold mine in *.
        rewrite Hmine. cbv beta iota zeta delta [single]. fold rows.
        rewrite Hid, Hnone, Hreg. reflexivity. }
      rewrite Hrun.
      cbn [fst snd db push_subscriptions with_push_subscriptions]. fold rows.
      assert (Hone : filter mine (rows ++ [mkPushSubscriptionRow newId userId
                        (NotificationRoutes.sub_endpoint body)
                        (NotificationRoutes.sub_keys body) true])
                     = [mkPushSubscriptionRow newId userId
                          (NotificationRoutes.sub_endpoint body)
                          (NotificationRoutes.sub_keys body) true]).
      { rewrite filter_app, Hmine. unfold mine. cbn.
        now rewrite !String.eqb_refl. }
      split; [now apply Hfresh_id|]. split; [|split].
      * apply endpoints_distinct_snoc; assumption.
      * intros s Hs. rewrite in_app_iff. cbn [In]. split; [|tauto].
        intros [Hin|[<-|[]]]; [assumption|].
        unfold mine in Hs. cbn in Hs. now rewrite !String.eqb_refl in Hs.
      * right. exists newId. split; [exact Hone|]. intro anyId.
        apply (Hagain newId); [exact Hone|].
        cbn [db push_subscriptions]. now apply Hfresh_id.
    + assert (Hrun : NotificationRoutes.subscribe userId body newId w
                     = (Normal (res_status_json 500 "Erro ao criar subscrição"),
                        mkWorld (db w)
                          (console w
                           ++ [console_error "Error subscribing:"
                                 (Some (PostgrestError
                                          "push_subscriptions_user_id_fkey"))]))).
      { unfold NotificationRoutes.subscribe, try_catch, bind, read,
          NotificationRoutes.existing_subscription,
          NotificationRoutes.insert_subscription.
        cbn [ps_id ps_user_id ps_endpoint]. fold rows. unfold mine in *.
        rewrite Hmine. cbv beta iota zeta delta [single]. fold rows.
        rewrite Hid, Hnone, Hreg. reflexivity. }
      rewrite Hrun. cbn [fst snd db]. fold rows.
      split; [assumption|]. split; [assumption|]. split; [tauto|].
      left. repeat split; auto.
  - (* the row exists: renew it *)
    set (g := fun s =>
           if String.eqb (ps_id s) (ps_id ex)
           then mkPushSubscriptionRow (ps_id s) (ps_user_id s) (ps_endpoint s)
                  (NotificationRoutes.sub_keys body) true
           else s).
    assert (Hrun : NotificationRoutes.subscribe userId body newId w
                   = (Normal (res_status_json 200 "Subscrição atualizada"),
                      mkWorld (with_push_subscriptions (db w) (map g rows))
                              (console w))).
    { unfold NotificationRoutes.subscribe, try_catch, bind, read,
        NotificationRoutes.existing_subscription.
      fold rows. fold mine. rewrite Hmine. reflexivity. }
    rewrite Hrun.
    cbn [fst snd db push_subscriptions with_push_subscriptions].
    assert (Hg : forall s, ps_id (g s) = ps_id s
                           /\ ps_user_id (g s) = ps_user_id s
                           /\ ps_endpoint (g s) = ps_endpoint s).
    { intro s. unfold g. now destruct (String.eqb (ps_id s) (ps_id ex)). }
    assert (Hex : In ex rows /\ mine ex = true).
    { apply filter_In. rewrite Hmine. now left. }
    destruct Hex as [Hexin Hexmine].
    assert (Hkeys' : distinct (map ps_id (map g rows)) = true).
    { rewrite map_map. erewrite map_ext; [exact Hids|].
      intro s. apply Hg. }
    split; [exact Hkeys'|]. split; [|split].
    + rewrite endpoints_distinct_map; [assumption|]. intro s. apply Hg.
    + intros s Hs. rewrite in_map_iff. split.
      * intros [x [Hx Hin]]. unfold g in Hx.
        destruct (String.eqb (ps_id x) (ps_id ex)) eqn:E; [|now subst].
        apply String.eqb_eq in E.
        assert (x = ex) by (apply (distinct_keys_inj ps_id _ Hids); auto).
        subst x s. unfold mine in Hs, Hexmine. cbn in Hs. congruence.
      * intro Hin. exists s. split; [|assumption]. unfold g.
        destruct (String.eqb (ps_id s) (ps_id ex)) eqn:E; [|reflexivity].
        apply String.eqb_eq in E.
        assert (s = ex) by (apply (distinct_keys_inj ps_id _ Hids); auto).
        subst s. congruence.
    + right. exists (ps_id ex).
      assert (Hone : filter mine (map g rows)
                     = [mkPushSubscriptionRow (ps_id ex) userId
                          (NotificationRoutes.sub_endpoint body)
                          (NotificationRoutes.sub_keys body) true]).
      { rewrite filter_map_stable.
        - rewrite Hmine. cbn [map]. unfold g. rewrite String.eqb_refl.
          unfold mine in Hexmine. apply andb_true_iff in Hexmine.
          destruct Hexmine as [Hu He]. apply String.eqb_eq in Hu, He.
          now rewrite Hu, He.
        - intro s. unfold mine. destruct (Hg s) as (_ & -> & ->). reflexivity. }
      split; [exact Hone|]. intro anyId.
      apply (Hagain (ps_id ex)); [exact Hone | exact Hkeys'].
Qed.

(** Ana's subscription to the endpoint that is gone, switched off by a
    delivery, is switched on again by subscribing. *)
Lemma subscribe_keeps_one_active_row_witness :
  let w := snd (createNotification Scenarios.channel "u-ana" system "t" "m" []
                  Scenarios.push_world) in
  let body := NotificationRoutes.mkSubscriptionBody "https://push.example/gone"
                ("k2", "a2") in
  map ps_is_active
    (filter (fun s => String.eqb (ps_id s) "s-1") (push_subscriptions (db w)))
  = [false]
  /\ filter (fun s => String.eqb (ps_user_id s) "u-ana"
                      && String.eqb (ps_endpoint s) "https://push.example/gone")
       (push_subscriptions
          (db (snd (NotificationRoutes.subscribe "u-ana" body "s-9" w))))
     = [mkPushSubscriptionRow "s-1" "u-ana" "https://push.example/gone"
          ("k2", "a2") true].
Proof.
  cbv zeta. split; [vm_compute; reflexivity|].
  destruct (subscribe_keeps_one_active_row "u-ana"
              (NotificationRoutes.mkSubscriptionBody "https://push.example/gone"
                 ("k2", "a2"))
              "s-9"
              (snd (createNotification Scenarios.channel "u-ana" system "t" "m"
                      [] Scenarios.push_world))
              eq_refl eq_refl) as (_ & _ & _ & [(H500 & _)|(id & Hone & _)]).
  - vm_compute in H500. discriminate.
  - cbn [NotificationRoutes.sub_endpoint NotificationRoutes.sub_keys] in Hone.
    rewrite Hone. f_equal. f_equal.
    assert (In (mkPushSubscriptionRow id "u-ana" "https://push.example/gone"
                  ("k2", "a2") true)
               [mkPushSubscriptionRow id "u-ana" "https://push.example/gone"
                  ("k2", "a2") true]) as Hin by now left.
    rewrite <- Hone in Hin. vm_compute in Hin.
    destruct Hin as [Heq|[]]. now inversion Heq.
Defined.

(* ================================================================== *)
(** * Further properties: the inbox routes *)
(* ================================================================== *)

Lemma filter_filter {A} (f g : A -> bool) (l : list A) :
  filter f (filter g l) = filter (fun x => g x && f x) l.
Proof.
  induction l as [|x rest IH]; cbn [filter]; [reflexivity|].
  destruct (g x); cbn [filter andb]; [|assumption].
  destruct (f x); now rewrite IH.
Qed.

Lemma length_filter_map {A} (f : A -> bool) (g : A -> A) (l : list A) :
  (forall x, f (g x) = f x) ->
  List.length (filter f (map g l)) = List.length (filter f l).
Proof.
  intro H. induction l as [|x rest IH]; cbn [map filter]; [reflexivity|].
  rewrite H. destruct (f x); cbn [List.length]; now rewrite IH.
Qed.

(** X20: read-all answers 200 and leaves the user no unread notification,
    without changing the unread count of anyone else; deleting the read
    notifications changes no unread count at all; and read-all followed by
    the deletion removes exactly the rows of the user, in whatever state
    they were, and no row of another user. *)
Theorem read_all_then_delete_empties_the_inbox (userId : string) (w : World) :
  let w1 := snd (NotificationRoutes.read_all userId w) in
  let w2 := snd (NotificationRoutes.delete_read userId w1) in
  fst (NotificationRoutes.read_all userId w)
  = Normal (res_status_json 200
              "Todas as notificações foram marcadas como lidas")
  /\ NotificationRoutes.unread_count userId (db w1) = 0%nat
  /\ (forall other, other <> userId ->
        NotificationRoutes.unread_count other (db w1)
        = NotificationRoutes.unread_count other (db w))
  /\ (forall anyone,
        NotificationRoutes.unread_count anyone
          (db (snd (NotificationRoutes.delete_read userId w)))
        = NotificationRoutes.unread_count anyone (db w))
  /\ notifications (db w2)
     = filter (fun n => negb (String.eqb (n_user_id n) userId))
              (notifications (db w)).
Proof.
  cbv zeta.
  unfold NotificationRoutes.read_all, NotificationRoutes.delete_read,
    try_catch, bind, write, ret.
  cbn [fst snd db console notifications with_notifications
       NotificationRoutes.mark_all_read].
  unfold NotificationRoutes.mark_all_read, NotificationRoutes.unread_count.
  cbn [notifications with_notifications].
  split; [reflexivity|]. split; [|split; [|split]].
  - rewrite filter_none; [reflexivity|].
    intros x Hx. apply in_map_iff in Hx. destruct Hx as [n [<- _]].
    destruct (String.eqb (n_user_id n) userId && negb (n_is_read n)) eqn:E.
    + cbn. now rewrite andb_false_r.
    + exact E.
  - intros other Hother. apply length_filter_map. intro n.
    destruct (String.eqb (n_user_id n) userId && negb (n_is_read n)) eqn:E;
      [|reflexivity].
    apply andb_true_iff in E. destruct E as [Hu _]. apply String.eqb_eq in Hu.
    cbn [n_user_id n_is_read]. rewrite Hu.
    apply String.eqb_neq in Hother. rewrite String.eqb_sym in Hother.
    now rewrite Hother.
  - intro anyone. rewrite filter_filter. f_equal. apply filter_ext. intro n.
    destruct (String.eqb (n_user_id n) userId), (n_is_read n),
      (String.eqb (n_user_id n) anyone); reflexivity.
  - induction (notifications (db w)) as [|n rest IH]; [reflexivity|].
    cbn [map filter]. rewrite IH.
    destruct (String.eqb (n_user_id n) userId) eqn:Hu; cbn [andb negb].
    + destruct (n_is_read n) eqn:Hr; cbn [negb n_user_id n_is_read];
        rewrite Hu; cbn; try rewrite Hr; reflexivity.
    + rewrite Hu. reflexivity.
Qed.

(** X21: a notification created for a user who has a profile raises the
    unread count of that user by one and that of nobody else, whatever the
    push channel does; for a user without a profile no count changes. *)
Theorem createNotification_counts_as_unread
    (send : PushSubscription -> NotificationPayload -> option Exn)
    (userId : string) (type : NotificationType) (title message : string)
    (data : list (string * string)) (w : World) :
  let w1 := snd (createNotification send userId type title message data w) in
  NotificationRoutes.unread_count userId (db w1)
  = ((if registered (db w) userId then 1 else 0)
     + NotificationRoutes.unread_count userId (db w))%nat
  /\ forall other, other <> userId ->
       NotificationRoutes.unread_count other (db w1)
       = NotificationRoutes.unread_count other (db w).
Proof.
  cbv zeta.
  destruct (notify_run send
              (mkNotification userId type title message data false) w eq_refl)
    as [w1 [Hrun [Hrows _]]].
  unfold notify in Hrun. cbn [n_user_id n_type n_title n_message n_data] in *.
  rewrite Hrun. cbn [snd]. unfold NotificationRoutes.unread_count.
  rewrite Hrows, !filter_app, !length_app.
  destruct (registered (db w) userId); cbn [filter n_user_id n_is_read].
  - rewrite String.eqb_refl. cbn. split; [lia|].
    intros other Hother. apply String.eqb_neq in Hother.
    rewrite String.eqb_sym in Hother.
    rewrite filter_app, length_app. cbn. rewrite Hother. cbn. lia.
  - cbn. split; [lia|]. intros. rewrite app_nil_r. reflexivity.
Qed.

(* ================================================================== *)
(** * Further properties: the times the medication schema accepts *)
(* ================================================================== *)

Lemma between_digit (hi c : ascii) :
  MedicationRoutes.between "0" hi c = true ->
  exists d, (48 + d <= nat_of_ascii hi)%nat /\ c = ascii_of_nat (48 + d).
Proof.
  unfold MedicationRoutes.between. intro H.
  apply andb_true_iff in H. destruct H as [Hlo Hhi].
  apply Nat.leb_le in Hlo, Hhi.
  change (nat_of_ascii "0") with 48%nat in Hlo.
  exists (nat_of_ascii c - 48)%nat. split; [lia|].
  replace (48 + (nat_of_ascii c - 48))%nat with (nat_of_ascii c) by lia.
  now rewrite ascii_nat_embedding.
Qed.

Lemma digits_two (a b : nat) :
  (a < 6)%nat -> (b < 10)%nat ->
  String (ascii_of_nat (48 + a)) (String (ascii_of_nat (48 + b)) "")
  = two_digits (10 * a + b).
Proof.
  intros Ha Hb.
  do 6 (destruct a as [|a]; [do 10 (destruct b as [|b]; [reflexivity|]); lia|]).
  lia.
Qed.

Lemma clocks_match :
  forallb (fun h => forallb (fun m => MedicationRoutes.matches_time (clock h m))
                            (seq 0 60))
          (seq 0 24) = true.
Proof. vm_compute. reflexivity. Qed.

(** X15: the pattern of the medication schema accepts exactly the strings
    HH:MM with an hour below 24 and a minute below 60, written with two
    digits each; and every string it accepts is read by the reminder scan
    as that hour and that minute. *)
Theorem schema_times_are_the_clock_readings (s : string) :
  MedicationRoutes.matches_time s = true
  <-> exists h m,
        (h < 24)%nat /\ (m < 60)%nat /\ s = clock h m
        /\ map Number (split_colon s) = [Some (Z.of_nat h); Some (Z.of_nat m)].
Proof.
  split.
  - intro H.
    destruct s as [|h1 [|h2 [|sep [|m1 [|m2 [|x rest]]]]]]; try discriminate.
    cbn [MedicationRoutes.matches_time] in H.
    apply andb_true_iff in H. destruct H as [H Hm2].
    apply andb_true_iff in H. destruct H as [H Hm1].
    apply andb_true_iff in H. destruct H as [Hh Hsep].
    apply Ascii.eqb_eq in Hsep. subst sep.
    apply between_digit in Hm1, Hm2.
    destruct Hm1 as [c [Hc ->]]. destruct Hm2 as [d [Hd ->]].
    change (nat_of_ascii "5") with 53%nat in Hc.
    change (nat_of_ascii "9") with 57%nat in Hd.
    assert (Hhour : exists a b, (10 * a + b < 24)%nat /\ (a < 6)%nat
                                /\ (b < 10)%nat
                                /\ h1 = ascii_of_nat (48 + a)
                                /\ h2 = ascii_of_nat (48 + b)).
    { apply orb_true_iff in Hh. destruct Hh as [Hh|Hh];
        apply andb_true_iff in Hh; destruct Hh as [H1 H2].
      - apply between_digit in H1, H2.
        destruct H1 as [a [Ha ->]]. destruct H2 as [b [Hb ->]].
        change (nat_of_ascii "1") with 49%nat in Ha.
        change (nat_of_ascii "9") with 57%nat in Hb.
        exists a, b. repeat split; lia.
      - apply Ascii.eqb_eq in H1. subst h1. apply between_digit in H2.
        destruct H2 as [b [Hb ->]].
        change (nat_of_ascii "3") with 51%nat in Hb.
        exists 2%nat, b. repeat split; lia. }
    destruct Hhour as (a & b & Hlt & Ha & Hb & -> & ->).
    exists (10 * a + b)%nat, (10 * c + d)%nat.
    assert (Hs : String (ascii_of_nat (48 + a))
                   (String (ascii_of_nat (48 + b))
                      (String ":"
                         (String (ascii_of_nat (48 + c))
                            (String (ascii_of_nat (48 + d)) ""))))
                 = clock (10 * a + b) (10 * c + d)).
    { unfold clock. rewrite <- !digits_two by lia. reflexivity. }
    split; [lia|]. split; [lia|]. split; [exact Hs|].
    rewrite Hs. apply clock_parses; lia.
  - intros (h & m & Hh & Hm & -> & _).
    pose proof clocks_match as Hall. rewrite forallb_forall in Hall.
    specialize (Hall h). rewrite in_seq in Hall.
    assert (Hrow : forallb (fun m => MedicationRoutes.matches_time (clock h m))
                           (seq 0 60) = true) by (apply Hall; lia).
    rewrite forallb_forall in Hrow. apply Hrow. rewrite in_seq. lia.
Qed.

(* ================================================================== *)
(** * Further properties: POST /api/medications *)
(* ================================================================== *)

Section PostMedication.

Variable accepts_values : MedicationRoutes.MedicationBody -> bool.
Variable send : PushSubscription -> NotificationPayload -> option Exn.

Lemma post_medication_created userId body newId w :
  edit_refused (member_of (MedicationRoutes.mb_parent_id body) userId (db w))
  = false ->
  accepts_values body = true ->
  MedicationRoutes.mb_start_date body <> None ->
  existsb (fun m => String.eqb (med_id m) newId) (medications (db w)) = false ->
  recipient_exists (db w) (MedicationRoutes.mb_parent_id body) = true ->
  registered (db w) userId = true ->
  exists w',
    MedicationRoutes.post_medication accepts_values send userId body newId w
    = (Normal (res_status_json 201 "Medicamento adicionado com sucesso"), w')
    /\ medications (db w') = (medications (db w) ++ [medication_row body newId])%list
    /\ notifications (db w')
       = (notifications (db w)
          ++ filter (fun n => registered (db w) (n_user_id n))
               (map (medication_note body newId
                       (parent_name_or_default
                          (MedicationRoutes.mb_parent_id body) (db w)))
                    (other_active_members
                       (MedicationRoutes.mb_parent_id body) userId (db w))))%list
    /\ profiles (db w') = profiles (db w) /\ parents (db w') = parents (db w)
    /\ family_members (db w') = family_members (db w)
    /\ appointments (db w') = appointments (db w).
Proof.
  intros Hguard Hvalues Hstart Hid Hparent Hreg.
  unfold recipient_exists, registered in Hparent, Hreg.
  set (w1 := mkWorld (mkDb (profiles (db w)) (parents (db w))
                           (family_members (db w))
                           (medications (db w) ++ [medication_row body newId])
                           (appointments (db w)) (notifications (db w))
                           (push_subscriptions (db w)))
                     (console w)).
  destruct (notify_loop send
              (medication_note body newId
                 (parent_name_or_default (MedicationRoutes.mb_parent_id body)
                    (db w)))
              (other_active_members (MedicationRoutes.mb_parent_id body) userId
                 (db w))
              w1 (fun _ => eq_refl))
    as [w2 [Hloop [Hrows (Hpr & Hpa & Hfm & Hme & Hap)]]].
  exists w2. split.
  - unfold MedicationRoutes.post_medication, try_catch, bind, read,
      MedicationRoutes.insert_medication.
    rewrite Hguard, Hvalues.
    destruct (MedicationRoutes.mb_start_date body) as [startDate|];
      [|congruence].
    rewrite Hid, Hparent, Hreg. cbn [negb].
    match goal with
    | |- context [for_of ?xs ?f ?w0] =>
        replace (for_of xs f w0) with (@Normal unit tt, w2)
          by (symmetry; exact Hloop)
    end.
    reflexivity.
  - split; [exact Hme|]. split; [exact Hrows|]. repeat split; assumption.
Qed.

Lemma post_medication_rejected userId body newId w :
  edit_refused (member_of (MedicationRoutes.mb_parent_id body) userId (db w))
  = false ->
  accepts_values body
  && match MedicationRoutes.mb_start_date body with
     | Some _ => true
     | None => false
     end
  && negb (existsb (fun m => String.eqb (med_id m) newId) (medications (db w)))
  && recipient_exists (db w) (MedicationRoutes.mb_parent_id body)
  && registered (db w) userId = false ->
  let r := MedicationRoutes.post_medication accepts_values send userId body
             newId w in
  fst r = Normal (res_status_json 500 "Erro ao adicionar medicamento")
  /\ db (snd r) = db w.
Proof.
  intros Hguard Hcase. cbv zeta.
  unfold MedicationRoutes.post_medication, try_catch, bind, read,
    MedicationRoutes.insert_medication.
  rewrite Hguard. unfold recipient_exists, registered in Hcase.
  destruct (accepts_values body); [|split; reflexivity].
  destruct (MedicationRoutes.mb_start_date body); [|split; reflexivity].
  destruct (existsb (fun m => String.eqb (med_id m) newId) (medications (db w)));
    [split; reflexivity|].
  destruct (existsb (fun p => String.eqb (pa_id p)
                                (MedicationRoutes.mb_parent_id body))
                    (parents (db w))); [|split; reflexivity].
  destruct (mem_string userId (map pr_id (profiles (db w))));
    [discriminate | split; reflexivity].
Qed.

End PostMedication.


(* ================================================================== *)
(** * Further properties: the handlers that answer 403 and go on *)
(* ================================================================== *)

(** X11: DELETE /api/appointments/:id and DELETE /api/medications/:id
    delete the row whoever asks.  When the row exists it is gone afterwards
    and no other row or table has changed; the permission of the requester
    decides only the answer, 200 for an admin or a member allowed to
    delete, 403 for anyone else.  When the row does not exist the answer
    is 404 and nothing is written. *)
Theorem resource_deletes_do_not_stop_at_the_refusal (userId id : string) (w : World) :
  let after_appointment :=
    snd (UnguardedRoutes.delete_appointment userId id (Express.incoming w)) in
  let after_medication :=
    snd (UnguardedRoutes.delete_medication userId id (Express.incoming w)) in
  match AppointmentRoutes.appointment_by_id id (db w) with
  | None =>
      Express.sent after_appointment
      = Some (res_status_json 404 "Consulta não encontrada")
      /\ Express.world after_appointment = w
  | Some apt =>
      db (Express.world after_appointment)
      = UnguardedRoutes.delete_appointment_row id (db w)
      /\ (forall a, In a (appointments (db (Express.world after_appointment)))
                    <-> In a (appointments (db w)) /\ apt_id a <> id)
      /\ Express.sent after_appointment
         = Some (if delete_refused (member_of (apt_parent_id apt) userId (db w))
                 then res_status_json 403 "Sem permissão para deletar"
                 else res_status_json 200 "Consulta removida com sucesso")
  end
  /\ match UnguardedRoutes.medication_by_id id (db w) with
     | None =>
         Express.sent after_medication
         = Some (res_status_json 404 "Medicamento não encontrado")
         /\ Express.world after_medication = w
     | Some med =>
         db (Express.world after_medication)
         = UnguardedRoutes.delete_medication_row id (db w)
         /\ (forall m, In m (medications (db (Express.world after_medication)))
                       <-> In m (medications (db w)) /\ med_id m <> id)
         /\ Express.sent after_medication
            = Some (if delete_refused (member_of (med_parent_id med) userId (db w))
                    then res_status_json 403 "Sem permissão para deletar"
                    else res_status_json 200 "Medicamento removido com sucesso")
     end.
Proof.
  cbv zeta. split.
  - unfold UnguardedRoutes.delete_appointment, Express.attempt, Express.and_then,
      Express.lift, read, Express.incoming.
    cbn [Express.world Express.sent].
    destruct (AppointmentRoutes.appointment_by_id id (db w)) as [apt|].
    + cbn.
      destruct (delete_refused (member_of (apt_parent_id apt) userId (db w)));
        cbn; (split; [reflexivity|]); (split; [|reflexivity]);
        intro a; rewrite filter_In, negb_true_iff, String.eqb_neq; reflexivity.
    + cbn. split; [reflexivity|]. now destruct w.
  - unfold UnguardedRoutes.delete_medication, Express.attempt, Express.and_then,
      Express.lift, read, Express.incoming.
    cbn [Express.world Express.sent].
    destruct (UnguardedRoutes.medication_by_id id (db w)) as [med|].
    + cbn.
      destruct (delete_refused (member_of (med_parent_id med) userId (db w)));
        cbn; (split; [reflexivity|]); (split; [|reflexivity]);
        intro m; rewrite filter_In, negb_true_iff, String.eqb_neq; reflexivity.
    + cbn. split; [reflexivity|]. now destruct w.
Qed.

(** X10: DELETE /api/parents/:id deletes the recipient whoever asks:
    afterwards no recipient, membership, medication or appointment carries
    the id, and the rows of other recipients are as before.  The role of
    the requester decides only the answer: 200 for a member whose role is
    admin, 403 for anyone else, a stranger to the family included. *)
Theorem delete_parent_does_not_stop_at_the_refusal (userId id : string) (w : World) :
  let x := snd (UnguardedRoutes.delete_parent userId id (Express.incoming w)) in
  let d := db (Express.world x) in
  d = ParentRoutes.delete_parent id (db w)
  /\ recipient_exists d id = false
  /\ members_of_parent id d = []
  /\ (forall m, In m (family_members d)
                <-> In m (family_members (db w)) /\ fm_parent_id m <> id)
  /\ (forall m, In m (medications d)
                <-> In m (medications (db w)) /\ med_parent_id m <> id)
  /\ (forall a, In a (appointments d)
                <-> In a (appointments (db w)) /\ apt_parent_id a <> id)
  /\ Express.sent x
     = Some (if not_admin (member_of id userId (db w))
             then res_status_json 403 "Apenas administradores podem deletar"
             else res_status_json 200 "Idoso removido com sucesso").
Proof.
  cbv zeta.
  assert (Hrun : db (Express.world
                       (snd (UnguardedRoutes.delete_parent userId id
                               (Express.incoming w))))
                 = ParentRoutes.delete_parent id (db w)
                 /\ Express.sent
                      (snd (UnguardedRoutes.delete_parent userId id
                              (Express.incoming w)))
                    = Some (if not_admin (member_of id userId (db w))
                            then res_status_json 403
                                   "Apenas administradores podem deletar"
                            else res_status_json 200
                                   "Idoso removido com sucesso")).
  { unfold UnguardedRoutes.delete_parent, Express.attempt, Express.and_then,
      Express.lift, read, Express.incoming.
    cbn [Express.world Express.sent].
    cbn. destruct (not_admin (member_of id userId (db w))); cbn; now split. }
  destruct Hrun as [-> ->].
  unfold ParentRoutes.delete_parent, recipient_exists, members_of_parent.
  cbn [parents family_members medications appointments].
  split; [reflexivity|]. split; [|split; [|split; [|split; [|split]]]].
  - apply not_true_is_false. intro H. apply existsb_exists in H.
    destruct H as [p [Hin Heq]]. apply filter_In in Hin.
    destruct Hin as [_ Hne]. rewrite Heq in Hne. discriminate.
  - apply filter_none. intros m Hm. apply filter_In in Hm.
    destruct Hm as [_ Hne]. now apply negb_true_iff in Hne.
  - intro m. now rewrite filter_In, negb_true_iff, String.eqb_neq.
  - intro m. now rewrite filter_In, negb_true_iff, String.eqb_neq.
  - intro a. now rewrite filter_In, negb_true_iff, String.eqb_neq.
  - reflexivity.
Qed.


(* ================================================================== *)
(** * Further properties: the reminders of appointments *)
(* ================================================================== *)

Lemma recipient_found (parentId : string) (d : Db) :
  recipient_exists d parentId = true ->
  exists p, parent_of parentId d = Some p.
Proof.
  unfold recipient_exists, parent_of.
  induction (parents d) as [|p rest IH]; cbn [existsb find]; [discriminate|].
  destruct (String.eqb (pa_id p) parentId); [now exists p | exact IH].
Qed.

Lemma Permutation_filter_stable {A} (f : A -> bool) (l l' : list A) :
  Permutation l l' -> Permutation (filter f l) (filter f l').
Proof.
  induction 1 as [|x l l' _ IH|x y l|l l' l'' _ IH1 _ IH2]; cbn [filter].
  - constructor.
  - destruct (f x); [now constructor | exact IH].
  - destruct (f x), (f y); try apply Permutation_refl. constructor.
  - now apply (perm_trans IH1).
Qed.

Section AppointmentReminderLoops.

Variable send : PushSubscription -> NotificationPayload -> option Exn.
Variable format_date : Z -> string.
Variable doctor_name_of : string -> string.
Variable returned_appointments : Db -> list Appointment -> list Appointment.
Variable returned_members : Db -> list FamilyMember -> list FamilyMember.

Hypothesis members_in_some_order :
  forall d l, Permutation (returned_members d l) l.

Lemma remind_of_appointment_loop (apt : Appointment) (p : Parent) :
  forall (members : list FamilyMember) (w : World),
  parent_of (apt_parent_id apt) (db w) = Some p ->
  exists w',
    for_of members
      (AppointmentReminders.remind_of_appointment send doctor_name_of apt
         (format_date (apt_scheduled_at apt))) w
    = (Normal tt, w')
    /\ notifications (db w')
       = (notifications (db w)
          ++ filter (fun n => registered (db w) (n_user_id n))
               (map (appointment_reminder (format_date (apt_scheduled_at apt))
                       (doctor_name_of (apt_id apt)) p apt)
                    members))%list
    /\ only_notified (db w) (db w').
Proof.
  induction members as [|m rest IH]; intros w Hp.
  - exists w. repeat split. cbn [map filter]. now rewrite app_nil_r.
  - cbn [for_of]. unfold bind at 1.
    destruct (notify_run send
                (appointment_reminder (format_date (apt_scheduled_at apt))
                   (doctor_name_of (apt_id apt)) p apt m) w eq_refl)
      as [w1 [Hrun [Hrows Hsame]]].
    assert (Hstep : AppointmentReminders.remind_of_appointment send
                      doctor_name_of apt (format_date (apt_scheduled_at apt))
                      m w = (Normal tt, w1)).
    { unfold AppointmentReminders.remind_of_appointment, bind, read.
      rewrite Hp. exact Hrun. }
    rewrite Hstep.
    assert (Hp1 : parent_of (apt_parent_id apt) (db w1) = Some p).
    { unfold parent_of in *. destruct Hsame as (_ & -> & _). exact Hp. }
    destruct (IH w1 Hp1) as [w2 [Hrun2 [Hrows2 Hsame2]]].
    exists w2. split; [exact Hrun2|]. split.
    + rewrite Hrows2, Hrows. cbn [map filter].
      assert (Hreg : forall u, registered (db w1) u = registered (db w) u).
      { intro u. unfold registered. destruct Hsame as (Hpr & _). now rewrite Hpr. }
      rewrite (filter_ext _ _ (fun n => Hreg (n_user_id n))).
      destruct (registered (db w)
                  (n_user_id
                     (appointment_reminder (format_date (apt_scheduled_at apt))
                        (doctor_name_of (apt_id apt)) p apt m)));
        rewrite <- app_assoc; reflexivity.
    + now apply (only_notified_trans _ (db w1)).
Qed.

Lemma appointments_loop : forall (apts : list Appointment) (w : World),
  (forall apt, In apt apts ->
     recipient_exists (db w) (apt_parent_id apt) = true) ->
  exists w' rows,
    for_of apts (fun apt =>
      familyMembers <-
        read (AppointmentReminders.members_returned returned_members
                (apt_parent_id apt)) ;;
      for_of familyMembers
        (AppointmentReminders.remind_of_appointment send doctor_name_of apt
           (format_date (apt_scheduled_at apt)))) w
    = (Normal tt, w')
    /\ notifications (db w') = (notifications (db w) ++ rows)%list
    /\ Permutation rows
         (filter (fun n => registered (db w) (n_user_id n))
            (flat_map (reminders_of_appointment format_date doctor_name_of
                         (db w)) apts))
    /\ only_notified (db w) (db w').
Proof.
  induction apts as [|apt rest IH]; intros w Hrefs.
  - exists w, []. repeat split; [now rewrite app_nil_r | constructor].
  - cbn [for_of]. unfold bind at 1.
    destruct (recipient_found _ _ (Hrefs apt (or_introl eq_refl))) as [p Hp].
    destruct (remind_of_appointment_loop apt p
                (AppointmentReminders.members_returned returned_members
                   (apt_parent_id apt) (db w)) w Hp)
      as [w1 [Hrun [Hrows Hsame]]].
    unfold bind at 1, read at 1. rewrite Hrun.
    assert (Hsame' := Hsame). destruct Hsame' as (Hpr & Hpa & Hfm & _).
    destruct (IH w1) as [w2 [rows2 [Hrun2 [Hrows2 [Hperm2 Hsame2]]]]].
    { intros a Ha. unfold recipient_exists. rewrite Hpa.
      apply Hrefs. now right. }
    eexists w2, _. split; [exact Hrun2|]. split; [|split].
    + rewrite Hrows2, Hrows, <- app_assoc. reflexivity.
    + cbn [flat_map]. rewrite filter_app. apply Permutation_app.
      * apply Permutation_filter_stable.
        unfold reminders_of_appointment. rewrite Hp. apply Permutation_map.
        apply members_in_some_order.
      * assert (Hreg : forall u, registered (db w1) u = registered (db w) u).
        { intro u. unfold registered. now rewrite Hpr. }
        rewrite (filter_ext _ _ (fun n => Hreg (n_user_id n))) in Hperm2.
        replace (flat_map (reminders_of_appointment format_date doctor_name_of
                             (db w)) rest)
          with (flat_map (reminders_of_appointment format_date doctor_name_of
                            (db w1)) rest); [exact Hperm2|].
        apply flat_map_ext. intro a.
        unfold reminders_of_appointment, parent_of, members_of_parent.
        now rewrite Hpa, Hfm.
    + now apply (only_notified_trans _ (db w1)).
Qed.

End AppointmentReminderLoops.

(** X18: on a store whose foreign keys to parents hold, the daily
    appointment reminder completes and appends, for every scheduled
    appointment between the two bounds and every membership of its
    recipient whose user has a profile, exactly one reminder, in the
    order in which the store returns the rows (the queries have no ORDER
    BY); memberships of any status are served, pending ones included, and
    no other table but push_subscriptions changes. *)
Theorem sendAppointmentReminders_effect
    (send : PushSubscription -> NotificationPayload -> option Exn)
    (format_date : Z -> string) (doctor_name_of : string -> string)
    (returned_appointments : Db -> list Appointment -> list Appointment)
    (returned_members : Db -> list FamilyMember -> list FamilyMember)
    (dayStart dayEnd : Z) (w : World)
    (Happointments : forall d l, Permutation (returned_appointments d l) l)
    (Hmembers : forall d l, Permutation (returned_members d l) l)
    (Hrefs : parents_referenced (db w) = true) :
  exists w' rows,
    AppointmentReminders.sendAppointmentReminders send format_date
      doctor_name_of returned_appointments returned_members dayStart dayEnd w
    = (Normal tt, w')
    /\ notifications (db w') = (notifications (db w) ++ rows)%list
    /\ Permutation rows
         (filter (fun n => registered (db w) (n_user_id n))
            (flat_map (reminders_of_appointment format_date doctor_name_of
                         (db w))
               (due_tomorrow dayStart dayEnd (db w))))
    /\ (forall apt m,
          In apt (due_tomorrow dayStart dayEnd (db w)) ->
          In m (family_members (db w)) ->
          fm_parent_id m = apt_parent_id apt ->
          registered (db w) (fm_user_id m) = true ->
          exists n, In n rows
                    /\ n_user_id n = fm_user_id m
                    /\ n_data n = [("appointment_id", apt_id apt);
                                   ("parent_id", apt_parent_id apt)])
    /\ only_notified (db w) (db w').
Proof.
  unfold parents_referenced in Hrefs.
  apply andb_true_iff in Hrefs. destruct Hrefs as [_ Hapts].
  rewrite forallb_forall in Hapts.
  assert (Hdue : Permutation
                   (AppointmentReminders.scheduled_within returned_appointments
                      dayStart dayEnd (db w))
                   (due_tomorrow dayStart dayEnd (db w)))
    by apply Happointments.
  destruct (appointments_loop send format_date doctor_name_of returned_members
              Hmembers
              (AppointmentReminders.scheduled_within returned_appointments
                 dayStart dayEnd (db w)) w)
    as [w' [rows [Hrun [Hrows [Hperm Hsame]]]]].
  { intros apt Hapt. apply (Permutation_in _ Hdue) in Hapt.
    apply filter_In in Hapt. destruct Hapt as [Hin _]. exact (Hapts apt Hin). }
  assert (Hall : Permutation rows
            (filter (fun n => registered (db w) (n_user_id n))
               (flat_map (reminders_of_appointment format_date doctor_name_of
                            (db w))
                  (due_tomorrow dayStart dayEnd (db w))))).
  { apply (perm_trans Hperm). apply Permutation_filter_stable.
    now apply Permutation_flat_map. }
  exists w', rows.
  split; [|split; [exact Hrows|split; [exact Hall|split; [|exact Hsame]]]].
  - unfold AppointmentReminders.sendAppointmentReminders, try_catch.
    unfold bind at 1, read at 1. now rewrite Hrun.
  - intros apt m Hapt Hm Hparent Hreg.
    assert (Hexists : recipient_exists (db w) (apt_parent_id apt) = true).
    { apply filter_In in Hapt. destruct Hapt as [Hin _]. exact (Hapts apt Hin). }
    destruct (recipient_found _ _ Hexists) as [p Hp].
    exists (appointment_reminder (format_date (apt_scheduled_at apt))
              (doctor_name_of (apt_id apt)) p apt m).
    split; [|split; reflexivity].
    apply (Permutation_in _ (Permutation_sym Hall)).
    apply filter_In. split; [|exact Hreg].
    apply in_flat_map. exists apt. split; [exact Hapt|].
    unfold reminders_of_appointment. rewrite Hp. apply in_map.
    apply filter_In. split; [exact Hm|]. now apply String.eqb_eq.
Qed.

(** An appointment of Dona Maria tomorrow, on a store that answers in
    reverse order: Ana and Bruno are reminded, once each. *)
Lemma sendAppointmentReminders_effect_witness :
  exists w' rows,
    AppointmentReminders.sendAppointmentReminders Scenarios.channel
      (fun _ => "02/11 às 09:00") (fun _ => "Dr. Silva")
      (fun _ l => rev l) (fun _ l => rev l) 4000 6000
      Scenarios.care_world = (Normal tt, w')
    /\ notifications (db w') = rows
    /\ Permutation (map n_user_id rows) ["u-ana"; "u-bruno"].
Proof.
  destruct (sendAppointmentReminders_effect Scenarios.channel
              (fun _ => "02/11 às 09:00") (fun _ => "Dr. Silva")
              (fun _ l => rev l) (fun _ l => rev l) 4000 6000
              Scenarios.care_world
              (fun _ l => Permutation_sym (Permutation_rev l))
              (fun _ l => Permutation_sym (Permutation_rev l))
              eq_refl) as [w' [rows (Hrun & Hrows & Hperm & _)]].
  exists w', rows. split; [exact Hrun|]. split; [exact Hrows|].
  exact (Permutation_map n_user_id Hperm).
Defined.

(* ================================================================== *)
(** * Further properties: PATCH /api/appointments/:id/status *)
(* ================================================================== *)



(* ================================================================== *)
(** * Further properties: requireAdmin *)
(* ================================================================== *)

(** X4: requireAdmin always answers or passes the request on without
    writing.  With a recipient in the path it passes exactly the users that
    have an active admin membership on it, and whoever it passes is also
    passed by checkFamilyPermission for every permission and by the admin
    test of the family routes; without a recipient in the path it passes
    every authenticated user. *)
Theorem requireAdmin_passes_active_admins_only
    (user : Authentication.User) (parentId : string) (w : World)
    (Hpid : parentId <> "")
    (Hunique : pairs_distinct (family_members (db w)) = true) :
  let result := Authentication.requireAdmin (Some user) (Some parentId) w in
  snd result = w
  /\ (fst result = Normal next
      \/ fst result
         = Normal (answered (res_status_json 403
                     "Apenas administradores podem realizar esta ação")))
  /\ (fst result = Normal next
      <-> exists fm,
            In fm (family_members (db w))
            /\ fm_parent_id fm = parentId
            /\ fm_user_id fm = Authentication.u_id user
            /\ fm_status fm = active /\ fm_role fm = admin)
  /\ (fst result = Normal next ->
      holds_admin_role parentId (Authentication.u_id user) (db w) = true
      /\ forall permission,
           checkFamilyPermission permission
             (Some (Authentication.u_id user)) (Some parentId) w
           = (Normal next, w))
  /\ Authentication.requireAdmin (Some user) None w = (Normal next, w).
Proof.
  cbv zeta.
  assert (Hrun : Authentication.requireAdmin (Some user) (Some parentId) w
                 = (Normal
                      (match active_member_of parentId
                               (Authentication.u_id user) (db w) with
                       | Some fm =>
                           if Role_eqb (fm_role fm) admin then next
                           else answered (res_status_json 403
                                  "Apenas administradores podem realizar esta ação")
                       | None =>
                           answered (res_status_json 403
                             "Apenas administradores podem realizar esta ação")
                       end), w)).
  { unfold Authentication.requireAdmin, try_catch, bind, read.
    destruct parentId as [|c rest]; [congruence|].
    destruct (active_member_of (String c rest) (Authentication.u_id user) (db w))
      as [fm|]; [|reflexivity].
    now destruct (Role_eqb (fm_role fm) admin). }
  rewrite Hrun. cbn [fst snd].
  split; [reflexivity|].
  destruct (active_member_of parentId (Authentication.u_id user) (db w))
    as [fm|] eqn:Hfm.
  - pose proof Hfm as Hrow.
    apply (active_member_of_iff _ _ _ _ Hunique) in Hrow.
    destruct Hrow as (Hin & Hp & Hu & Hst).
    destruct (Role_eqb (fm_role fm) admin) eqn:Hrole.
    + split; [now left|]. split; [|split; [|reflexivity]].
      * split; [intros _|reflexivity]. exists fm.
        apply Role_eqb_eq in Hrole. repeat split; assumption.
      * intros _. split.
        -- unfold holds_admin_role.
           assert (member_of parentId (Authentication.u_id user) (db w)
                   = Some fm) as -> by (apply member_of_iff; auto).
           exact Hrole.
        -- intro permission.
           rewrite checkFamilyPermission_of_lookup by assumption.
           now rewrite Hfm, Hrole.
    + split; [now right|]. split; [|split; [discriminate|reflexivity]].
      split; [discriminate|].
      intros (x & Hx & Hxp & Hxu & Hxs & Hxr).
      assert (active_member_of parentId (Authentication.u_id user) (db w)
              = Some x) as H by (apply active_member_of_iff; auto).
      assert (x = fm) by congruence. subst x.
      apply Role_eqb_eq in Hxr. congruence.
  - split; [now right|]. split; [|split; [discriminate|reflexivity]].
    split; [discriminate|].
    intros (x & Hx & Hxp & Hxu & Hxs & _).
    assert (active_member_of parentId (Authentication.u_id user) (db w)
            = Some x) as H by (apply active_member_of_iff; auto).
    congruence.
Qed.

(** Carla, invited as admin and still pending, is stopped by requireAdmin. *)
Lemma requireAdmin_passes_active_admins_only_witness :
  fst (Authentication.requireAdmin
         (Some (Authentication.mkUser "u-carla" None)) (Some "p-1")
         Scenarios.pending_admin_world)
  = Normal (answered (res_status_json 403
              "Apenas administradores podem realizar esta ação")).
Proof.
  destruct (requireAdmin_passes_active_admins_only
              (Authentication.mkUser "u-carla" None) "p-1"
              Scenarios.pending_admin_world ltac:(discriminate) eq_refl)
    as (_ & [Hpass|Hstop] & [Honly _] & _); [|exact Hstop].
  destruct (Honly Hpass) as (fm & Hin & _ & Hu & Hst & _).
  cbn in Hin.
  destruct Hin as [<-|[<-|[<-|[]]]]; cbn in Hu, Hst; discriminate.
Defined.

(* ================================================================== *)
(** * Further properties: what the medication scan inserts *)
(* ================================================================== *)

(** X16: the medication scan notifies nobody.  Its member query embeds
    profiles in a select on family_members, which has two foreign keys to
    profiles (user_id and invited_by); the store refuses the embedding as
    ambiguous, the handler reads null and skips the dose.  So whatever the
    store, the clock and the push channel, also when an active medication
    has a time that passes the test of the scan and its recipient has
    members, the scan completes and leaves every table and the console as
    they were. *)
Theorem sendMedicationReminders_serves_nobody
    (send : PushSubscription -> NotificationPayload -> option Exn)
    (currentHour currentMinute : Z) (w : World) :
  relationships "family_members" "profiles" = 2%nat
  /\ (forall parentId, members_with_profiles parentId (db w) = None)
  /\ sendMedicationReminders send currentHour currentMinute w = (Normal tt, w)
  /\ forall med time member,
       In med (medications (db w)) -> med_is_active med = true ->
       In time (med_times med) ->
       due_in_five time currentHour currentMinute = true ->
       In member (members_of_parent (med_parent_id med) (db w)) ->
       notifications
         (db (snd (sendMedicationReminders send currentHour currentMinute w)))
       = notifications (db w).
Proof.
  split; [reflexivity|]. split; [reflexivity|].
  split; [apply sendMedicationReminders_idle|].
  intros. now rewrite sendMedicationReminders_idle.
Qed.

(** Losartana is due at 08:05 and the scan runs at 08:00: the dose passes
    the test, Ana is a member of Dona Maria with a profile, and no
    notification is created. *)
Lemma sendMedicationReminders_serves_nobody_witness :
  let w := mkWorld
      (mkDb [Scenarios.ana; Scenarios.bruno; Scenarios.carla]
            [Scenarios.dona_maria]
            [ Scenarios.membership "m-ana" "u-ana" admin Scenarios.full active;
              Scenarios.membership "m-bruno" "u-bruno" viewer
                Scenarios.read_only pending ]
            [ mkMedication "med-1" "p-1" "Losartana" "50mg" ["08:05"] true ]
            [] [] []) [] in
  due_in_five "08:05" 8 0 = true
  /\ map fm_user_id (members_of_parent "p-1" (db w)) = ["u-ana"; "u-bruno"]
  /\ notifications
       (db (snd (sendMedicationReminders Scenarios.channel 8 0 w))) = [].
Proof.
  cbv zeta. split; [reflexivity|]. split; [reflexivity|].
  refine (proj2 (proj2 (proj2 (sendMedicationReminders_serves_nobody
                                 Scenarios.channel 8 0 _)))
            (mkMedication "med-1" "p-1" "Losartana" "50mg" ["08:05"] true)
            "08:05"
            (Scenarios.membership "m-ana" "u-ana" admin Scenarios.full active)
            _ _ _ _ _).
  - left. reflexivity.
  - reflexivity.
  - left. reflexivity.
  - reflexivity.
  - left. reflexivity.
Defined.

(* ================================================================== *)
(** * Further properties: who is told of an invitation *)
(* ================================================================== *)

Lemma profile_is_registered (email : string) (d : Db) (p : Profile) :
  profile_by_email email d = Some p -> registered d (pr_id p) = true.
Proof.
  unfold profile_by_email, registered. intro H. apply single_Some in H.
  assert (In p (filter (fun q => String.eqb (pr_email q) email) (profiles d)))
    as Hin by (rewrite H; now left).
  apply filter_In in Hin. destruct Hin as [Hin _].
  apply mem_string_In. now apply in_map.
Qed.

(** X22: an admin with a profile invites a registered user who has no
    membership on the recipient, and the user accepts.  The invite leaves
    one notification, for the invited user, naming the inviter and the
    recipient; the accept leaves one more, for the inviter, naming the
    e-mail of the new member; no other notification is created. *)
Theorem invite_and_accept_tell_both_sides
    (send : PushSubscription -> NotificationPayload -> option Exn)
    (userId : string) (body : InviteBody) (newId userEmail : string) (now : Z)
    (w : World) (invited : Profile) (p : Parent)
    (Hgate : holds_admin_role (inv_parent_id body) userId (db w) = true)
    (Hprofile : profile_by_email (inv_email body) (db w) = Some invited)
    (Hpair : existsb (fun m => String.eqb (fm_parent_id m) (inv_parent_id body)
                               && String.eqb (fm_user_id m) (pr_id invited))
                     (family_members (db w)) = false)
    (Hfresh : existsb (fun m => String.eqb (fm_id m) newId)
                      (family_members (db w)) = false)
    (Hparent : single (filter (fun q => String.eqb (pa_id q) (inv_parent_id body))
                              (parents (db w))) = Some p)
    (Hinviter : registered (db w) userId = true) :
  let w1 := snd (invite send userId body newId w) in
  let w2 := snd (accept send (pr_id invited) userEmail newId now w1) in
  notifications (db w1)
  = (notifications (db w)
     ++ [added_note (full_name_or_default (profile_by_id userId (db w))) p
           (inv_parent_id body) (pr_id invited)])%list
  /\ notifications (db w2)
     = (notifications (db w1)
        ++ [accepted_note userEmail
              (parent_name_or_default (inv_parent_id body) (db w))
              (inv_parent_id body) newId userId])%list.
Proof.
  cbv zeta.
  set (row := mkFamilyMember newId (inv_parent_id body) (pr_id invited)
                (inv_role body)
                (Some match inv_permissions body with
                      | Some q => q
                      | None => default_permissions (inv_role body)
                      end)
                pending (Some userId) None).
  set (w0 := mkWorld (with_family_members (db w) (family_members (db w) ++ [row]))
                     (console w)).
  pose proof (profile_is_registered _ _ _ Hprofile) as Hinvited.
  destruct (notify_run send
              (added_note (full_name_or_default (profile_by_id userId (db w))) p
                 (inv_parent_id body) (pr_id invited)) w0 eq_refl)
    as [w1 (Hrun1 & Hrows1 & Hpr1 & Hpa1 & Hfm1 & _)].
  change (registered (db w0) (n_user_id (added_note
            (full_name_or_default (profile_by_id userId (db w))) p
            (inv_parent_id body) (pr_id invited))))
    with (registered (db w) (pr_id invited)) in Hrows1.
  rewrite Hinvited in Hrows1.
  assert (Hinvite : invite send userId body newId w
                    = (Normal (res_status_json 201 "Convite enviado com sucesso"),
                       w1)).
  { unfold invite, try_catch, bind, read.
    unfold holds_admin_role in Hgate.
    destruct (member_of (inv_parent_id body) userId (db w)) as [inviter|];
      [rewrite Hgate; cbn [negb] | discriminate].
    rewrite Hprofile. unfold member_of at 1.
    rewrite (existsb_false_filter _ _ Hpair).
    cbn [single option_map]. unfold insert_member.
    cbn [fm_id fm_parent_id fm_user_id]. rewrite Hfresh, Hpair.
    fold row. fold w0.
    unfold notifyFamilyMemberAdded, try_catch, bind, read.
    change (parents (db w0)) with (parents (db w)). rewrite Hparent.
    change (profile_by_id userId (db w0)) with (profile_by_id userId (db w)).
    match goal with
    | |- context [createNotification send ?u ?t ?ti ?m ?d ?wx] =>
        replace (createNotification send u t ti m d wx)
          with (@Normal unit tt, w1) by (symmetry; exact Hrun1)
    end.
    reflexivity. }
  rewrite Hinvite. cbn [snd].
  split; [exact Hrows1|].
  assert (Hpending : pending_invite newId (pr_id invited) (db w1) = Some row).
  { unfold pending_invite. rewrite Hfm1. cbn [db w0 family_members
      with_family_members]. rewrite filter_app.
    rewrite (filter_none _ (family_members (db w))).
    - cbn. now rewrite !String.eqb_refl.
    - intros m Hm. now rewrite (existsb_false_In _ _ m Hfresh Hm). }
  set (w1a := mkWorld
                (update_member newId (fun m =>
                   mkFamilyMember (fm_id m) (fm_parent_id m) (fm_user_id m)
                     (fm_role m) (fm_permissions m) active (fm_invited_by m)
                     (Some now)) (db w1))
                (console w1)).
  destruct (notify_run send
              (accepted_note userEmail
                 (parent_name_or_default (inv_parent_id body) (db w))
                 (inv_parent_id body) newId userId) w1a eq_refl)
    as [w2 (Hrun2 & Hrows2 & _)].
  change (registered (db w1a) (n_user_id (accepted_note userEmail
            (parent_name_or_default (inv_parent_id body) (db w))
            (inv_parent_id body) newId userId)))
    with (mem_string userId (map pr_id (profiles (db w1)))) in Hrows2.
  rewrite Hpr1 in Hrows2.
  change (mem_string userId (map pr_id (profiles (db w0))))
    with (registered (db w) userId) in Hrows2.
  rewrite Hinviter in Hrows2.
  assert (Hname : parent_name_or_default (inv_parent_id body) (db w1)
                  = parent_name_or_default (inv_parent_id body) (db w)).
  { unfold parent_name_or_default, parent_of. now rewrite Hpa1. }
  assert (Haccept : accept send (pr_id invited) userEmail newId now w1
                    = (Normal (res_status_json 200 "Convite aceito com sucesso"),
                       w2)).
  { unfold accept, try_catch, bind, read, write.
    rewrite Hpending. cbv beta iota. unfold row.
    cbn [fm_invited_by fm_parent_id or_empty]. rewrite Hname.
    match goal with
    | |- context [createNotification send ?u ?t ?ti ?m ?d ?wx] =>
        replace (createNotification send u t ti m d wx)
          with (@Normal unit tt, w2) by (symmetry; exact Hrun2)
    end.
    reflexivity. }
  rewrite Haccept. cbn [snd]. exact Hrows2.
Qed.

(** Ana invites Carla as editor; Carla accepts. *)
Lemma invite_and_accept_tell_both_sides_witness :
  let body := mkInviteBody "p-1" "carla@example.com" editor None in
  let w1 := snd (invite Scenarios.channel "u-ana" body "m-carla"
                   Scenarios.sole_admin_world) in
  let w2 := snd (accept Scenarios.channel "u-carla" "carla@example.com"
                   "m-carla" 10 w1) in
  map (fun n => (n_user_id n, n_message n)) (notifications (db w2))
  = [("u-carla", "Ana adicionou você para ajudar a cuidar de Dona Maria");
     ("u-ana", "carla@example.com aceitou o convite para cuidar de Dona Maria")].
Proof.
  cbv zeta.
  destruct (invite_and_accept_tell_both_sides Scenarios.channel "u-ana"
              (mkInviteBody "p-1" "carla@example.com" editor None)
              "m-carla" "carla@example.com" 10 Scenarios.sole_admin_world
              Scenarios.carla Scenarios.dona_maria
              eq_refl eq_refl eq_refl eq_refl eq_refl eq_refl)
    as [Hfirst Hsecond].
  change (pr_id Scenarios.carla) with "u-carla" in Hsecond.
  rewrite Hsecond, Hfirst. reflexivity.
Defined.
